(** * telecom-cart-api: the cart service and its Salesforce context double

    A shallow embedding of [src/services/salesforce-client.ts],
    [src/services/cart.ts] and [src/utils/cart.ts], and of what answers a
    request: [src/controllers/cart.ts], [src/middleware/error-handler.ts]
    and [src/errors/index.ts].

    - JavaScript numbers are IEEE 754 binary64 values: Rocq's primitive
      [float], whose [+] and [*] are the operations of the hardware.
      [Number(x.toFixed(2))], [String(x)] and the comparison of an array
      length with a number are computed from the exact binary value of [x].
    - A [Date] is a time value in milliseconds since the epoch, or the
      Invalid Date.  A clock reading ([new Date()], [Date.now()]) is a time
      value, in [Z]; a function that reads the clock once takes the reading
      as an argument, and a function of the service takes the clock of the
      call, which gives each place that reads the clock its own reading.
    - Arrays and context objects are JavaScript objects: they live in a heap
      and the maps of both classes hold references, so that an array stored
      under two keys is one array.
    - [nanoid] is an oracle: the [k]-th call returns [nanoidSource k]. *)

From Stdlib Require Import ZArith.
From Stdlib Require Import Floats.PrimFloat Floats.SpecFloat Floats.FloatOps.
From stdpp Require Import gmap strings list pretty.

Set Warnings "-inexact-float".

Local Open Scope string_scope.
Local Open Scope Z_scope.

(* ===================================================================== *)
(** ** JavaScript numbers *)
(* ===================================================================== *)

Module Number.

Abbreviation number := float (only parsing).

(** The integer [n] for which [n / 100 - m * 2^e] is as close to zero as
    possible, the larger [n] when there are two (step 8.a of
    [Number.prototype.toFixed], applied to a positive [m * 2^e]). *)
Definition nearestCents (m : positive) (e : Z) : Z :=
  if 0 <=? e then Z.pos m * 2 ^ e * 100
  else (200 * Z.pos m + 2 ^ (- e)) / (2 * 2 ^ (- e)).

(** [Number(s)] for the decimal string [s] of [n / 100], signed: the
    binary64 value nearest to [n / 100] (ties to even). *)
Definition ofCents (negative : bool) (n : Z) : number :=
  match n with
  | Z.pos p =>
      SF2Prim (SFdiv prec emax (S754_finite negative p 0)
                               (S754_finite false 100 0))
  | _ => if negative then (-0)%float else 0%float
  end.

(** [Number(x.toFixed(2))].  [toFixed] prints NaN, the infinities and
    every [x] with [|x| >= 1e21] as [String(x)], which [Number] reads
    back as [x]; it drops the sign of [-0]. *)
Definition toFixed2 (x : number) : number :=
  match Prim2SF x with
  | S754_finite s m e =>
      if PrimFloat.leb 1e21%float (PrimFloat.abs x) then x
      else ofCents s (nearestCents m e)
  | S754_zero _ => 0%float
  | S754_infinity _ | S754_nan => x
  end.

(** [Number.isInteger(x)] *)
Definition isInteger (x : number) : bool :=
  match Prim2SF x with
  | S754_zero _ => true
  | S754_finite _ m e =>
      if 0 <=? e then true else Z.pos m mod 2 ^ (- e) =? 0
  | S754_infinity _ | S754_nan => false
  end.

(** The number for the integer [n]: the nearest binary64 value, which is
    [n] itself up to [2^53] (an array length, a time value). *)
Definition ofZ (n : Z) : number :=
  SF2Prim (binary_normalize prec emax n 0 false).

(** The order of the integer [n] and the number [x], [None] when [x] is
    NaN: [x] is [m * 2^e], and the two are compared exactly. *)
Definition compareZ (n : Z) (x : number) : option comparison :=
  match Prim2SF x with
  | S754_zero _ => Some (n ?= 0)
  | S754_finite s m e =>
      let v := if s then Z.neg m else Z.pos m in
      Some (if 0 <=? e then n ?= v * 2 ^ e else n * 2 ^ (- e) ?= v)
  | S754_infinity s => Some (if s then Gt else Lt)
  | S754_nan => None
  end.

(** [n > x] and [n >= x] for an array length [n] *)
Definition gtZ (n : Z) (x : number) : bool :=
  match compareZ n x with
  | Some Gt => true
  | _ => false
  end.

Definition geZ (n : Z) (x : number) : bool :=
  match compareZ n x with
  | Some Gt | Some Eq => true
  | _ => false
  end.

(** *** [Number::toString]

    [String(x)] for a finite [x > 0] is made of the integers [n], [k] and
    [s] with [10^(k-1) <= s < 10^k] for which [s * 10^(n-k)] reads back as
    [x], [k] as small as possible and then [s * 10^(n-k)] as close to [x] as
    possible. *)

(** The number of decimal digits of [n > 0]. *)
Fixpoint digitsFuel (fuel : nat) (n : Z) : Z :=
  match fuel with
  | O => 0
  | S fuel => if n <? 10 then 1 else 1 + digitsFuel fuel (n / 10)
  end.

Definition decimalDigits (n : Z) : Z :=
  digitsFuel (Z.to_nat (Z.log2 n) + 1) n.

(** The least [j >= 0] with [num * 10^j >= den]. *)
Fixpoint scaleFuel (fuel : nat) (num den : Z) : Z :=
  match fuel with
  | O => 0
  | S fuel => if den <=? num then 0 else 1 + scaleFuel fuel (num * 10) den
  end.

(** The [n] with [10^(n-1) <= num / den < 10^n]; a binary64 value is at
    least [2^-1074]. *)
Definition magnitude10 (num den : Z) : Z :=
  if den <=? num then decimalDigits (num / den)
  else 1 - scaleFuel 400 num den.

(** [Number(s)] for the decimal string of [s * 10^p]: the binary64 value
    nearest to it (ties to even). *)
Definition ofDecimal (s : positive) (p : Z) : number :=
  if 0 <=? p then ofZ (Z.pos s * 10 ^ p)
  else SF2Prim (SFdiv prec emax (S754_finite false s 0)
                  (S754_finite false (Z.to_pos (10 ^ (- p))) 0)).

(** The [s] of [k] digits for [x = num / den], and its [n], if there is
    one: of the two multiples of [10^(n-k)] next to [x], the one that reads
    back as [x]; the closer one when both do, the even one when they are
    equally close. *)
Definition candidate (x : number) (num den n k : Z) : option (Z * Z) :=
  let A := if 0 <=? n - k then num else num * 10 ^ (k - n) in
  let D := if 0 <=? n - k then den * 10 ^ (n - k) else den in
  let lo := A / D in
  let r := A mod D in
  let hi := lo + 1 in
  let ok s := (0 <? s) && PrimFloat.eqb (ofDecimal (Z.to_pos s) (n - k)) x in
  let pick s :=
    if s =? 10 ^ k then Some (10 ^ (k - 1), n + 1) else Some (s, n) in
  match ok lo, ok hi with
  | true, true =>
      if 2 * r <? D then pick lo
      else if D <? 2 * r then pick hi
      else if Z.even lo then pick lo else pick hi
  | true, false => pick lo
  | false, true => pick hi
  | false, false => None
  end.

(** [k], [s] and [n], trying [k], [k + 1], ...; 17 digits always do. *)
Fixpoint shortest (fuel : nat) (x : number) (num den n k : Z) : Z * Z * Z :=
  match fuel with
  | O => (k, 0, n)
  | S fuel =>
      match candidate x num den n k with
      | Some (s, n') => (k, s, n')
      | None => shortest fuel x num den n (k + 1)
      end
  end.

Fixpoint zeros (n : nat) : string :=
  match n with
  | O => ""
  | S n => "0" +:+ zeros n
  end.

(** Steps 5 to 10 of [Number::toString] for [x = m * 2^e > 0]. *)
Definition positiveToString (x : number) (m : positive) (e : Z) : string :=
  let num := if 0 <=? e then Z.pos m * 2 ^ e else Z.pos m in
  let den := if 0 <=? e then 1 else 2 ^ (- e) in
  let '(k, s, n) := shortest 17 x num den (magnitude10 num den) 1 in
  let digits := pretty s in
  let exponent :=
    (if 0 <? n - 1 then "+" else "-") +:+ pretty (Z.abs (n - 1)) in
  if (k <=? n) && (n <=? 21) then digits +:+ zeros (Z.to_nat (n - k))
  else if (0 <? n) && (n <=? 21) then
    String.substring 0 (Z.to_nat n) digits +:+ "."
      +:+ String.substring (Z.to_nat n) (Z.to_nat (k - n)) digits
  else if (-6 <? n) && (n <=? 0) then
    "0." +:+ zeros (Z.to_nat (- n)) +:+ digits
  else if k =? 1 then digits +:+ "e" +:+ exponent
  else String.substring 0 1 digits +:+ "."
         +:+ String.substring 1 (Z.to_nat (k - 1)) digits
         +:+ "e" +:+ exponent.

(** [String(x)], as a template literal prints a number. *)
Definition toString (x : number) : string :=
  match Prim2SF x with
  | S754_nan => "NaN"
  | S754_zero _ => "0"
  | S754_infinity s => if s then "-Infinity" else "Infinity"
  | S754_finite s m e =>
      (if s then "-" else "") +:+ positiveToString (PrimFloat.abs x) m e
  end.

End Number.

Import Number.

(* ===================================================================== *)
(** ** Types ([src/types]) *)
(* ===================================================================== *)

Inductive ProductType := PHONE | PLAN | ADDON.

Global Instance ProductType_eq_dec : EqDecision ProductType.
Proof. solve_decision. Defined.

Record Product := {
  product_id : string;
  name : string;
  type : ProductType;
  price : number;
  requiresPhone : option bool;
}.

Record CartItem := {
  id : string;
  productId : string;
  productName : string;
  productType : ProductType;
  quantity : number;
  unitPrice : number;
  totalPrice : number;
}.

Record AddItemRequest := {
  req_productId : string;
  req_productName : string;
  req_productType : ProductType;
  req_quantity : number;
  req_unitPrice : number;
  req_totalPrice : number;
}.

(** A [Date] object: its time value, [None] for the Invalid Date (whose
    time value is NaN). *)
Definition Date : Type := option Z.

(** [new Date(value)]: the time value is [TimeClip(value)], NaN when
    [value] is not finite or beyond 8.64e15 ms, and else [value] without
    its fraction. *)
Definition newDate (value : number) : Date :=
  match Prim2SF value with
  | S754_zero _ => Some 0
  | S754_finite s m e =>
      if PrimFloat.ltb 8.64e15%float (PrimFloat.abs value) then None
      else
        let magnitude :=
          if 0 <=? e then Z.pos m * 2 ^ e else Z.pos m / 2 ^ (- e) in
        Some (if s then - magnitude else magnitude)
  | S754_infinity _ | S754_nan => None
  end.

(** [now.getTime()] for a clock reading [now] *)
Definition getTime (now : Z) : number := ofZ now.

(** [now < date] and [now > date] for a clock reading [now]: both are false
    of the Invalid Date. *)
Definition before (now : Z) (date : Date) : Prop :=
  match date with
  | Some t => now < t
  | None => False
  end.

Definition after (now : Z) (date : Date) : Prop :=
  match date with
  | Some t => now > t
  | None => False
  end.

Global Instance before_dec now date : Decision (before now date).
Proof. destruct date; simpl; apply _. Defined.

Global Instance after_dec now date : Decision (after now date).
Proof. destruct date; simpl; apply _. Defined.

Record SalesforceContext := {
  contextId : string;
  cartId : string;
  expiresAt : Date;
  createdAt : Z;
}.

(** [context.expiresAt = t] *)
Definition set_expiresAt (t : Date) (context : SalesforceContext)
  : SalesforceContext :=
  {| contextId := contextId context; cartId := cartId context;
     expiresAt := t; createdAt := createdAt context |}.

Record Cart := {
  cart_id : string;
  items : list CartItem;
  subtotal : number;
  tax : number;
  total : number;
  cart_createdAt : Z;
  cart_updatedAt : Z;
}.

Record ValidationResult := {
  valid : bool;
  errors : list string;
}.

(** [config.cart]: each field is [Number(process.env.X) || default], a
    number that is neither zero nor NaN. *)
Record CartConfig := {
  taxRate : number;
  maxItemsPerCart : number;
}.

(** [config.cart] when the environment sets neither [TAX_RATE] nor
    [MAX_ITEMS_PER_CART]. *)
Definition defaultCartConfig : CartConfig :=
  {| taxRate := 0.13%float; maxItemsPerCart := 50 |}.

(* ===================================================================== *)
(** ** Cart utility functions ([src/utils/cart.ts]) *)
(* ===================================================================== *)

Definition calculateItemTotal (unitPrice quantity : number) : number :=
  toFixed2 (unitPrice * quantity)%float.

Definition calculateSubtotal (items : list CartItem) : number :=
  let subtotal :=
    fold_left (fun sum item => (sum + totalPrice item)%float) items 0%float in
  toFixed2 subtotal.

Definition calculateTax (config : CartConfig) (subtotal : number) : number :=
  let tax := (subtotal * taxRate config)%float in
  toFixed2 tax.

Definition calculateTotal (subtotal tax : number) : number :=
  toFixed2 (subtotal + tax)%float.

Definition isType (t : ProductType) (item : CartItem) : bool :=
  bool_decide (productType item = t).

Definition invalidQuantity (item : CartItem) : bool :=
  PrimFloat.leb (quantity item) 0%float || negb (isInteger (quantity item)).

Definition push {A} (xs : list A) (x : A) : list A := xs ++ [x].

Definition validateCartRules (config : CartConfig) (items : list CartItem)
  : ValidationResult :=
  let errors := [] in
  let errors :=
    if gtZ (Z.of_nat (length items)) (maxItemsPerCart config)
    then push errors ("Cart exceeds maximum of "
                        +:+ toString (maxItemsPerCart config) +:+ " items")
    else errors in
  let hasPhone := existsb (isType PHONE) items in
  let hasPlans := List.filter (isType PLAN) items in
  let errors :=
    if (0 <? length hasPlans)%nat && negb hasPhone
    then push errors "Cart contains plans but no phone. Plans require a phone."
    else errors in
  let phoneCount := length (List.filter (isType PHONE) items) in
  let errors :=
    if (1 <? phoneCount)%nat
    then push errors "Only one phone is allowed per cart"
    else errors in
  let errors :=
    if (1 <? length hasPlans)%nat
    then push errors "Only one plan is allowed per cart"
    else errors in
  let invalidQuantities := List.filter invalidQuantity items in
  let errors :=
    if (0 <? length invalidQuantities)%nat
    then push errors "Cart contains items with invalid quantities"
    else errors in
  {| valid := bool_decide (length errors = 0%nat); errors := errors |}.

Record CanAdd := {
  allowed : bool;
  reason : option string;
}.

Definition canAddItemType (config : CartConfig) (items : list CartItem)
    (productType : ProductType) : CanAdd :=
  if geZ (Z.of_nat (length items)) (maxItemsPerCart config) then
    {| allowed := false;
       reason := Some ("Cart has reached maximum of "
                         +:+ toString (maxItemsPerCart config) +:+ " items") |}
  else if bool_decide (productType = PHONE)
          && (1 <=? length (List.filter (isType PHONE) items))%nat then
    {| allowed := false; reason := Some "Only one phone is allowed per cart" |}
  else if bool_decide (productType = PLAN)
          && (1 <=? length (List.filter (isType PLAN) items))%nat then
    {| allowed := false; reason := Some "Only one plan is allowed per cart" |}
  else {| allowed := true; reason := None |}.

(* ===================================================================== *)
(** ** The object store and the two services' fields *)
(* ===================================================================== *)

(** A reference to an object of the heap: an index in the allocation order.
    Objects are never freed. *)
Abbreviation ref := nat (only parsing).

Record World := {
  (** [config.cart], read by the utility functions *)
  config : CartConfig;
  (** [nanoid]: its results in call order, and the number of calls made *)
  nanoidSource : nat -> string;
  nanoidCalls : nat;
  (** the [SalesforceContext] objects and the [CartItem[]] arrays *)
  contextObjects : list SalesforceContext;
  arrays : list (list CartItem);
  (** [SalesforceCartClient] *)
  contexts : gmap string ref;
  cartItems : gmap string ref;
  contextTTL : number;
  (** [CartService] *)
  contextCache : gmap string ref;
  shadowState : gmap string ref;
}.

Definition set_nanoidCalls (n : nat) (w : World) : World :=
  {| config := config w; nanoidSource := nanoidSource w; nanoidCalls := n;
     contextObjects := contextObjects w; arrays := arrays w;
     contexts := contexts w; cartItems := cartItems w;
     contextTTL := contextTTL w;
     contextCache := contextCache w; shadowState := shadowState w |}.

Definition set_contextObjects (h : list SalesforceContext) (w : World)
  : World :=
  {| config := config w; nanoidSource := nanoidSource w;
     nanoidCalls := nanoidCalls w;
     contextObjects := h; arrays := arrays w;
     contexts := contexts w; cartItems := cartItems w;
     contextTTL := contextTTL w;
     contextCache := contextCache w; shadowState := shadowState w |}.

Definition set_arrays (h : list (list CartItem)) (w : World) : World :=
  {| config := config w; nanoidSource := nanoidSource w;
     nanoidCalls := nanoidCalls w;
     contextObjects := contextObjects w; arrays := h;
     contexts := contexts w; cartItems := cartItems w;
     contextTTL := contextTTL w;
     contextCache := contextCache w; shadowState := shadowState w |}.

Definition set_contexts (m : gmap string ref) (w : World) : World :=
  {| config := config w; nanoidSource := nanoidSource w;
     nanoidCalls := nanoidCalls w;
     contextObjects := contextObjects w; arrays := arrays w;
     contexts := m; cartItems := cartItems w;
     contextTTL := contextTTL w;
     contextCache := contextCache w; shadowState := shadowState w |}.

Definition set_cartItems (m : gmap string ref) (w : World) : World :=
  {| config := config w; nanoidSource := nanoidSource w;
     nanoidCalls := nanoidCalls w;
     contextObjects := contextObjects w; arrays := arrays w;
     contexts := contexts w; cartItems := m;
     contextTTL := contextTTL w;
     contextCache := contextCache w; shadowState := shadowState w |}.

Definition set_contextCache (m : gmap string ref) (w : World) : World :=
  {| config := config w; nanoidSource := nanoidSource w;
     nanoidCalls := nanoidCalls w;
     contextObjects := contextObjects w; arrays := arrays w;
     contexts := contexts w; cartItems := cartItems w;
     contextTTL := contextTTL w;
     contextCache := m; shadowState := shadowState w |}.

Definition set_shadowState (m : gmap string ref) (w : World) : World :=
  {| config := config w; nanoidSource := nanoidSource w;
     nanoidCalls := nanoidCalls w;
     contextObjects := contextObjects w; arrays := arrays w;
     contexts := contexts w; cartItems := cartItems w;
     contextTTL := contextTTL w;
     contextCache := contextCache w; shadowState := m |}.

(** [new SalesforceCartClient(contextTTL)] and [new CartService(sfClient)] *)
Definition newWorld (config : CartConfig) (nanoid : nat -> string)
    (contextTTL : number) : World :=
  {| config := config; nanoidSource := nanoid; nanoidCalls := 0;
     contextObjects := []; arrays := [];
     contexts := ∅; cartItems := ∅; contextTTL := contextTTL;
     contextCache := ∅; shadowState := ∅ |}.

(* ===================================================================== *)
(** ** Computations: state, exceptions *)
(* ===================================================================== *)

Inductive Exn :=
| NotFoundError (resource id : string)
| Error (message : string).

(** How a call ends.  [Dangling] is not a JavaScript outcome: it marks the
    use of a reference that is not in the heap.  The services only use the
    references they created; the statements below are about [Return] and
    [Throw]. *)
Inductive Completion (A : Type) :=
| Return (a : A)
| Throw (e : Exn)
| Dangling.
Arguments Return {A} a.
Arguments Throw {A} e.
Arguments Dangling {A}.

Definition M (A : Type) : Type := World -> Completion A * World.

Definition ret {A} (a : A) : M A := fun w => (Return a, w).
Definition throw {A} (e : Exn) : M A := fun w => (Throw e, w).
Definition dangling {A} : M A := fun w => (Dangling, w).

Definition bind {A B} (m : M A) (k : A -> M B) : M B :=
  fun w =>
    match m w with
    | (Return a, w') => k a w'
    | (Throw e, w') => (Throw e, w')
    | (Dangling, w') => (Dangling, w')
    end.

Definition get : M World := fun w => (Return w, w).
Definition modify (f : World -> World) : M unit := fun w => (Return tt, f w).

Notation "'let*' x := m 'in' k" := (bind m (fun x => k))
  (at level 10, x name, m at level 100, k at level 200).
Notation "m ;;; k" := (bind m (fun _ => k))
  (at level 100, k at level 200, right associativity).

(** [for (const x of xs) await body(x)] over an array that the body does not
    change.  The body is told the number of its iteration, the first being
    number [i]. *)
Fixpoint forOf {A} (i : nat) (xs : list A) (body : nat -> A -> M unit)
  : M unit :=
  match xs with
  | [] => ret tt
  | x :: xs => body i x ;;; forOf (S i) xs body
  end.

(** [for (const x of xs) ...] where the body updates a local variable of
    the enclosing function. *)
Fixpoint forOfWith {A S} (xs : list A) (body : S -> A -> M S) (s : S) : M S :=
  match xs with
  | [] => ret s
  | x :: xs => let* s := body s x in forOfWith xs body s
  end.

(** [try { body } catch (error) { handler(error) }] *)
Definition tryCatch {A} (body : M A) (handler : Exn -> M A) : M A :=
  fun w =>
    match body w with
    | (Throw e, w') => handler e w'
    | r => r
    end.

(** *** Heap access *)

Definition newContextObject (context : SalesforceContext) : M ref :=
  fun w => (Return (length (contextObjects w)),
            set_contextObjects (contextObjects w ++ [context]) w).

Definition readContext (c : ref) : M SalesforceContext :=
  fun w => match contextObjects w !! c with
           | Some context => (Return context, w)
           | None => (Dangling, w)
           end.

Definition writeContext (c : ref) (context : SalesforceContext) : M unit :=
  modify (fun w => set_contextObjects (<[c := context]> (contextObjects w)) w).

Definition newArray (items : list CartItem) : M ref :=
  fun w => (Return (length (arrays w)), set_arrays (arrays w ++ [items]) w).

Definition readArray (a : ref) : M (list CartItem) :=
  fun w => match arrays w !! a with
           | Some items => (Return items, w)
           | None => (Dangling, w)
           end.

Definition writeArray (a : ref) (items : list CartItem) : M unit :=
  modify (fun w => set_arrays (<[a := items]> (arrays w)) w).

(** [map.get(key) || []] *)
Definition getOrEmpty (m : World -> gmap string ref) (key : string) : M ref :=
  let* w := get in
  match m w !! key with
  | Some a => ret a
  | None => newArray []
  end.

(** [nanoid(size)]: the next result of the oracle; the length of the
    string is not modelled. *)
Definition nanoid (size : nat) : M string :=
  fun w => (Return (nanoidSource w (nanoidCalls w)),
            set_nanoidCalls (S (nanoidCalls w)) w).

(** [items.findIndex((item) => item.id === itemId)]: [None] for [-1] *)
Definition findIndex (itemId : string) (items : list CartItem) : option nat :=
  fst <$> list_find (fun item => id item = itemId) items.

(* ===================================================================== *)
(** ** [SalesforceCartClient] ([src/services/salesforce-client.ts]) *)
(* ===================================================================== *)

Module SalesforceCartClient.

Definition SF_CONTEXT_EXPIRED : Exn := Error "SF_CONTEXT_EXPIRED".
Definition ITEM_NOT_FOUND : Exn := Error "ITEM_NOT_FOUND".

(** Returns the context object it created. *)
Definition createContext (cartId : string) (now : Z) : M ref :=
  let* r := nanoid 12 in
  let contextId := "sf_ctx_" +:+ r in
  let* w := get in
  let expiresAt := newDate (getTime now + contextTTL w)%float in
  let* context :=
    newContextObject {| contextId := contextId; cartId := cartId;
                        expiresAt := expiresAt; createdAt := now |} in
  modify (fun w => set_contexts (<[contextId := context]> (contexts w)) w) ;;;
  let* a := newArray [] in
  modify (fun w => set_cartItems (<[contextId := a]> (cartItems w)) w) ;;;
  ret context.

Definition isContextValid (contextId : string) (now : Z) (w : World) : bool :=
  match contexts w !! contextId with
  | None => false
  | Some c =>
      match contextObjects w !! c with
      | Some context => bool_decide (before now (expiresAt context))
      | None => false
      end
  end.

(** Returns the stored array itself, not a copy. *)
Definition getCartItems (contextId : string) (now : Z) : M ref :=
  let* w := get in
  if negb (isContextValid contextId now w) then throw SF_CONTEXT_EXPIRED
  else getOrEmpty cartItems contextId.

Definition addItem (contextId : string) (itemRequest : AddItemRequest)
    (now : Z) : M CartItem :=
  let* w := get in
  if negb (isContextValid contextId now w) then throw SF_CONTEXT_EXPIRED
  else
    let* items := getOrEmpty cartItems contextId in
    let* r := nanoid 8 in
    let itemId := "item_" +:+ r in
    let newItem :=
      {| id := itemId;
         productId := req_productId itemRequest;
         productName := req_productName itemRequest;
         productType := req_productType itemRequest;
         quantity := req_quantity itemRequest;
         unitPrice := req_unitPrice itemRequest;
         totalPrice := req_totalPrice itemRequest |} in
    let* old := readArray items in
    writeArray items (push old newItem) ;;;
    modify (fun w => set_cartItems (<[contextId := items]> (cartItems w)) w) ;;;
    ret newItem.

Definition updateItem (contextId itemId : string) (quantity : number)
    (now : Z) : M CartItem :=
  let* w := get in
  if negb (isContextValid contextId now w) then throw SF_CONTEXT_EXPIRED
  else
    let* items := getOrEmpty cartItems contextId in
    let* content := readArray items in
    match findIndex itemId content with
    | None => throw ITEM_NOT_FOUND
    | Some itemIndex =>
        match content !! itemIndex with
        | None => dangling
        | Some item =>
            let updatedItem :=
              {| id := id item;
                 productId := productId item;
                 productName := productName item;
                 productType := productType item;
                 quantity := quantity;
                 unitPrice := unitPrice item;
                 totalPrice := (unitPrice item * quantity)%float |} in
            writeArray items (<[itemIndex := updatedItem]> content) ;;;
            modify (fun w =>
              set_cartItems (<[contextId := items]> (cartItems w)) w) ;;;
            ret updatedItem
        end
    end.

Definition removeItem (contextId itemId : string) (now : Z) : M unit :=
  let* w := get in
  if negb (isContextValid contextId now w) then throw SF_CONTEXT_EXPIRED
  else
    let* items := getOrEmpty cartItems contextId in
    let* content := readArray items in
    match findIndex itemId content with
    | None => throw ITEM_NOT_FOUND
    | Some itemIndex =>
        writeArray items (delete itemIndex content) ;;;
        modify (fun w =>
          set_cartItems (<[contextId := items]> (cartItems w)) w)
    end.

Definition clearContext (contextId : string) (now : Z) : M unit :=
  let* w := get in
  if negb (isContextValid contextId now w) then throw SF_CONTEXT_EXPIRED
  else
    let* a := newArray [] in
    modify (fun w => set_cartItems (<[contextId := a]> (cartItems w)) w).

(** Changes the context object in place: every holder of the object sees
    the new [expiresAt], [new Date(Date.now() - 1000)] for the clock reading
    [now]. *)
Definition expireContext (contextId : string) (now : Z) : M unit :=
  let* w := get in
  match contexts w !! contextId with
  | None => ret tt
  | Some c =>
      let* context := readContext c in
      let expiresAt := newDate (getTime now - 1000)%float in
      writeContext c (set_expiresAt expiresAt context) ;;;
      modify (fun w => set_contexts (<[contextId := c]> (contexts w)) w)
  end.

(** The loop visits every entry of [contexts] once: deleting the entry
    under the iterator does not disturb a [Map] iteration.  The order of the
    visits is the one of [map_to_list], not the insertion order of the
    [Map]. *)
Definition cleanupExpiredContexts (now : Z) : M nat :=
  let* w := get in
  forOfWith (map_to_list (contexts w))
    (fun count entry =>
       let contextId := fst entry in
       let* context := readContext (snd entry) in
       if bool_decide (after now (expiresAt context)) then
         modify (fun w => set_contexts (delete contextId (contexts w)) w) ;;;
         modify (fun w => set_cartItems (delete contextId (cartItems w)) w) ;;;
         ret (S count)
       else ret count)
    0%nat.

(** Returns the context object, [None] for [undefined]. *)
Definition getContext (contextId : string) (w : World) : option ref :=
  contexts w !! contextId.

Definition getActiveContextCount (w : World) : nat := size (contexts w).

End SalesforceCartClient.

(* ===================================================================== *)
(** ** [CartService] ([src/services/cart.ts]) *)
(* ===================================================================== *)

(** The places where a call of the service or of a route reads the clock:
    [new Date()] in [ensureValidContext], in [createContext], in
    [isContextValid] for each call of the client (the replay calls
    [addItem] once per shadow item), twice in [buildCart], in the handler
    of the route and in [errorHandler]. *)
Inductive Reading :=
| InEnsureValidContext
| InCreateContext
| InReplay (i : nat)
| InGetCartItems
| InAddItem
| InUpdateItem
| InRemoveItem
| InBuildCart_createdAt
| InBuildCart_updatedAt
| InController
| InErrorHandler.

(** The clock of a call: the time value read at each place. *)
Definition Clock : Type := Reading -> Z.

(** The clock of a call that runs within one millisecond. *)
Definition instant (t : Z) : Clock := fun _ => t.

Module CartService.

Definition mkProduct (id name : string) (type : ProductType) (price : number)
    (requiresPhone : option bool) : Product :=
  {| product_id := id; name := name; type := type; price := price;
     requiresPhone := requiresPhone |}.

(** Product catalog (in-memory) *)
Definition catalog : list (string * Product) :=
  [
    ("phone_iphone15",
      mkProduct "phone_iphone15" "iPhone 15 Pro" PHONE 1399.99 None);
    ("phone_samsung_s24",
      mkProduct "phone_samsung_s24" "Samsung Galaxy S24" PHONE 1199.99 None);
    ("plan_unlimited",
      mkProduct "plan_unlimited" "Unlimited Plan" PLAN 85.00 (Some true));
    ("plan_5gb",
      mkProduct "plan_5gb" "5GB Plan" PLAN 55.00 (Some true));
    ("addon_insurance",
      mkProduct "addon_insurance" "Device Insurance" ADDON 12.00 None);
    ("addon_earbuds",
      mkProduct "addon_earbuds" "Wireless Earbuds" ADDON 199.99 None)
  ].

Definition products : gmap string Product := list_to_map catalog.

(** The parameter [items] is the array object; the view records what the
    array holds when the call returns. *)
Definition buildCart (cartId : string) (items : ref) (now : Clock) : M Cart :=
  let* content := readArray items in
  let* w := get in
  let subtotal := calculateSubtotal content in
  let tax := calculateTax (config w) subtotal in
  let total := calculateTotal subtotal tax in
  ret {| cart_id := cartId; items := content;
         subtotal := subtotal; tax := tax; total := total;
         cart_createdAt := now InBuildCart_createdAt;
         cart_updatedAt := now InBuildCart_updatedAt |}.

Definition initializeCart (now : Clock) : M Cart :=
  let* r := nanoid 10 in
  let cartId := "cart_" +:+ r in
  let* context :=
    SalesforceCartClient.createContext cartId (now InCreateContext) in
  modify (fun w =>
    set_contextCache (<[cartId := context]> (contextCache w)) w) ;;;
  let* shadow := newArray [] in
  modify (fun w =>
    set_shadowState (<[cartId := shadow]> (shadowState w)) w) ;;;
  let* empty := newArray [] in
  buildCart cartId empty now.

Definition replayRequest (item : CartItem) : AddItemRequest :=
  {| req_productId := productId item;
     req_productName := productName item;
     req_productType := productType item;
     req_quantity := quantity item;
     req_unitPrice := unitPrice item;
     req_totalPrice := totalPrice item |}.

(** The loop runs over the shadow array while [addItem] appends to the
    array of the context just created, which is another object. *)
Definition ensureValidContext (cartId : string) (now : Clock) : M string :=
  let* w := get in
  match contextCache w !! cartId with
  | None => throw (NotFoundError "Cart" cartId)
  | Some c =>
      let* context := readContext c in
      if bool_decide (after (now InEnsureValidContext) (expiresAt context))
      then
        let* shadowItems := getOrEmpty shadowState cartId in
        let* nc :=
          SalesforceCartClient.createContext cartId (now InCreateContext) in
        let* newContext := readContext nc in
        let* content := readArray shadowItems in
        forOf 0 content (fun i item =>
          SalesforceCartClient.addItem (contextId newContext)
            (replayRequest item) (now (InReplay i)) ;;; ret tt) ;;;
        modify (fun w =>
          set_contextCache (<[cartId := nc]> (contextCache w)) w) ;;;
        ret (contextId newContext)
      else ret (contextId context)
  end.

Definition getCart (cartId : string) (now : Clock) : M Cart :=
  let* contextId := ensureValidContext cartId now in
  let* items :=
    SalesforceCartClient.getCartItems contextId (now InGetCartItems) in
  modify (fun w => set_shadowState (<[cartId := items]> (shadowState w)) w) ;;;
  buildCart cartId items now.

Definition addItem (cartId productId : string) (quantity : number)
    (now : Clock) : M Cart :=
  match products !! productId with
  | None => throw (NotFoundError "Product" productId)
  | Some product =>
      let* contextId := ensureValidContext cartId now in
      let* currentItems :=
        SalesforceCartClient.getCartItems contextId (now InGetCartItems) in
      let* current := readArray currentItems in
      let* w := get in
      let canAdd := canAddItemType (config w) current (type product) in
      if negb (allowed canAdd) then throw (Error (default "" (reason canAdd)))
      else
        let totalPrice := calculateItemTotal (price product) quantity in
        let* newItem :=
          SalesforceCartClient.addItem contextId
            {| req_productId := product_id product;
               req_productName := name product;
               req_productType := type product;
               req_quantity := quantity;
               req_unitPrice := price product;
               req_totalPrice := totalPrice |} (now InAddItem) in
        let* shadowItems := getOrEmpty shadowState cartId in
        let* old := readArray shadowItems in
        writeArray shadowItems (push old newItem) ;;;
        modify (fun w =>
          set_shadowState (<[cartId := shadowItems]> (shadowState w)) w) ;;;
        buildCart cartId shadowItems now
  end.

Definition updateItem (cartId itemId : string) (quantity : number)
    (now : Clock) : M Cart :=
  let* contextId := ensureValidContext cartId now in
  let* updatedItem :=
    SalesforceCartClient.updateItem contextId itemId quantity
      (now InUpdateItem) in
  let* shadowItems := getOrEmpty shadowState cartId in
  let* content := readArray shadowItems in
  match findIndex itemId content with
  | Some index =>
      writeArray shadowItems (<[index := updatedItem]> content) ;;;
      modify (fun w =>
        set_shadowState (<[cartId := shadowItems]> (shadowState w)) w)
  | None => ret tt
  end ;;;
  buildCart cartId shadowItems now.

Definition removeItem (cartId itemId : string) (now : Clock) : M Cart :=
  let* contextId := ensureValidContext cartId now in
  SalesforceCartClient.removeItem contextId itemId (now InRemoveItem) ;;;
  let* shadowItems := getOrEmpty shadowState cartId in
  let* content := readArray shadowItems in
  match findIndex itemId content with
  | Some index =>
      writeArray shadowItems (delete index content) ;;;
      modify (fun w =>
        set_shadowState (<[cartId := shadowItems]> (shadowState w)) w)
  | None => ret tt
  end ;;;
  buildCart cartId shadowItems now.

Definition validateCart (cartId : string) (now : Clock)
  : M ValidationResult :=
  let* contextId := ensureValidContext cartId now in
  let* items :=
    SalesforceCartClient.getCartItems contextId (now InGetCartItems) in
  let* content := readArray items in
  let* w := get in
  ret (validateCartRules (config w) content).

Definition getProducts : list Product := snd <$> catalog.

Definition getProduct (productId : string) : option Product :=
  products !! productId.

End CartService.

(* ===================================================================== *)
(** ** Error classes ([src/errors/index.ts]) *)
(* ===================================================================== *)

Record ErrorDetail := {
  field : string;
  detail_message : string;
  code : string;
}.

(** An issue of a [ZodError]: [path], [message] and [code]. *)
Record ZodIssue := {
  issue_path : list string;
  issue_message : string;
  issue_code : string;
}.

Module Errors.

(** An error value, as far as [instanceof] tells: a [ZodError], an
    [APIError] (a [ValidationError] when it carries [errors]), or another
    [Error]. *)
Inductive ErrorValue :=
| ZodError (issues : list ZodIssue)
| APIError (message : string) (statusCode : Z) (type : string)
    (isOperational : bool) (errors : option (list ErrorDetail))
| OtherError (message : string).

Definition ValidationError (errors : list ErrorDetail) : ErrorValue :=
  APIError "Validation Error" 400
    "https://api.example.com/errors/validation-error" true (Some errors).

Definition NotFoundError (resource id : string) : ErrorValue :=
  APIError (resource +:+ " with ID '" +:+ id +:+ "' does not exist") 404
    "https://api.example.com/errors/not-found" true None.

Definition ConflictError (message : string) : ErrorValue :=
  APIError message 409 "https://api.example.com/errors/conflict" true None.

Definition UnprocessableEntityError (message : string) : ErrorValue :=
  APIError message 422
    "https://api.example.com/errors/unprocessable-entity" true None.

Definition InternalServerError (message : option string) : ErrorValue :=
  APIError (default "An unexpected error occurred" message) 500
    "https://api.example.com/errors/internal-error" false None.

Definition GatewayTimeoutError (message : option string) : ErrorValue :=
  APIError (default "Upstream service timeout" message) 504
    "https://api.example.com/errors/gateway-timeout" false None.

Definition BadRequestError (message : string) : ErrorValue :=
  APIError message 400 "https://api.example.com/errors/bad-request" true None.

End Errors.

(** The exceptions of the two services as values of these classes:
    [new NotFoundError(resource, id)] and [new Error(message)]. *)
Definition errorValue (e : Exn) : Errors.ErrorValue :=
  match e with
  | NotFoundError resource id => Errors.NotFoundError resource id
  | Error message => Errors.OtherError message
  end.

(* ===================================================================== *)
(** ** Requests and responses *)
(* ===================================================================== *)

(** What the handlers read of a request: [req.path], the header
    [x-request-id], [req.params] and [req.body]. *)
Record Request := {
  path : string;
  x_request_id : option string;
  params_cartId : string;
  params_itemId : string;
  params_productId : string;
  body_productId : string;
  body_quantity : number;
}.

(** The JSON object of an error response; a field that is [None] is absent
    from the object.  [timestamp] is the clock reading whose ISO string is
    sent. *)
Record ProblemDetail := {
  problem_type : option string;
  title : string;
  status : Z;
  detail : string;
  instance : string;
  requestId : option string;
  timestamp : Z;
  problem_errors : option (list ErrorDetail);
  stack : option string;
}.

Record ResponseMeta := {
  meta_requestId : string;
  meta_timestamp : Z;
  version : string;
}.

Inductive Data :=
| CartData (cart : Cart)
| ValidationData (validation : ValidationResult)
| ProductsData (products : list Product)
| ProductData (product : Product).

Inductive Body :=
| ApiResponse (data : Data) (meta : ResponseMeta)
| Problem (problemDetail : ProblemDetail).

(** [res.status(code).json(body)] *)
Record Response := {
  res_status : Z;
  res_body : Body;
}.

(* ===================================================================== *)
(** ** The error handlers ([src/middleware/error-handler.ts]) *)
(* ===================================================================== *)

Module ErrorHandler.
Import Errors.

(** [env] is [config.server.env], [stack] is [error.stack].  What the
    handler writes to the console is not part of the response. *)
Definition errorHandler (env : string) (error : ErrorValue) (stack : string)
    (req : Request) (now : Z) : Response :=
  match error with
  | ZodError issues =>
      let problemDetail :=
        {| problem_type := None;
           title := "Validation Error";
           status := 400;
           detail := "One or more fields failed validation";
           instance := path req;
           requestId := x_request_id req;
           timestamp := now;
           problem_errors :=
             if bool_decide (env = "development")
             then Some ((fun err =>
                           {| field := String.concat "." (issue_path err);
                              detail_message := issue_message err;
                              code := issue_code err |}) <$> issues)
             else None;
           stack := None |} in
      {| res_status := 400; res_body := Problem problemDetail |}
  | APIError message statusCode _ _ errors =>
      let problemDetail :=
        {| problem_type := None;
           title := message;
           status := statusCode;
           detail := message;
           instance := path req;
           requestId := x_request_id req;
           timestamp := now;
           problem_errors := errors;
           stack := None |} in
      {| res_status := statusCode; res_body := Problem problemDetail |}
  | OtherError message =>
      let problemDetail :=
        {| problem_type := None;
           title := "Internal Server Error";
           status := 500;
           detail :=
             if bool_decide (env = "development")
             then message
             else "An unexpected error occurred while processing your request";
           instance := path req;
           requestId := x_request_id req;
           timestamp := now;
           problem_errors := None;
           stack :=
             if bool_decide (env = "development") then Some stack else None |}
      in
      {| res_status := 500; res_body := Problem problemDetail |}
  end.

Definition notFoundHandler (req : Request) (now : Z) : Response :=
  let problemDetail :=
    {| problem_type := None;
       title := "Not Found";
       status := 404;
       detail := "The requested endpoint '" +:+ path req +:+ "' does not exist";
       instance := path req;
       requestId := x_request_id req;
       timestamp := now;
       problem_errors := None;
       stack := None |} in
  {| res_status := 404; res_body := Problem problemDetail |}.

End ErrorHandler.

(* ===================================================================== *)
(** ** The controller ([src/controllers/cart.ts]) *)
(* ===================================================================== *)

(** How a handler ends: it has sent a response, or it has called
    [next(error)]. *)
Inductive Handled :=
| Sent (res : Response)
| Next (error : Exn).

Module CartController.

(** [(req.headers['x-request-id'] as string) || 'unknown'] *)
Definition requestIdOrUnknown (req : Request) : string :=
  match x_request_id req with
  | Some header => if bool_decide (header = "") then "unknown" else header
  | None => "unknown"
  end.

(** [res.status(code).json({ data, meta })], with [config.server.apiVersion] *)
Definition respond (code : Z) (data : Data) (req : Request) (now : Clock)
  : Handled :=
  Sent {| res_status := code;
          res_body :=
            ApiResponse data
              {| meta_requestId := requestIdOrUnknown req;
                 meta_timestamp := now InController;
                 version := "v1" |} |}.

Definition initializeCart (req : Request) (now : Clock) : M Handled :=
  tryCatch
    (let* cart := CartService.initializeCart now in
     ret (respond 201 (CartData cart) req now))
    (fun error => ret (Next error)).

Definition getCart (req : Request) (now : Clock) : M Handled :=
  tryCatch
    (let cartId := params_cartId req in
     let* cart := CartService.getCart cartId now in
     ret (respond 200 (CartData cart) req now))
    (fun error => ret (Next error)).

Definition addItemToCart (req : Request) (now : Clock) : M Handled :=
  tryCatch
    (let cartId := params_cartId req in
     let productId := body_productId req in
     let quantity := body_quantity req in
     let* cart := CartService.addItem cartId productId quantity now in
     ret (respond 200 (CartData cart) req now))
    (fun error => ret (Next error)).

Definition updateCartItem (req : Request) (now : Clock) : M Handled :=
  tryCatch
    (let cartId := params_cartId req in
     let itemId := params_itemId req in
     let quantity := body_quantity req in
     let* cart := CartService.updateItem cartId itemId quantity now in
     ret (respond 200 (CartData cart) req now))
    (fun error => ret (Next error)).

Definition removeCartItem (req : Request) (now : Clock) : M Handled :=
  tryCatch
    (let cartId := params_cartId req in
     let itemId := params_itemId req in
     let* cart := CartService.removeItem cartId itemId now in
     ret (respond 200 (CartData cart) req now))
    (fun error => ret (Next error)).

Definition validateCart (req : Request) (now : Clock) : M Handled :=
  tryCatch
    (let cartId := params_cartId req in
     let* validation := CartService.validateCart cartId now in
     ret (respond 200 (ValidationData validation) req now))
    (fun error => ret (Next error)).

Definition getProducts (req : Request) (now : Clock) : M Handled :=
  tryCatch
    (let products := CartService.getProducts in
     ret (respond 200 (ProductsData products) req now))
    (fun error => ret (Next error)).

Definition getProduct (req : Request) (now : Clock) : M Handled :=
  tryCatch
    (let productId := params_productId req in
     match CartService.getProduct productId with
     | None =>
         ret (Sent
           {| res_status := 404;
              res_body := Problem
                {| problem_type :=
                     Some "https://api.example.com/errors/not-found";
                   title := "Not Found";
                   status := 404;
                   detail :=
                     "Product with ID '" +:+ productId +:+ "' does not exist";
                   instance := path req;
                   requestId := Some (requestIdOrUnknown req);
                   timestamp := now InController;
                   problem_errors := None;
                   stack := None |} |})
     | Some product => ret (respond 200 (ProductData product) req now)
     end)
    (fun error => ret (Next error)).

End CartController.

(** A request on its route, past the validation middleware: the response
    the handler sends, or the one [errorHandler], registered last in
    [createApp], sends for the error passed to [next].  [trace] gives the
    [stack] of an error. *)
Definition handle (env : string) (trace : Exn -> string)
    (handler : Request -> Clock -> M Handled) (req : Request) (now : Clock)
  : M Response :=
  let* handled := handler req now in
  match handled with
  | Sent res => ret res
  | Next error =>
      ret (ErrorHandler.errorHandler env (errorValue error) (trace error)
             req (now InErrorHandler))
  end.

(* ===================================================================== *)
(** ** Vocabulary of the statements *)
(* ===================================================================== *)

(** The item the client stores for a request. *)
Definition itemOfRequest (itemId : string) (r : AddItemRequest) : CartItem :=
  {| id := itemId;
     productId := req_productId r; productName := req_productName r;
     productType := req_productType r; quantity := req_quantity r;
     unitPrice := req_unitPrice r; totalPrice := req_totalPrice r |}.

(** [{...item, quantity, totalPrice: item.unitPrice * quantity}] *)
Definition withQuantity (q : number) (item : CartItem) : CartItem :=
  {| id := id item;
     productId := productId item; productName := productName item;
     productType := productType item; quantity := q;
     unitPrice := unitPrice item;
     totalPrice := (unitPrice item * q)%float |}.

(** The view [buildCart] computes from the content of an array. *)
Definition cartView (config : CartConfig) (cartId : string)
    (content : list CartItem) (now : Clock) : Cart :=
  let subtotal := calculateSubtotal content in
  let tax := calculateTax config subtotal in
  {| cart_id := cartId; items := content;
     subtotal := subtotal; tax := tax;
     total := calculateTotal subtotal tax;
     cart_createdAt := now InBuildCart_createdAt;
     cart_updatedAt := now InBuildCart_updatedAt |}.

(** The totals of a view, each rounded on its own. *)
Definition priced (config : CartConfig) (cart : Cart) : Prop :=
  subtotal cart
    = toFixed2 (fold_left (fun sum item => (sum + totalPrice item)%float)
                  (items cart) 0%float) /\
  tax cart = toFixed2 (subtotal cart * taxRate config)%float /\
  total cart = toFixed2 (subtotal cart + tax cart)%float.

(** The invariant of the data model: the line total is the rounded product
    of unit price and quantity, as [calculateItemTotal] computes it. *)
Definition wellPriced (item : CartItem) : Prop :=
  totalPrice item = calculateItemTotal (unitPrice item) (quantity item).

(** What identifies a line for a customer: everything but the item id. *)
Definition line (item : CartItem) : string * number * number * number :=
  (productId item, quantity item, unitPrice item, totalPrice item).

(** The items [addItem] stores when the loop of [ensureValidContext] replays
    [content], the first [nanoid] call of the loop being call number [n]. *)
Fixpoint replayed (source : nat -> string) (n : nat) (content : list CartItem)
  : list CartItem :=
  match content with
  | [] => []
  | item :: rest =>
      itemOfRequest ("item_" +:+ source n) (CartService.replayRequest item)
        :: replayed source (S n) rest
  end.

(** The context object [createContext] builds in the world [w]. *)
Definition freshContext (cartId : string) (now : Z) (w : World)
  : SalesforceContext :=
  {| contextId := "sf_ctx_" +:+ nanoidSource w (nanoidCalls w);
     cartId := cartId;
     expiresAt := newDate (getTime now + contextTTL w)%float;
     createdAt := now |}.

(** The world after [createContext]. *)
Definition created (cartId : string) (now : Z) (w : World) : World :=
  let context := freshContext cartId now w in
  {| config := config w; nanoidSource := nanoidSource w;
     nanoidCalls := S (nanoidCalls w);
     contextObjects := contextObjects w ++ [context];
     arrays := arrays w ++ [[]];
     contexts :=
       <[contextId context := length (contextObjects w)]> (contexts w);
     cartItems := <[contextId context := length (arrays w)]> (cartItems w);
     contextTTL := contextTTL w;
     contextCache := contextCache w; shadowState := shadowState w |}.

(** The world after a recovery that replayed [content]. *)
Definition recovered (cartId : string) (now : Z) (content : list CartItem)
    (w : World) : World :=
  let context := freshContext cartId now w in
  {| config := config w; nanoidSource := nanoidSource w;
     nanoidCalls := S (nanoidCalls w) + length content;
     contextObjects := contextObjects w ++ [context];
     arrays :=
       arrays w ++ [replayed (nanoidSource w) (S (nanoidCalls w)) content];
     contexts :=
       <[contextId context := length (contextObjects w)]> (contexts w);
     cartItems := <[contextId context := length (arrays w)]> (cartItems w);
     contextTTL := contextTTL w;
     contextCache := <[cartId := length (contextObjects w)]> (contextCache w);
     shadowState := shadowState w |}.

(** The content of the array [shadowState.get(cartId)]. *)
Definition shadowItemsOf (w : World) (cartId : string)
  : option (list CartItem) :=
  s ← shadowState w !! cartId; arrays w !! s.

(** The content of the array the client keeps for the context that the
    service caches for [cartId]. *)
Definition liveItemsOf (w : World) (cartId : string)
  : option (list CartItem) :=
  c ← contextCache w !! cartId;
  context ← contextObjects w !! c;
  a ← cartItems w !! contextId context;
  arrays w !! a.

(** [cartId] is an initialized cart whose cached context is the object the
    client has registered under its id, is accepted by the client at every
    clock reading of the call, and holds the items [content]. *)
Definition liveCart (w : World) (cartId : string) (now : Clock)
    (content : list CartItem) : Prop :=
  exists c context a,
    contextCache w !! cartId = Some c /\
    contextObjects w !! c = Some context /\
    contexts w !! contextId context = Some c /\
    (forall r, before (now r) (expiresAt context)) /\
    cartItems w !! contextId context = Some a /\
    arrays w !! a = Some content.

(** The service finds the context expired: the reading of
    [ensureValidContext] is after its [expiresAt]. *)
Definition expired (now : Clock) (context : SalesforceContext) : Prop :=
  after (now InEnsureValidContext) (expiresAt context).

(** The context that a recovery of [cartId] creates in the world [w] is
    accepted by the client at every clock reading of the call: its
    [expiresAt], the TTL after the reading of [createContext], is a date
    that no reading has reached. *)
Definition recoverable (w : World) (cartId : string) (now : Clock) : Prop :=
  forall r,
    before (now r) (expiresAt (freshContext cartId (now InCreateContext) w)).

(** The shadow store of [cartId] holds [shadow]. *)
Definition shadowOf (w : World) (cartId : string) (shadow : list CartItem)
  : Prop :=
  exists s, shadowState w !! cartId = Some s /\ arrays w !! s = Some shadow.

(** The shadow array of a cart as the service reads it once the client has
    written [live'] to its array [a]: the same array when the shadow
    reference [s] is [a], and else the array holding [shadow]. *)
Definition shadowAfter (s a : ref) (shadow live' : list CartItem)
  : list CartItem :=
  if decide (s = a) then live' else shadow.

(** The four maps and the objects they refer to are as they were. *)
Definition sameStores (w w' : World) : Prop :=
  contextCache w' = contextCache w /\
  shadowState w' = shadowState w /\
  contexts w' = contexts w /\
  cartItems w' = cartItems w /\
  contextObjects w' = contextObjects w /\
  arrays w' = arrays w.

(** The call throws the client's [SF_CONTEXT_EXPIRED] to its caller and
    leaves the world as it was. *)
Definition throwsContextExpired {A} (m : M A) (w : World) : Prop :=
  m w = (Throw (Error "SF_CONTEXT_EXPIRED"), w).

(** The call ends by throwing the client's [SF_CONTEXT_EXPIRED]. *)
Definition leaksContextExpired {A} (m : M A) (w : World) : Prop :=
  fst (m w) = Throw (Error "SF_CONTEXT_EXPIRED").

(** [cartId] is an initialized cart: the service caches the context object
    [context], which the client has registered under its id with an item
    array, and holds a shadow array for the cart. *)
Definition initializedCart (w : World) (cartId : string)
    (context : SalesforceContext) : Prop :=
  exists c a content s shadow,
    contextCache w !! cartId = Some c /\
    contextObjects w !! c = Some context /\
    contexts w !! contextId context = Some c /\
    cartItems w !! contextId context = Some a /\
    arrays w !! a = Some content /\
    shadowState w !! cartId = Some s /\
    arrays w !! s = Some shadow.

(** The call leaves the configuration as it was, however it ends. *)
Definition keepsConfig {A} (m : M A) : Prop :=
  forall w r w', m w = (r, w') -> config w' = config w.

(** Every view [m] returns is priced with the configuration of the call. *)
Definition buildsView (m : M Cart) : Prop :=
  forall w cart w', m w = (Return cart, w') -> priced (config w) cart.

(** The messages that carry the configured maximum, and the message of
    the plan rule. *)
Definition exceedsMessage (config : CartConfig) : string :=
  "Cart exceeds maximum of " +:+ toString (maxItemsPerCart config)
    +:+ " items".

Definition reachedMessage (config : CartConfig) : string :=
  "Cart has reached maximum of " +:+ toString (maxItemsPerCart config)
    +:+ " items".

Definition planMessage : string :=
  "Cart contains plans but no phone. Plans require a phone.".

(** The five rules in the order of the specification, each with the
    condition under which it is violated and its message. *)
Definition rules (config : CartConfig) (items : list CartItem)
  : list (bool * string) :=
  let some t := Exists (fun item => productType item = t) items in
  let count t :=
    length (base.filter (fun item => productType item = t) items) in
  [ (gtZ (Z.of_nat (length items)) (maxItemsPerCart config),
     exceedsMessage config);
    (bool_decide (some PLAN /\ ~ some PHONE), planMessage);
    (bool_decide (1 < count PHONE)%nat,
     "Only one phone is allowed per cart");
    (bool_decide (1 < count PLAN)%nat,
     "Only one plan is allowed per cart");
    (bool_decide (Exists (fun item => invalidQuantity item = true) items),
     "Cart contains items with invalid quantities") ].

(** The messages of the violated rules, in the order of the rules. *)
Definition violations (config : CartConfig) (items : list CartItem)
  : list string :=
  snd <$> List.filter fst (rules config items).

(** Every registered context is an object of the heap. *)
Definition contextsAllocated (w : World) : Prop :=
  forall contextId c,
    contexts w !! contextId = Some c -> is_Some (contextObjects w !! c).

(** [now > context.expiresAt] for the context object [c] *)
Definition expiredAt (now : Z) (w : World) (c : ref) : bool :=
  match contextObjects w !! c with
  | Some context => bool_decide (after now (expiresAt context))
  | None => false
  end.

(** The keys of the entries that the loop deletes. *)
Definition expiredKeys (now : Z) (w : World) (l : list (string * ref))
  : list string :=
  fst <$> base.filter (fun entry => expiredAt now w (snd entry) = true) l.

(** The body [errorHandler] sends for an [Error] that is no [APIError]. *)
Definition internalServerError (env : string) (message stack : string)
    (req : Request) (now : Z) : ProblemDetail :=
  {| problem_type := None;
     title := "Internal Server Error";
     status := 500;
     detail :=
       if bool_decide (env = "development") then message
       else "An unexpected error occurred while processing your request";
     instance := path req;
     requestId := x_request_id req;
     timestamp := now;
     problem_errors := None;
     stack := if bool_decide (env = "development") then Some stack else None |}.

(** The body [errorHandler] sends for a [NotFoundError]. *)
Definition notFound (resource id : string) (req : Request) (now : Z)
  : ProblemDetail :=
  {| problem_type := None;
     title := resource +:+ " with ID '" +:+ id +:+ "' does not exist";
     status := 404;
     detail := resource +:+ " with ID '" +:+ id +:+ "' does not exist";
     instance := path req;
     requestId := x_request_id req;
     timestamp := now;
     problem_errors := None;
     stack := None |}.

(* ===================================================================== *)
(** ** Concrete runs *)
(* ===================================================================== *)

Module Scenario.
Import CartService.

(** The [nanoid] mock of the integration tests:
    [() => `test-id-${++idCounter}`]. *)
Definition testNanoid (k : nat) : string := "test-id-" +:+ pretty (S k).

Definition world (m : M Cart) (w : World) : World := snd (m w).

(** A service with the default configuration and a five minute TTL,
    started at time 1000 with one cart. *)
Definition w0 : World := newWorld defaultCartConfig testNanoid 300000.
Definition cart1 : string := "cart_test-id-1".
Definition w1 : World := world (initializeCart (instant 1000)) w0.

(** ... then a phone at time 2000 *)
Definition wPhone : World :=
  world (addItem cart1 "phone_iphone15" 1 (instant 2000)) w1.

(** ... or a plan at time 2000 *)
Definition wPlan : World :=
  world (addItem cart1 "plan_unlimited" 1 (instant 2000)) w1.

(** The phone, as both stores hold it in [wPhone]. *)
Definition phoneItem : CartItem :=
  {| id := "item_test-id-3"; productId := "phone_iphone15";
     productName := "iPhone 15 Pro"; productType := PHONE;
     quantity := 1; unitPrice := 1399.99; totalPrice := 1399.99 |}.

(** The plan, as both stores hold it in [wPlan]. *)
Definition planItem : CartItem :=
  {| id := "item_test-id-3"; productId := "plan_unlimited";
     productName := "Unlimited Plan"; productType := PLAN;
     quantity := 1; unitPrice := 85; totalPrice := 85 |}.

(** ... or the other phone at time 2000 *)
Definition wSamsung : World :=
  world (addItem cart1 "phone_samsung_s24" 1 (instant 2000)) w1.

(** The Samsung phone, as both stores hold it in [wSamsung]. *)
Definition samsungItem : CartItem :=
  {| id := "item_test-id-3"; productId := "phone_samsung_s24";
     productName := "Samsung Galaxy S24"; productType := PHONE;
     quantity := 1; unitPrice := 1199.99; totalPrice := 1199.99 |}.

(** The context of [cart1], created at time 1000. *)
Definition context1 : SalesforceContext :=
  {| contextId := "sf_ctx_test-id-2"; cartId := cart1;
     expiresAt := Some 301000; createdAt := 1000 |}.

(** [addItem] with an add-on, [n] times, at time [now] *)
Fixpoint addAddons (n : nat) (now : Z) (w : World) : World :=
  match n with
  | O => w
  | S n =>
      addAddons n now
        (world (addItem cart1 "addon_insurance" 1 (instant now)) w)
  end.

(** A request to a route of the cart [cartId], without the header
    [x-request-id]. *)
Definition request (cartId itemId productId : string) (quantity : number)
  : Request :=
  {| path := "/api/v1/carts/" +:+ cartId;
     x_request_id := None;
     params_cartId := cartId;
     params_itemId := itemId;
     params_productId := productId;
     body_productId := productId;
     body_quantity := quantity |}.

(** The add-on, as a request to the client. *)
Definition insuranceRequest : AddItemRequest :=
  {| req_productId := "addon_insurance";
     req_productName := "Device Insurance";
     req_productType := ADDON;
     req_quantity := 1; req_unitPrice := 12; req_totalPrice := 12 |}.

(** Errors without a stack. *)
Definition noTrace (error : Exn) : string := "".

(** A service whose TTL is 9e15 ms, started at time 1000 with one cart: the
    [expiresAt] of every context it creates is the Invalid Date.  At time
    2500 [expireContext] gives the context of the cart a date, one second
    earlier. *)
Definition wLong0 : World := newWorld defaultCartConfig testNanoid 9e15.
Definition wLong1 : World := world (initializeCart (instant 1000)) wLong0.
Definition wLong : World :=
  snd (SalesforceCartClient.expireContext "sf_ctx_test-id-2" 2500 wLong1).
End Scenario.

(* ===================================================================== *)
(** ** The claims that fail, as the specification states them *)
(* ===================================================================== *)

(** The claim as the specification states it, for one call: the context
    has expired when the service finds it so. *)
Definition C1_as_stated (w : World) (cartId : string) (now : Clock) : Prop :=
  forall context shadow,
    initializedCart w cartId context ->
    shadowOf w cartId shadow ->
    expired now context ->
    exists cart w',
      CartService.getCart cartId now w = (Return cart, w') /\
      line <$> items cart = line <$> shadow.

(** The claim as the specification states it, for one call. *)
Definition C4_as_stated (w : World) (cartId productId : string) (q : number)
    (now : Clock) : Prop :=
  forall content product,
    liveCart w cartId now content ->
    existsb (isType PHONE) content = true ->
    CartService.products !! productId = Some product ->
    type product = PHONE ->
    CartService.addItem cartId productId q now w
    = (Throw (Error "Only one phone is allowed per cart"), w).

(** The first half of the claim as the specification states it, for one
    call. *)
Definition C7_as_stated (w : World) (cartId productId : string) (q : number)
    (now : Clock) : Prop :=
  forall content shadow product,
    liveCart w cartId now content ->
    shadowOf w cartId shadow ->
    existsb (isType PHONE) content = false ->
    CartService.products !! productId = Some product ->
    type product = PLAN ->
    exists cart w',
      CartService.addItem cartId productId q now w = (Return cart, w').

(** The claim as the specification states it, for one call. *)
Definition C9_as_stated (w : World) (cartId : string) (now : Clock) : Prop :=
  forall r w', CartService.validateCart cartId now w = (r, w') ->
    sameStores w w'.

(** The quantities the claim lists: zero, negative values, non-integers and
    values above 10, the maximum of [UpdateItemBodySchema]. *)
Definition C10_listed (q : number) : bool :=
  PrimFloat.leb q 0 || negb (isInteger q) || PrimFloat.ltb 10 q.

(** The claim as the specification states it, for one call of [updateItem]
    and a later call of [validateCart], which reports a listed quantity. *)
Definition C10_as_stated (w : World) (cartId itemId : string) (q : number)
    (now later : Clock) : Prop :=
  forall content shadow i item,
    liveCart w cartId now content ->
    liveCart w cartId later content ->
    shadowOf w cartId shadow ->
    list_find (fun x => id x = itemId) content = Some (i, item) ->
    exists cart w',
      CartService.updateItem cartId itemId q now w = (Return cart, w') /\
      (C10_listed q = true ->
       exists r,
         CartService.validateCart cartId later w' = (Return r, w') /\
         valid r = false).

(* ===================================================================== *)
(** ** Assertions of the unit tests, and two runs *)
(* ===================================================================== *)

(** The assertions of [tests/unit/utils/cart-calculations.test.ts]. *)
Example calculateItemTotal_tests :
  calculateItemTotal 100 2 = 200%float /\
  calculateItemTotal 99.99 3 = 299.97%float /\
  calculateItemTotal 10.5 1 = 10.5%float /\
  calculateItemTotal 10.333 3 = 31%float /\
  calculateItemTotal 10.555 2 = 21.11%float.
Proof. vm_compute. repeat split. Qed.

Example calculateTax_tests :
  calculateTax defaultCartConfig 100 = 13%float /\
  calculateTax defaultCartConfig 200 = 26%float /\
  calculateTax defaultCartConfig 0 = 0%float /\
  calculateTax defaultCartConfig 99.99 = 13%float.
Proof. vm_compute. repeat split. Qed.

Example calculateTotal_tests :
  calculateTotal 100 13 = 113%float /\
  calculateTotal 200 26 = 226%float /\
  calculateTotal 0 0 = 0%float /\
  calculateTotal 99.99 13.0 = 112.99%float.
Proof. vm_compute. repeat split. Qed.

(** [String(x)] as JavaScript prints these numbers. *)
Example toString_examples :
  toString 50 = "50" /\
  toString 2.5 = "2.5" /\
  toString 0.1 = "0.1" /\
  toString (0.1 + 0.2) = "0.30000000000000004" /\
  toString (-0.000001) = "-0.000001" /\
  toString 1e-7 = "1e-7" /\
  toString 123456789012345680000 = "123456789012345680000" /\
  toString 1e21 = "1e+21" /\
  toString 5e-324 = "5e-324" /\
  toString infinity = "Infinity".
Proof. vm_compute. repeat split. Qed.

(** The order of an array length and a number is the order of the two
    binary64 values. *)
Example compareZ_examples :
  (gtZ 3 2.5, geZ 2 2.5, gtZ 50 50, geZ 50 50, geZ 1 infinity, gtZ 1 nan)
  = (true, false, false, true, false, false) /\
  (gtZ 3 2.5, geZ 2 2.5, gtZ 50 50, geZ 50 50, geZ 1 infinity, gtZ 1 nan)
  = (PrimFloat.ltb 2.5 (ofZ 3), PrimFloat.leb 2.5 (ofZ 2),
     PrimFloat.ltb 50 (ofZ 50), PrimFloat.leb 50 (ofZ 50),
     PrimFloat.leb infinity (ofZ 1), PrimFloat.ltb nan (ofZ 1)).
Proof. vm_compute. split; reflexivity. Qed.

(** [new Date(value)] *)
Example newDate_examples :
  newDate 301000 = Some 301000 /\
  newDate 1001.5 = Some 1001 /\
  newDate (-1.5) = Some (-1) /\
  newDate (-0) = Some 0 /\
  newDate 8.64e15 = Some 8640000000000000 /\
  newDate 8640000000000001 = None /\
  newDate nan = None /\
  newDate neg_infinity = None.
Proof. vm_compute. repeat split. Qed.

(** With [MAX_ITEMS_PER_CART=2.5] a valid cart of two items may receive a
    third, and is then invalid. *)
Example fractional_maximum :
  let config := {| taxRate := 0.13; maxItemsPerCart := 2.5 |} in
  let insurance :=
    {| id := "item_test-id-4"; productId := "addon_insurance";
       productName := "Device Insurance"; productType := ADDON;
       quantity := 1; unitPrice := 12; totalPrice := 12 |} in
  let items := [Scenario.phoneItem; insurance] in
  validateCartRules config items = {| valid := true; errors := [] |} /\
  canAddItemType config items ADDON = {| allowed := true; reason := None |} /\
  validateCartRules config (push items insurance)
  = {| valid := false; errors := ["Cart exceeds maximum of 2.5 items"] |}.
Proof. vm_compute. repeat split. Qed.

(** The test of [tests/unit/services/cart-service-context.test.ts]:
    [expireContext] writes the past into the context object, which the cache
    of the service holds too, and [getCart] recreates the context from the
    shadow state. *)
Example context_expiry_test :
  let w :=
    snd (SalesforceCartClient.expireContext "sf_ctx_test-id-2" 2500
           Scenario.wPhone) in
  exists cart w',
    CartService.getCart Scenario.cart1 (instant 3000) w = (Return cart, w') /\
    length (items cart) = 1%nat /\
    productId <$> items cart = ["phone_iphone15"].
Proof. eexists _, _. split; [vm_compute; reflexivity|]. split; reflexivity. Qed.

(** [getCart] stores the client's own array as the shadow state: from then
    on [addItem] appends the new item to that one array twice. *)
Example addItem_after_getCart :
  let w :=
    snd (CartService.getCart Scenario.cart1 (instant 1500) Scenario.w1) in
  shadowState w !! Scenario.cart1 = cartItems w !! "sf_ctx_test-id-2" /\
  exists cart w',
    CartService.addItem Scenario.cart1 "phone_iphone15" 1 (instant 2000) w
      = (Return cart, w') /\
    id <$> items cart = ["item_test-id-3"; "item_test-id-3"] /\
    liveItemsOf w' Scenario.cart1 = Some (items cart) /\
    shadowItemsOf w' Scenario.cart1 = Some (items cart).
Proof.
  split; [vm_compute; reflexivity|].
  eexists _, _. split; [vm_compute; reflexivity|].
  repeat split; vm_compute; reflexivity.
Qed.

(* ===================================================================== *)
(** ** Running computations *)
(* ===================================================================== *)

Section Steps.
Context {A B : Type}.
Implicit Types (m : M A) (k : A -> M B) (w : World).

Lemma bind_Return m k w a w1 :
  m w = (Return a, w1) -> bind m k w = k a w1.
Proof. unfold bind. intros ->. reflexivity. Qed.

Lemma bind_Throw m k w e w1 :
  m w = (Throw e, w1) -> bind m k w = (Throw e, w1).
Proof. unfold bind. intros ->. reflexivity. Qed.

Lemma bind_Dangling m k w w1 :
  m w = (Dangling, w1) -> bind m k w = (Dangling, w1).
Proof. unfold bind. intros ->. reflexivity. Qed.

(** A [bind] that returns went through a returning first half. *)
Lemma bind_Return_inv m k w b w' :
  bind m k w = (Return b, w') ->
  exists a w1, m w = (Return a, w1) /\ k a w1 = (Return b, w').
Proof.
  unfold bind. destruct (m w) as [[a | e |] w1]; intros H;
    [eauto | discriminate | discriminate].
Qed.
End Steps.

Lemma bind_ret {A B} (a : A) (k : A -> M B) w : bind (ret a) k w = k a w.
Proof. reflexivity. Qed.

Lemma bind_get {B} (k : World -> M B) w : bind get k w = k w w.
Proof. reflexivity. Qed.

Lemma bind_modify {B} (f : World -> World) (k : unit -> M B) w :
  bind (modify f) k w = k tt (f w).
Proof. reflexivity. Qed.

Lemma bind_assoc {A B C} (m : M A) (k1 : A -> M B) (k2 : B -> M C) w :
  bind (bind m k1) k2 w = bind m (fun a => bind (k1 a) k2) w.
Proof. unfold bind. destruct (m w) as [[a | e |] w1]; reflexivity. Qed.

Lemma World_eq (w1 w2 : World) :
  config w1 = config w2 ->
  nanoidSource w1 = nanoidSource w2 ->
  nanoidCalls w1 = nanoidCalls w2 ->
  contextObjects w1 = contextObjects w2 ->
  arrays w1 = arrays w2 ->
  contexts w1 = contexts w2 ->
  cartItems w1 = cartItems w2 ->
  contextTTL w1 = contextTTL w2 ->
  contextCache w1 = contextCache w2 ->
  shadowState w1 = shadowState w2 ->
  w1 = w2.
Proof. destruct w1, w2; simpl; intros; subst; reflexivity. Qed.

Lemma readContext_Some c context w :
  contextObjects w !! c = Some context ->
  readContext c w = (Return context, w).
Proof. unfold readContext. intros ->. reflexivity. Qed.

Lemma readArray_Some a content w :
  arrays w !! a = Some content -> readArray a w = (Return content, w).
Proof. unfold readArray. intros ->. reflexivity. Qed.

Lemma readArray_inv a r w w' :
  readArray a w = (Return r, w') -> arrays w !! a = Some r /\ w' = w.
Proof.
  unfold readArray. destruct (arrays w !! a); intros H; [|discriminate].
  injection H as -> ->. auto.
Qed.

Lemma getOrEmpty_Some (m : World -> gmap string ref) key a w :
  m w !! key = Some a -> getOrEmpty m key w = (Return a, w).
Proof. unfold getOrEmpty. rewrite bind_get. intros ->. reflexivity. Qed.

(** Running the monadic glue: [get], [modify], [ret]. *)
Ltac glue := repeat first
  [ rewrite bind_get | rewrite bind_modify | rewrite bind_ret
  | rewrite bind_assoc ]; cbv beta.

(** Running one bound call whose outcome [H] is known. *)
Ltac call H := first
  [ rewrite (bind_Return _ _ _ _ _ H)
  | rewrite (bind_Throw _ _ _ _ _ H)
  | rewrite (bind_Dangling _ _ _ _ H) ]; cbv beta.

(* ===================================================================== *)
(** ** Lists and numbers *)
(* ===================================================================== *)

Lemma existsb_Exists {A} (f : A -> bool) (l : list A) :
  existsb f l = bool_decide (Exists (fun x => f x = true) l).
Proof.
  induction l as [|x l IH]; [reflexivity|].
  cbn [existsb]. rewrite IH. destruct (f x) eqn:Hx; cbn [orb].
  -
    symmetry. apply bool_decide_eq_true_2. left. exact Hx.
  - apply bool_decide_ext. split.
    + intros H. right. exact H.
    + intros H. inversion H; [congruence | assumption].
Qed.

Lemma filter_isType t (l : list CartItem) :
  List.filter (isType t) l = base.filter (fun item => productType item = t) l.
Proof.
  induction l as [|x l IH]; simpl; [reflexivity|].
  rewrite filter_cons. unfold isType at 1.
  destruct (decide (productType x = t)) as [H|H].
  - rewrite bool_decide_true by exact H. f_equal. exact IH.
  - rewrite bool_decide_false by exact H. exact IH.
Qed.

Lemma filter_nonempty {A} (f : A -> bool) (l : list A) :
  (0 <? length (List.filter f l))%nat = existsb f l.
Proof.
  induction l as [|x l IH]; simpl; [reflexivity|].
  destruct (f x); simpl; [reflexivity | exact IH].
Qed.

Lemma filter_sublist {A} (f : A -> bool) (l : list A) :
  sublist (List.filter f l) l.
Proof.
  induction l as [|x l IH]; simpl; [constructor|].
  destruct (f x); [apply sublist_skip | apply sublist_cons]; exact IH.
Qed.

Lemma existsb_isType t (l : list CartItem) :
  existsb (isType t) l
  = bool_decide (Exists (fun item => productType item = t) l).
Proof.
  rewrite existsb_Exists. apply bool_decide_ext.
  unfold isType.
  split; intros H; (eapply Exists_impl; [exact H|]); intros x;
    apply bool_decide_eq_true.
Qed.

Lemma existsb_filter_length {A} (f : A -> bool) (l : list A) :
  existsb f l = true -> (1 <=? length (List.filter f l))%nat = true.
Proof.
  rewrite <- filter_nonempty. intros H.
  apply Nat.ltb_lt in H. apply Nat.leb_le. lia.
Qed.

(** A quantity that is zero, negative or not an integer is reported. *)
Lemma invalid_quantity_reported (config : CartConfig) (items : list CartItem) :
  existsb invalidQuantity items = true ->
  valid (validateCartRules config items) = false /\
  In "Cart contains items with invalid quantities"
     (errors (validateCartRules config items)).
Proof.
  intros Hinvalid. unfold validateCartRules. cbv zeta.
  rewrite (filter_nonempty invalidQuantity), Hinvalid. cbn [valid errors].
  match goal with
  | |- context [push ?prev "Cart contains items with invalid quantities"] =>
      generalize prev
  end.
  intros prev. unfold push. split.
  - apply bool_decide_eq_false_2. rewrite length_app. simpl. lia.
  - apply in_or_app. right. left. reflexivity.
Qed.

(** The quantity rule reports nothing when every quantity is a positive
    integer. *)
Lemma valid_quantities_not_reported (config : CartConfig)
    (items : list CartItem) :
  existsb invalidQuantity items = false ->
  ~ In "Cart contains items with invalid quantities"
       (errors (validateCartRules config items)).
Proof.
  intros Hvalid. unfold validateCartRules. cbv zeta.
  rewrite (filter_nonempty invalidQuantity), Hvalid. cbn [errors].
  unfold push. intros Hin.
  repeat match type of Hin with
         | In _ (if ?b then _ else _) => destruct b
         | In _ (_ ++ _)%list => apply in_app_or in Hin as [Hin | Hin]
         | In _ [_] => destruct Hin as [Hin | []]; discriminate Hin
         | In _ [] => destruct Hin
         end.
Qed.

Lemma float_neq (x y : number) : Prim2SF x <> Prim2SF y -> x <> y.
Proof. intros H ->. apply H. reflexivity. Qed.

(** The first number below [n] at which [P] fails, if there is one. *)
Lemma first_failure (P : nat -> Prop) `{!forall j, Decision (P j)} (n : nat) :
  (forall j, (j < n)%nat -> P j) \/
  (exists k, (k < n)%nat /\ (forall j, (j < k)%nat -> P j) /\ ~ P k).
Proof.
  induction n as [|n [IH | (k & Hk & Hbelow & Hno)]].
  - left. intros j Hj. lia.
  - destruct (decide (P n)) as [Hn | Hn].
    + left. intros j Hj. destruct (decide (j = n)) as [->|Hne]; [exact Hn|].
      apply IH. lia.
    + right. exists n. split; [lia|]. split; [|exact Hn].
      intros j Hj. apply IH, Hj.
  - right. exists k. split; [lia|]. split; assumption.
Qed.

(** *** The order of an integer and a number *)

(** When the number is an integer, [n + 1] is not above it as soon as [n]
    is below it. *)
Lemma geZ_gtZ_succ (n : Z) (x : number) :
  isInteger x = true -> geZ n x = false -> gtZ (n + 1) x = false.
Proof.
  unfold isInteger, geZ, gtZ, compareZ.
  destruct (Prim2SF x) as [s | s | | s m e]; try discriminate.
  - intros _. destruct (Z.compare_spec n 0); try discriminate.
    intros _. destruct (Z.compare_spec (n + 1) 0); try reflexivity. lia.
  - cbv zeta. destruct (Z.leb_spec 0 e) as [He | He].
    + intros _.
      destruct (Z.compare_spec n ((if s then Z.neg m else Z.pos m) * 2 ^ e));
        try discriminate.
      intros _.
      destruct (Z.compare_spec (n + 1)
                  ((if s then Z.neg m else Z.pos m) * 2 ^ e));
        try reflexivity.
      lia.
    + intros Hint. apply Z.eqb_eq in Hint.
      assert (0 < 2 ^ (- e)) as Hpos by (apply Z.pow_pos_nonneg; lia).
      set (d := 2 ^ (- e)) in *.
      apply Z.mod_divide in Hint; [|lia]. destruct Hint as [k Hk].
      assert ((if s then Z.neg m else Z.pos m)
              = (if s then - k else k) * d) as ->.
      { destruct s; lia. }
      generalize (if s then - k else k). intros K.
      destruct (Z.compare_spec (n * d) (K * d)) as [| Hlt |];
        try discriminate.
      intros _.
      destruct (Z.compare_spec ((n + 1) * d) (K * d)) as [| | Hgt];
        try reflexivity.
      apply Z.mul_lt_mono_pos_r in Hlt; [|exact Hpos].
      apply Z.mul_lt_mono_pos_r in Hgt; [|exact Hpos].
      lia.
Qed.

(** *** Dates *)

Lemma before_not_after now date : before now date -> ~ after now date.
Proof. destruct date; simpl; [lia | auto]. Qed.

Lemma after_not_before now date : after now date -> ~ before now date.
Proof. destruct date; simpl; [lia | auto]. Qed.

Lemma before_instant t date r : before t date -> before (instant t r) date.
Proof. auto. Qed.

(* ===================================================================== *)
(** ** Facts about [SalesforceCartClient] *)
(* ===================================================================== *)

Module ClientFacts.
Import SalesforceCartClient.

Section Registered.
Variables (w : World) (cid : string) (c : ref)
          (context : SalesforceContext) (now : Z).
Hypothesis Hreg : contexts w !! cid = Some c.
Hypothesis Hobj : contextObjects w !! c = Some context.

Lemma isContextValid_eq :
  isContextValid cid now w = bool_decide (before now (expiresAt context)).
Proof. unfold isContextValid. rewrite Hreg, Hobj. reflexivity. Qed.

Lemma getCartItems_expired :
  ~ before now (expiresAt context) ->
  getCartItems cid now w = (Throw SF_CONTEXT_EXPIRED, w).
Proof.
  intros Hle. unfold getCartItems. glue.
  rewrite isContextValid_eq, bool_decide_false by exact Hle. reflexivity.
Qed.

Lemma addItem_expired r :
  ~ before now (expiresAt context) ->
  addItem cid r now w = (Throw SF_CONTEXT_EXPIRED, w).
Proof.
  intros Hle. unfold addItem. glue.
  rewrite isContextValid_eq, bool_decide_false by exact Hle. reflexivity.
Qed.

Lemma updateItem_expired itemId q :
  ~ before now (expiresAt context) ->
  updateItem cid itemId q now w = (Throw SF_CONTEXT_EXPIRED, w).
Proof.
  intros Hle. unfold updateItem. glue.
  rewrite isContextValid_eq, bool_decide_false by exact Hle. reflexivity.
Qed.

Lemma removeItem_expired itemId :
  ~ before now (expiresAt context) ->
  removeItem cid itemId now w = (Throw SF_CONTEXT_EXPIRED, w).
Proof.
  intros Hle. unfold removeItem. glue.
  rewrite isContextValid_eq, bool_decide_false by exact Hle. reflexivity.
Qed.

Variables (a : ref) (content : list CartItem).
Hypothesis Hlive : before now (expiresAt context).
Hypothesis Hitems : cartItems w !! cid = Some a.
Hypothesis Harr : arrays w !! a = Some content.

Lemma getCartItems_live : getCartItems cid now w = (Return a, w).
Proof.
  unfold getCartItems. glue.
  rewrite isContextValid_eq, bool_decide_true by exact Hlive. simpl.
  apply getOrEmpty_Some, Hitems.
Qed.

Lemma addItem_live r :
  let newItem :=
    itemOfRequest ("item_" +:+ nanoidSource w (nanoidCalls w)) r in
  addItem cid r now w =
    (Return newItem,
     set_arrays (<[a := push content newItem]> (arrays w))
       (set_nanoidCalls (S (nanoidCalls w)) w)).
Proof.
  intros newItem. unfold addItem. glue.
  rewrite isContextValid_eq, bool_decide_true by exact Hlive. simpl.
  call (getOrEmpty_Some cartItems cid a w Hitems).
  unfold nanoid at 1. unfold bind at 1. cbv beta iota.
  call (readArray_Some a content
          (set_nanoidCalls (S (nanoidCalls w)) w) Harr).
  unfold writeArray. glue. unfold ret. f_equal.
  apply World_eq; try reflexivity. simpl.
  apply insert_id, Hitems.
Qed.

Lemma updateItem_live itemId q i item :
  list_find (fun item => id item = itemId) content = Some (i, item) ->
  updateItem cid itemId q now w =
    (Return (withQuantity q item),
     set_arrays (<[a := <[i := withQuantity q item]> content]> (arrays w)) w).
Proof.
  intros Hfind. unfold updateItem. glue.
  rewrite isContextValid_eq, bool_decide_true by exact Hlive. simpl.
  call (getOrEmpty_Some cartItems cid a w Hitems).
  call (readArray_Some a content w Harr).
  unfold findIndex. rewrite Hfind. simpl.
  apply list_find_Some in Hfind as (Hi & _ & _). rewrite Hi.
  unfold writeArray. glue. unfold ret. f_equal.
  apply World_eq; try reflexivity. simpl.
  apply insert_id, Hitems.
Qed.

Lemma updateItem_unknown itemId q :
  list_find (fun item => id item = itemId) content = None ->
  updateItem cid itemId q now w = (Throw ITEM_NOT_FOUND, w).
Proof.
  intros Hfind. unfold updateItem. glue.
  rewrite isContextValid_eq, bool_decide_true by exact Hlive. simpl.
  call (getOrEmpty_Some cartItems cid a w Hitems).
  call (readArray_Some a content w Harr).
  unfold findIndex. rewrite Hfind. reflexivity.
Qed.

Lemma removeItem_unknown itemId :
  list_find (fun item => id item = itemId) content = None ->
  removeItem cid itemId now w = (Throw ITEM_NOT_FOUND, w).
Proof.
  intros Hfind. unfold removeItem. glue.
  rewrite isContextValid_eq, bool_decide_true by exact Hlive. simpl.
  call (getOrEmpty_Some cartItems cid a w Hitems).
  call (readArray_Some a content w Harr).
  unfold findIndex. rewrite Hfind. reflexivity.
Qed.

Lemma removeItem_live itemId i item :
  list_find (fun item => id item = itemId) content = Some (i, item) ->
  removeItem cid itemId now w =
    (Return tt, set_arrays (<[a := delete i content]> (arrays w)) w).
Proof.
  intros Hfind. unfold removeItem. glue.
  rewrite isContextValid_eq, bool_decide_true by exact Hlive. simpl.
  call (getOrEmpty_Some cartItems cid a w Hitems).
  call (readArray_Some a content w Harr).
  unfold findIndex. rewrite Hfind. simpl.
  unfold writeArray. glue. unfold modify. f_equal.
  apply World_eq; try reflexivity. simpl.
  apply insert_id, Hitems.
Qed.
End Registered.

End ClientFacts.

(* ===================================================================== *)
(** ** Facts about [CartService] *)
(* ===================================================================== *)

Module ServiceFacts.
Import CartService.

Lemma buildCart_Some cartId a content now w :
  arrays w !! a = Some content ->
  buildCart cartId a now w =
    (Return (cartView (config w) cartId content now), w).
Proof.
  intros Harr. unfold buildCart.
  call (readArray_Some a content w Harr). glue. reflexivity.
Qed.

Lemma buildCart_inv cartId a now w cart w' :
  buildCart cartId a now w = (Return cart, w') ->
  exists content,
    arrays w !! a = Some content /\
    cart = cartView (config w) cartId content now /\ w' = w.
Proof.
  unfold buildCart. intros H.
  apply bind_Return_inv in H as (content & w1 & Hread & H).
  apply readArray_inv in Hread as [Harr ->].
  revert H. glue. unfold ret. intros H. injection H as <- <-. eauto.
Qed.

Lemma ensureValidContext_unknown cartId now w :
  contextCache w !! cartId = None ->
  ensureValidContext cartId now w = (Throw (NotFoundError "Cart" cartId), w).
Proof. intros H. unfold ensureValidContext. glue. rewrite H. reflexivity. Qed.

Section Cached.
Variables (w : World) (cartId : string) (c : ref)
          (context : SalesforceContext) (now : Clock).
Hypothesis Hcache : contextCache w !! cartId = Some c.
Hypothesis Hobj : contextObjects w !! c = Some context.

(** No recovery up to and including the instant [expiresAt], and none
    when [expiresAt] is the Invalid Date. *)
Lemma ensureValidContext_kept :
  ~ expired now context ->
  ensureValidContext cartId now w = (Return (contextId context), w).
Proof.
  intros Hle. unfold ensureValidContext. glue. rewrite Hcache.
  call (readContext_Some c context w Hobj).
  rewrite bool_decide_false by exact Hle. reflexivity.
Qed.
End Cached.

End ServiceFacts.

(* ===================================================================== *)
(** ** Recovery: a new context and the replay of the shadow items *)
(* ===================================================================== *)

Lemma replayed_length source n content :
  length (replayed source n content) = length content.
Proof.
  revert n. induction content as [|item rest IH]; intros n; simpl;
    [reflexivity | f_equal; apply IH].
Qed.

Lemma replayed_line source n content :
  line <$> replayed source n content = line <$> content.
Proof.
  revert n. induction content as [|item rest IH]; intros n; simpl;
    [reflexivity | f_equal; apply IH].
Qed.

Lemma replayed_lookup source n content i item' :
  replayed source n content !! i = Some item' ->
  exists item,
    content !! i = Some item /\
    item' = itemOfRequest ("item_" +:+ source (n + i)%nat)
              (CartService.replayRequest item).
Proof.
  revert n i. induction content as [|item rest IH]; intros n i; simpl.
  - intros H. discriminate.
  - destruct i as [|i]; simpl.
    + intros [= <-]. exists item. rewrite Nat.add_0_r. auto.
    + intros H. apply IH in H as (it & Hit & ->). exists it.
      rewrite Nat.add_succ_r. auto.
Qed.

Module RecoveryFacts.
Import SalesforceCartClient CartService.

Lemma createContext_eq cartId now w :
  createContext cartId now w
  = (Return (length (contextObjects w)), created cartId now w).
Proof. reflexivity. Qed.

Section Replay.
Variables (cid : string) (c : ref) (context : SalesforceContext)
          (a : ref) (now : Clock).

(** The loop of [ensureValidContext] from iteration [i] on, while the
    client accepts the context. *)
Lemma replay_loop content : forall i w acc,
  (forall j, (j < length content)%nat ->
             before (now (InReplay (i + j))) (expiresAt context)) ->
  contexts w !! cid = Some c ->
  contextObjects w !! c = Some context ->
  cartItems w !! cid = Some a ->
  arrays w !! a = Some acc ->
  forOf i content
    (fun i item =>
       SalesforceCartClient.addItem cid (replayRequest item)
         (now (InReplay i)) ;;;
       ret tt) w
  = (Return tt,
     set_arrays
       (<[a := (acc ++ replayed (nanoidSource w) (nanoidCalls w) content)%list]>
          (arrays w))
       (set_nanoidCalls (nanoidCalls w + length content) w)).
Proof.
  induction content as [|item rest IH];
    intros i w acc Hlive Hreg Hobj Hitems Harr.
  - simpl. unfold ret. f_equal. apply World_eq; simpl; try reflexivity.
    + lia.
    + rewrite app_nil_r. symmetry. apply list_insert_id, Harr.
  - simpl forOf.
    assert (before (now (InReplay i)) (expiresAt context)) as Hlt.
    { rewrite <- (Nat.add_0_r i). apply Hlive. simpl. lia. }
    pose proof (ClientFacts.addItem_live w cid c context (now (InReplay i))
                  Hreg Hobj a acc Hlt Hitems Harr (replayRequest item))
      as Hadd.
    cbv zeta in Hadd.
    rewrite (bind_Return _ _ _ tt _
               (bind_Return _ _ _ _ _ Hadd)).
    rewrite (IH (S i) _ (push acc (itemOfRequest
                    ("item_" +:+ nanoidSource w (nanoidCalls w))
                    (replayRequest item)))); simpl; auto.
    + f_equal. apply World_eq; simpl; try reflexivity.
      * lia.
      * rewrite list_insert_insert_eq. unfold push.
        rewrite <- app_assoc. reflexivity.
    + intros j Hj. rewrite <- Nat.add_succ_r. apply Hlive. simpl. lia.
    + apply list_lookup_insert_eq. eapply lookup_lt_Some, Harr.
Qed.

(** The loop stops at the first iteration whose clock reading the context
    does not accept: the items before it have been replayed. *)
Lemma replay_loop_refused content k : forall i w acc,
  (k < length content)%nat ->
  (forall j, (j < k)%nat ->
             before (now (InReplay (i + j))) (expiresAt context)) ->
  ~ before (now (InReplay (i + k))) (expiresAt context) ->
  contexts w !! cid = Some c ->
  contextObjects w !! c = Some context ->
  cartItems w !! cid = Some a ->
  arrays w !! a = Some acc ->
  forOf i content
    (fun i item =>
       SalesforceCartClient.addItem cid (replayRequest item)
         (now (InReplay i)) ;;;
       ret tt) w
  = (Throw SF_CONTEXT_EXPIRED,
     set_arrays
       (<[a := (acc ++ replayed (nanoidSource w) (nanoidCalls w)
                         (take k content))%list]>
          (arrays w))
       (set_nanoidCalls (nanoidCalls w + k) w)).
Proof.
  revert content. induction k as [|k IH];
    intros content i w acc Hk Hlive Hno Hreg Hobj Hitems Harr;
    (destruct content as [|item rest]; [simpl in Hk; lia|]).
  - simpl forOf. rewrite Nat.add_0_r in Hno.
    pose proof (ClientFacts.addItem_expired w cid c context
                  (now (InReplay i)) Hreg Hobj (replayRequest item) Hno)
      as Hadd.
    rewrite (bind_Throw _ _ _ _ _ (bind_Throw _ _ _ _ _ Hadd)).
    f_equal. apply World_eq; simpl; try reflexivity.
    + lia.
    + rewrite app_nil_r. symmetry. apply list_insert_id, Harr.
  - simpl forOf.
    assert (before (now (InReplay i)) (expiresAt context)) as Hlt.
    { rewrite <- (Nat.add_0_r i). apply Hlive. lia. }
    pose proof (ClientFacts.addItem_live w cid c context (now (InReplay i))
                  Hreg Hobj a acc Hlt Hitems Harr (replayRequest item))
      as Hadd.
    cbv zeta in Hadd.
    rewrite (bind_Return _ _ _ tt _
               (bind_Return _ _ _ _ _ Hadd)).
    rewrite (IH rest (S i) _ (push acc (itemOfRequest
                    ("item_" +:+ nanoidSource w (nanoidCalls w))
                    (replayRequest item)))); simpl; auto.
    + f_equal. apply World_eq; simpl; try reflexivity.
      * lia.
      * rewrite list_insert_insert_eq. unfold push.
        rewrite <- app_assoc. reflexivity.
    + simpl in Hk. lia.
    + intros j Hj. rewrite <- Nat.add_succ_r. apply Hlive. lia.
    + rewrite <- Nat.add_succ_r. exact Hno.
    + apply list_lookup_insert_eq. eapply lookup_lt_Some, Harr.
Qed.
End Replay.

Section Expired.
Variables (w : World) (cartId : string) (c : ref)
          (context : SalesforceContext) (now : Clock)
          (s : ref) (content : list CartItem).
Hypothesis Hcache : contextCache w !! cartId = Some c.
Hypothesis Hobj : contextObjects w !! c = Some context.
Hypothesis Hexpired : expired now context.
Hypothesis Hshadow : shadowState w !! cartId = Some s.
Hypothesis Hcontent : arrays w !! s = Some content.

(** The call up to the loop. *)
Lemma ensureValidContext_replays :
  let fresh := freshContext cartId (now InCreateContext) w in
  ensureValidContext cartId now w
  = (forOf 0 content (fun i item =>
       SalesforceCartClient.addItem (contextId fresh) (replayRequest item)
         (now (InReplay i)) ;;; ret tt) ;;;
     modify (fun w' =>
       set_contextCache
         (<[cartId := length (contextObjects w)]> (contextCache w')) w') ;;;
     ret (contextId fresh))
      (created cartId (now InCreateContext) w).
Proof.
  intros fresh. unfold ensureValidContext. glue. rewrite Hcache.
  call (readContext_Some c context w Hobj).
  rewrite bool_decide_true by exact Hexpired.
  call (getOrEmpty_Some shadowState cartId s w Hshadow).
  call (createContext_eq cartId (now InCreateContext) w).
  assert (contextObjects (created cartId (now InCreateContext) w)
            !! length (contextObjects w)
          = Some fresh) as Hnew.
  { simpl. apply list_lookup_middle. reflexivity. }
  call (readContext_Some _ _ _ Hnew).
  assert (arrays (created cartId (now InCreateContext) w) !! s
          = Some content) as Hs.
  { simpl. rewrite lookup_app_l; [exact Hcontent|].
    eapply lookup_lt_Some, Hcontent. }
  call (readArray_Some _ _ _ Hs).
  reflexivity.
Qed.

Lemma created_fresh :
  let w1 := created cartId (now InCreateContext) w in
  let fresh := freshContext cartId (now InCreateContext) w in
  contexts w1 !! contextId fresh = Some (length (contextObjects w)) /\
  contextObjects w1 !! length (contextObjects w) = Some fresh /\
  cartItems w1 !! contextId fresh = Some (length (arrays w)) /\
  arrays w1 !! length (arrays w) = Some [].
Proof.
  intros w1 fresh. split; [apply lookup_insert_eq|].
  split; [simpl; apply list_lookup_middle; reflexivity|].
  split; [apply lookup_insert_eq|].
  simpl. apply list_lookup_middle. reflexivity.
Qed.

(** A recovery whose replay the new context accepts. *)
Lemma ensureValidContext_recovers :
  (forall j, (j < length content)%nat ->
     before (now (InReplay j))
       (expiresAt (freshContext cartId (now InCreateContext) w))) ->
  ensureValidContext cartId now w
  = (Return (contextId (freshContext cartId (now InCreateContext) w)),
     recovered cartId (now InCreateContext) content w).
Proof.
  intros Hlive. rewrite ensureValidContext_replays. cbv zeta.
  destruct created_fresh as (Hreg & Hnew & Hitems & Hempty).
  rewrite (bind_Return _ _ _ tt _
             (replay_loop _ _ _ _ now content 0
                (created cartId (now InCreateContext) w) []
                Hlive Hreg Hnew Hitems Hempty)).
  glue. unfold ret. f_equal. apply World_eq; simpl; try reflexivity.
  rewrite insert_app_r_alt by lia.
  rewrite Nat.sub_diag. reflexivity.
Qed.

(** A recovery whose replay is refused at item [k]: the exception of the
    client leaves [ensureValidContext] before the cache is updated. *)
Lemma ensureValidContext_refused k :
  (k < length content)%nat ->
  (forall j, (j < k)%nat ->
     before (now (InReplay j))
       (expiresAt (freshContext cartId (now InCreateContext) w))) ->
  ~ before (now (InReplay k))
      (expiresAt (freshContext cartId (now InCreateContext) w)) ->
  exists w',
    ensureValidContext cartId now w = (Throw SF_CONTEXT_EXPIRED, w') /\
    contextCache w' = contextCache w /\
    shadowState w' = shadowState w /\
    contextObjects w'
    = (contextObjects w
         ++ [freshContext cartId (now InCreateContext) w])%list /\
    arrays w'
    = (arrays w
         ++ [replayed (nanoidSource w) (S (nanoidCalls w))
               (take k content)])%list.
Proof.
  intros Hk Hlive Hno. rewrite ensureValidContext_replays. cbv zeta.
  destruct created_fresh as (Hreg & Hnew & Hitems & Hempty).
  rewrite (bind_Throw _ _ _ _ _
             (replay_loop_refused _ _ _ _ now content k 0
                (created cartId (now InCreateContext) w) []
                Hk Hlive Hno Hreg Hnew Hitems Hempty)).
  eexists. split; [reflexivity|]. repeat split. simpl.
  rewrite insert_app_r_alt by lia.
  rewrite Nat.sub_diag. reflexivity.
Qed.
End Expired.

End RecoveryFacts.

(* ===================================================================== *)
(** ** Calls on a live cart *)
(* ===================================================================== *)

Lemma liveCart_liveItemsOf w cartId now content :
  liveCart w cartId now content -> liveItemsOf w cartId = Some content.
Proof.
  intros (c & context & a & Hc & Ho & _ & _ & Hi & Ha).
  unfold liveItemsOf. rewrite Hc. simpl. rewrite Ho. simpl.
  rewrite Hi. simpl. exact Ha.
Qed.

(** A cart that is live during two calls: the same context, accepted at
    the clock readings of both. *)
Lemma liveCart_twice w cartId now later content content' :
  liveCart w cartId now content ->
  liveCart w cartId later content' ->
  content' = content /\
  exists c context a,
    contextCache w !! cartId = Some c /\
    contextObjects w !! c = Some context /\
    contexts w !! contextId context = Some c /\
    (forall r, before (now r) (expiresAt context)) /\
    (forall r, before (later r) (expiresAt context)) /\
    cartItems w !! contextId context = Some a /\
    arrays w !! a = Some content.
Proof.
  intros (c & context & a & Hc & Ho & Hreg & Hlt & Hi & Ha)
    (c' & context' & a' & Hc' & Ho' & _ & Hlt' & Hi' & Ha').
  rewrite Hc in Hc'. injection Hc' as <-.
  rewrite Ho in Ho'. injection Ho' as <-.
  rewrite Hi in Hi'. injection Hi' as <-.
  rewrite Ha in Ha'. injection Ha' as <-.
  split; [reflexivity|]. exists c, context, a. repeat split; assumption.
Qed.

Module LiveFacts.
Import CartService.

Section Live.
Variables (w : World) (cartId : string) (now : Clock)
          (content : list CartItem).
Hypothesis Hlive : liveCart w cartId now content.

Lemma validateCart_live :
  validateCart cartId now w
  = (Return (validateCartRules (config w) content), w).
Proof.
  destruct Hlive as (c & context & a & Hc & Ho & Hreg & Hlt & Hi & Ha).
  unfold validateCart.
  call (ServiceFacts.ensureValidContext_kept w cartId c context now
          Hc Ho (before_not_after _ _ (Hlt _))).
  call (ClientFacts.getCartItems_live w _ c context (now InGetCartItems)
          Hreg Ho a (Hlt _) Hi).
  call (readArray_Some a content w Ha). glue. reflexivity.
Qed.

(** [addItem] up to the decision of [canAddItemType]. *)
Lemma addItem_refused productId product q :
  products !! productId = Some product ->
  allowed (canAddItemType (config w) content (type product)) = false ->
  addItem cartId productId q now w
  = (Throw (Error (default ""
       (reason (canAddItemType (config w) content (type product))))), w).
Proof.
  intros Hproduct Hno.
  destruct Hlive as (c & context & a & Hc & Ho & Hreg & Hlt & Hi & Ha).
  unfold addItem. rewrite Hproduct.
  call (ServiceFacts.ensureValidContext_kept w cartId c context now
          Hc Ho (before_not_after _ _ (Hlt _))).
  call (ClientFacts.getCartItems_live w _ c context (now InGetCartItems)
          Hreg Ho a (Hlt _) Hi).
  call (readArray_Some a content w Ha). glue.
  rewrite Hno. reflexivity.
Qed.
End Live.

End LiveFacts.

(* ===================================================================== *)
(** ** Mutations on a live cart *)
(* ===================================================================== *)

Lemma list_find_insert_same (itemId : string) (l : list CartItem) i item item' :
  list_find (fun x => id x = itemId) l = Some (i, item) ->
  id item' = id item ->
  list_find (fun x => id x = itemId) (<[i := item']> l) = Some (i, item').
Proof.
  intros Hfind Hid. apply list_find_Some in Hfind as (Hi & Hp & Hfirst).
  apply list_find_Some. split; [|split].
  - apply list_lookup_insert_eq. eapply lookup_lt_Some, Hi.
  - congruence.
  - intros j y Hj Hlt. rewrite list_lookup_insert_ne in Hj by lia.
    eapply Hfirst; eassumption.
Qed.

Module MutationFacts.
Import CartService.

Section Mutation.
Variables (w : World) (cartId : string) (now : Clock)
          (c : ref) (context : SalesforceContext)
          (a : ref) (content : list CartItem)
          (s : ref) (shadow : list CartItem).
Hypothesis Hc : contextCache w !! cartId = Some c.
Hypothesis Ho : contextObjects w !! c = Some context.
Hypothesis Hreg : contexts w !! contextId context = Some c.
Hypothesis Hlt : forall r, before (now r) (expiresAt context).
Hypothesis Hi : cartItems w !! contextId context = Some a.
Hypothesis Ha : arrays w !! a = Some content.
Hypothesis Hs : shadowState w !! cartId = Some s.
Hypothesis Hsh : arrays w !! s = Some shadow.

Lemma shadowAfter_lookup live' :
  <[a := live']> (arrays w) !! s = Some (shadowAfter s a shadow live').
Proof.
  unfold shadowAfter. destruct (decide (s = a)) as [->|Hne].
  - apply list_lookup_insert_eq. eapply lookup_lt_Some, Ha.
  - rewrite list_lookup_insert_ne by congruence. exact Hsh.
Qed.

Lemma addItem_allowed productId product q :
  products !! productId = Some product ->
  allowed (canAddItemType (config w) content (type product)) = true ->
  let newItem :=
    itemOfRequest ("item_" +:+ nanoidSource w (nanoidCalls w))
      {| req_productId := product_id product;
         req_productName := name product;
         req_productType := type product;
         req_quantity := q;
         req_unitPrice := price product;
         req_totalPrice := calculateItemTotal (price product) q |} in
  let live' := push content newItem in
  let shadow' := push (shadowAfter s a shadow live') newItem in
  addItem cartId productId q now w
  = (Return (cartView (config w) cartId shadow' now),
     set_arrays (<[s := shadow']> (<[a := live']> (arrays w)))
       (set_nanoidCalls (S (nanoidCalls w)) w)).
Proof.
  intros Hproduct Hyes newItem live' shadow'.
  unfold addItem. rewrite Hproduct.
  call (ServiceFacts.ensureValidContext_kept w cartId c context now
          Hc Ho (before_not_after _ _ (Hlt _))).
  call (ClientFacts.getCartItems_live w _ c context (now InGetCartItems)
          Hreg Ho a (Hlt _) Hi).
  call (readArray_Some a content w Ha). glue.
  rewrite Hyes. cbn [negb].
  pose proof (ClientFacts.addItem_live w _ c context (now InAddItem)
          Hreg Ho a content (Hlt _) Hi Ha
                {| req_productId := product_id product;
                   req_productName := name product;
                   req_productType := type product;
                   req_quantity := q;
                   req_unitPrice := price product;
                   req_totalPrice := calculateItemTotal (price product) q |})
    as Hadd.
  cbv zeta in Hadd. fold newItem in Hadd. fold live' in Hadd.
  call Hadd.
  set (w1 := set_arrays (<[a := live']> (arrays w))
               (set_nanoidCalls (S (nanoidCalls w)) w)).
  call (getOrEmpty_Some shadowState cartId s w1 Hs).
  call (readArray_Some s (shadowAfter s a shadow live') w1
          (shadowAfter_lookup live')).
  unfold writeArray. glue. fold shadow'.
  set (w2 := set_shadowState _ _).
  assert (arrays w2 !! s = Some shadow') as Hread.
  { simpl. apply list_lookup_insert_eq. rewrite length_insert.
    eapply lookup_lt_Some, Hsh. }
  rewrite (ServiceFacts.buildCart_Some cartId s shadow' now w2 Hread).
  f_equal. apply World_eq; try reflexivity. simpl.
  apply insert_id, Hs.
Qed.

Lemma updateItem_found itemId q i item :
  list_find (fun x => id x = itemId) content = Some (i, item) ->
  let updated := withQuantity q item in
  let live' := <[i := updated]> content in
  let shadow' :=
    match findIndex itemId (shadowAfter s a shadow live') with
    | Some index => <[index := updated]> (shadowAfter s a shadow live')
    | None => shadowAfter s a shadow live'
    end in
  updateItem cartId itemId q now w
  = (Return (cartView (config w) cartId shadow' now),
     set_arrays (<[s := shadow']> (<[a := live']> (arrays w))) w).
Proof.
  intros Hfind updated live' shadow'.
  unfold updateItem.
  call (ServiceFacts.ensureValidContext_kept w cartId c context now
          Hc Ho (before_not_after _ _ (Hlt _))).
  call (ClientFacts.updateItem_live w _ c context (now InUpdateItem)
          Hreg Ho a content (Hlt _) Hi Ha itemId q i item Hfind).
  fold updated. fold live'.
  set (w1 := set_arrays (<[a := live']> (arrays w)) w).
  call (getOrEmpty_Some shadowState cartId s w1 Hs).
  call (readArray_Some s (shadowAfter s a shadow live') w1
          (shadowAfter_lookup live')).
  unfold shadow'.
  destruct (findIndex itemId (shadowAfter s a shadow live')) as [index|].
  - unfold writeArray. glue.
    set (w2 := set_shadowState _ _).
    assert (arrays w2 !! s
            = Some (<[index := updated]> (shadowAfter s a shadow live')))
    as Hread.
    { simpl. apply list_lookup_insert_eq. rewrite length_insert.
      eapply lookup_lt_Some, Hsh. }
    rewrite (ServiceFacts.buildCart_Some cartId s _ now w2 Hread).
    f_equal. apply World_eq; try reflexivity. simpl.
    apply insert_id, Hs.
  - glue.
    rewrite (ServiceFacts.buildCart_Some cartId s _ now w1
               (shadowAfter_lookup live')).
    f_equal. apply World_eq; try reflexivity. simpl.
    symmetry. apply list_insert_id, shadowAfter_lookup.
Qed.
Lemma updateItem_missing itemId q :
  list_find (fun x => id x = itemId) content = None ->
  updateItem cartId itemId q now w
  = (Throw SalesforceCartClient.ITEM_NOT_FOUND, w).
Proof.
  intros Hfind. unfold updateItem.
  call (ServiceFacts.ensureValidContext_kept w cartId c context now
          Hc Ho (before_not_after _ _ (Hlt _))).
  call (ClientFacts.updateItem_unknown w _ c context (now InUpdateItem)
          Hreg Ho a content (Hlt _) Hi Ha itemId q Hfind).
  reflexivity.
Qed.

Lemma removeItem_missing itemId :
  list_find (fun x => id x = itemId) content = None ->
  removeItem cartId itemId now w
  = (Throw SalesforceCartClient.ITEM_NOT_FOUND, w).
Proof.
  intros Hfind. unfold removeItem.
  call (ServiceFacts.ensureValidContext_kept w cartId c context now
          Hc Ho (before_not_after _ _ (Hlt _))).
  call (ClientFacts.removeItem_unknown w _ c context (now InRemoveItem)
          Hreg Ho a content (Hlt _) Hi Ha itemId Hfind).
  reflexivity.
Qed.

Lemma removeItem_found itemId i item :
  list_find (fun x => id x = itemId) content = Some (i, item) ->
  let live' := delete i content in
  let shadow' :=
    match findIndex itemId (shadowAfter s a shadow live') with
    | Some index => delete index (shadowAfter s a shadow live')
    | None => shadowAfter s a shadow live'
    end in
  removeItem cartId itemId now w
  = (Return (cartView (config w) cartId shadow' now),
     set_arrays (<[s := shadow']> (<[a := live']> (arrays w))) w).
Proof.
  intros Hfind live' shadow'.
  unfold removeItem.
  call (ServiceFacts.ensureValidContext_kept w cartId c context now
          Hc Ho (before_not_after _ _ (Hlt _))).
  call (ClientFacts.removeItem_live w _ c context (now InRemoveItem)
          Hreg Ho a content (Hlt _) Hi Ha itemId i item Hfind).
  fold live'.
  set (w1 := set_arrays (<[a := live']> (arrays w)) w).
  call (getOrEmpty_Some shadowState cartId s w1 Hs).
  call (readArray_Some s (shadowAfter s a shadow live') w1
          (shadowAfter_lookup live')).
  unfold shadow'.
  destruct (findIndex itemId (shadowAfter s a shadow live')) as [index|].
  - unfold writeArray. glue.
    set (w2 := set_shadowState _ _).
    assert (arrays w2 !! s
            = Some (delete index (shadowAfter s a shadow live'))) as Hread.
    { simpl. apply list_lookup_insert_eq. rewrite length_insert.
      eapply lookup_lt_Some, Hsh. }
    rewrite (ServiceFacts.buildCart_Some cartId s _ now w2 Hread).
    f_equal. apply World_eq; try reflexivity. simpl.
    apply insert_id, Hs.
  - glue.
    rewrite (ServiceFacts.buildCart_Some cartId s _ now w1
               (shadowAfter_lookup live')).
    f_equal. apply World_eq; try reflexivity. simpl.
    symmetry. apply list_insert_id, shadowAfter_lookup.
Qed.
End Mutation.

End MutationFacts.

(* ===================================================================== *)
(** ** The stores after a mutation that did not recover *)
(* ===================================================================== *)

Lemma liveItemsOf_eq w cartId c context a :
  contextCache w !! cartId = Some c ->
  contextObjects w !! c = Some context ->
  cartItems w !! contextId context = Some a ->
  liveItemsOf w cartId = arrays w !! a.
Proof.
  intros Hc Ho Hi. unfold liveItemsOf.
  rewrite Hc. cbn [mbind option_bind]. rewrite Ho. cbn [mbind option_bind].
  rewrite Hi. reflexivity.
Qed.

Lemma shadowItemsOf_eq w cartId s :
  shadowState w !! cartId = Some s -> shadowItemsOf w cartId = arrays w !! s.
Proof. intros Hs. unfold shadowItemsOf. rewrite Hs. reflexivity. Qed.

(** X1: on a live cart whose two stores agree, a successful [addItem],
    [updateItem] or [removeItem] leaves them in agreement, item ids
    included: the stores part only when the call recovers. *)
Lemma stores_agree_without_recovery (w : World) (cartId : string) (now : Clock)
    (content : list CartItem) (pid itemId : string) (q : number)
    (cart : Cart) (w' : World) :
  liveCart w cartId now content ->
  shadowOf w cartId content ->
  CartService.addItem cartId pid q now w = (Return cart, w') \/
  CartService.updateItem cartId itemId q now w = (Return cart, w') \/
  CartService.removeItem cartId itemId now w = (Return cart, w') ->
  exists content',
    liveItemsOf w' cartId = Some content' /\
    shadowItemsOf w' cartId = Some content'.
Proof.
  intros (c & context & a & Hc & Ho & Hreg & Hlt & Hi & Ha) (s & Hs & Hsh).
  assert (a < length (arrays w))%nat as Hla by (eapply lookup_lt_Some, Ha).
  assert (s < length (arrays w))%nat as Hls by (eapply lookup_lt_Some, Hsh).
  assert (forall live' shadow' (w1 : World),
            arrays w1 = <[s := shadow']> (<[a := live']> (arrays w)) ->
            contextCache w1 = contextCache w ->
            contextObjects w1 = contextObjects w ->
            cartItems w1 = cartItems w ->
            shadowState w1 = shadowState w ->
            (s <> a -> shadow' = live') ->
            exists content',
              liveItemsOf w1 cartId = Some content' /\
              shadowItemsOf w1 cartId = Some content') as Hagree.
  { intros live' shadow' w1 Harr Hcc Hco Hci Hss Hsame.
    exists shadow'.
    rewrite (liveItemsOf_eq w1 cartId c context a)
      by (rewrite ?Hcc, ?Hco, ?Hci; assumption).
    rewrite (shadowItemsOf_eq w1 cartId s) by (rewrite Hss; assumption).
    rewrite Harr. split.
    - destruct (decide (s = a)) as [->|Hne].
      + apply list_lookup_insert_eq. rewrite length_insert. exact Hla.
      + rewrite list_lookup_insert_ne by exact Hne.
        rewrite (Hsame Hne). apply list_lookup_insert_eq. exact Hla.
    - apply list_lookup_insert_eq. rewrite length_insert. exact Hls. }
  assert (liveCart w cartId now content) as Hlive.
  { exists c, context, a. repeat split; assumption. }
  intros [H | [H | H]].
  - (* addItem *)
    destruct (CartService.products !! pid) as [product|] eqn:Hproduct.
    2:{ unfold CartService.addItem in H. rewrite Hproduct in H.
        discriminate H. }
    destruct (allowed (canAddItemType (config w) content (type product)))
      eqn:Hallowed.
    2:{ rewrite (LiveFacts.addItem_refused w cartId now content Hlive
                   pid product q Hproduct Hallowed) in H.
        discriminate H. }
    pose proof (MutationFacts.addItem_allowed w cartId now c context a content
                  s content Hc Ho Hreg Hlt Hi Ha Hs Hsh pid product q
                  Hproduct Hallowed) as Hrun.
    cbv zeta in Hrun. rewrite Hrun in H. injection H as _ <-.
    eapply Hagree; try reflexivity.
    intros Hne. unfold shadowAfter.
    destruct (decide (s = a)); [contradiction | reflexivity].
  - (* updateItem *)
    destruct (list_find (fun x => id x = itemId) content) as [[i item]|]
      eqn:Hfind.
    2:{ rewrite (MutationFacts.updateItem_missing w cartId now c context a
                   content Hc Ho Hreg Hlt Hi Ha itemId q Hfind) in H.
        discriminate H. }
    pose proof (MutationFacts.updateItem_found w cartId now c context a content
                  s content Hc Ho Hreg Hlt Hi Ha Hs Hsh itemId q i item Hfind)
      as Hrun.
    cbv zeta in Hrun. rewrite Hrun in H. injection H as _ <-.
    eapply Hagree; try reflexivity.
    intros Hne. unfold shadowAfter.
    destruct (decide (s = a)); [contradiction|].
    unfold findIndex. rewrite Hfind. reflexivity.
  - (* removeItem *)
    destruct (list_find (fun x => id x = itemId) content) as [[i item]|]
      eqn:Hfind.
    2:{ rewrite (MutationFacts.removeItem_missing w cartId now c context a
                   content Hc Ho Hreg Hlt Hi Ha itemId Hfind) in H.
        discriminate H. }
    pose proof (MutationFacts.removeItem_found w cartId now c context a content
                  s content Hc Ho Hreg Hlt Hi Ha Hs Hsh itemId i item Hfind)
      as Hrun.
    cbv zeta in Hrun. rewrite Hrun in H. injection H as _ <-.
    eapply Hagree; try reflexivity.
    intros Hne. unfold shadowAfter.
    destruct (decide (s = a)); [contradiction|].
    unfold findIndex. rewrite Hfind. reflexivity.
Qed.

(* ===================================================================== *)
(** ** No call changes the configuration *)
(* ===================================================================== *)

Create HintDb keeps discriminated.

Lemma keeps_ret {A} (a : A) : keepsConfig (ret a).
Proof. intros w r w' [= _ <-]. reflexivity. Qed.

Lemma keeps_throw {A} (e : Exn) : keepsConfig (@throw A e).
Proof. intros w r w' [= _ <-]. reflexivity. Qed.

Lemma keeps_dangling {A} : keepsConfig (@dangling A).
Proof. intros w r w' [= _ <-]. reflexivity. Qed.

Lemma keeps_get : keepsConfig get.
Proof. intros w r w' [= _ <-]. reflexivity. Qed.

Lemma keeps_modify (f : World -> World) :
  (forall w, config (f w) = config w) -> keepsConfig (modify f).
Proof. intros Hf w r w' [= _ <-]. apply Hf. Qed.

Lemma keeps_bind {A B} (m : M A) (k : A -> M B) :
  keepsConfig m -> (forall a, keepsConfig (k a)) -> keepsConfig (bind m k).
Proof.
  intros Hm Hk w r w'. unfold bind.
  destruct (m w) as [[a | e |] w1] eqn:Hrun; intros H.
  - rewrite (Hk a _ _ _ H). eapply Hm, Hrun.
  - injection H as _ <-. eapply Hm, Hrun.
  - injection H as _ <-. eapply Hm, Hrun.
Qed.

Lemma keeps_nanoid size : keepsConfig (nanoid size).
Proof. intros w r w' [= _ <-]. reflexivity. Qed.

Lemma keeps_newArray items : keepsConfig (newArray items).
Proof. intros w r w' [= _ <-]. reflexivity. Qed.

Lemma keeps_newContextObject context : keepsConfig (newContextObject context).
Proof. intros w r w' [= _ <-]. reflexivity. Qed.

Lemma keeps_readArray a : keepsConfig (readArray a).
Proof.
  intros w r w'. unfold readArray.
  destruct (arrays w !! a); intros [= _ <-]; reflexivity.
Qed.

Lemma keeps_readContext c : keepsConfig (readContext c).
Proof.
  intros w r w'. unfold readContext.
  destruct (contextObjects w !! c); intros [= _ <-]; reflexivity.
Qed.

Lemma keeps_writeArray a items : keepsConfig (writeArray a items).
Proof. apply keeps_modify. reflexivity. Qed.

Lemma keeps_writeContext c context : keepsConfig (writeContext c context).
Proof. apply keeps_modify. reflexivity. Qed.

#[export] Hint Resolve keeps_ret keeps_throw keeps_dangling keeps_get
  keeps_nanoid keeps_newArray keeps_newContextObject keeps_readArray
  keeps_readContext keeps_writeArray keeps_writeContext : keeps.

(** Goes through the binds of a computation; what is left are the calls
    whose frame lemma is not in the database yet. *)
Ltac keeps :=
  repeat first
    [ progress eauto with keeps
    | apply keeps_bind; [|intros ?]
    | apply keeps_modify; intros ?; reflexivity
    | match goal with
      | |- keepsConfig (match ?x with _ => _ end) => destruct x
      end ].

Lemma keeps_getOrEmpty m key : keepsConfig (getOrEmpty m key).
Proof. unfold getOrEmpty. keeps. Qed.
#[export] Hint Resolve keeps_getOrEmpty : keeps.

Lemma keeps_forOf {A} (xs : list A) (body : nat -> A -> M unit) i :
  (forall i x, keepsConfig (body i x)) -> keepsConfig (forOf i xs body).
Proof.
  intros Hbody. revert i. induction xs as [|x xs IH]; intros i; simpl; keeps.
Qed.

Lemma keeps_createContext cartId now :
  keepsConfig (SalesforceCartClient.createContext cartId now).
Proof. unfold SalesforceCartClient.createContext. keeps. Qed.

Lemma keeps_getCartItems cid now :
  keepsConfig (SalesforceCartClient.getCartItems cid now).
Proof. unfold SalesforceCartClient.getCartItems. keeps. Qed.

Lemma keeps_client_addItem cid r now :
  keepsConfig (SalesforceCartClient.addItem cid r now).
Proof. unfold SalesforceCartClient.addItem. keeps. Qed.

Lemma keeps_client_updateItem cid itemId q now :
  keepsConfig (SalesforceCartClient.updateItem cid itemId q now).
Proof. unfold SalesforceCartClient.updateItem. keeps. Qed.

Lemma keeps_client_removeItem cid itemId now :
  keepsConfig (SalesforceCartClient.removeItem cid itemId now).
Proof. unfold SalesforceCartClient.removeItem. keeps. Qed.

#[export] Hint Resolve keeps_createContext keeps_getCartItems
  keeps_client_addItem keeps_client_updateItem keeps_client_removeItem
  : keeps.

Lemma keeps_ensureValidContext cartId now :
  keepsConfig (CartService.ensureValidContext cartId now).
Proof.
  unfold CartService.ensureValidContext. keeps.
  apply keeps_forOf. intros i item. keeps.
Qed.
#[export] Hint Resolve keeps_ensureValidContext : keeps.

(* ===================================================================== *)
(** ** Pricing of the views *)
(* ===================================================================== *)

Lemma builds_buildCart cartId a now :
  buildsView (CartService.buildCart cartId a now).
Proof.
  intros w cart w' H.
  apply ServiceFacts.buildCart_inv in H as (content & _ & -> & _).
  repeat split.
Qed.

Lemma builds_throw e : buildsView (throw e).
Proof. intros w cart w' H. discriminate H. Qed.

Lemma builds_bind {A} (m : M A) (k : A -> M Cart) :
  keepsConfig m -> (forall a, buildsView (k a)) -> buildsView (bind m k).
Proof.
  intros Hm Hk w cart w' H.
  apply bind_Return_inv in H as (a & w1 & Hrun & H).
  rewrite <- (Hm _ _ _ Hrun). eapply Hk, H.
Qed.

Ltac builds :=
  repeat first
    [ apply builds_buildCart
    | apply builds_throw
    | apply builds_bind; [solve [keeps] | intros ?]
    | match goal with
      | |- buildsView (match ?x with _ => _ end) => destruct x
      end ].

Lemma builds_initializeCart now : buildsView (CartService.initializeCart now).
Proof. unfold CartService.initializeCart. builds. Qed.

Lemma builds_getCart cartId now : buildsView (CartService.getCart cartId now).
Proof. unfold CartService.getCart. builds. Qed.

Lemma builds_addItem cartId pid q now :
  buildsView (CartService.addItem cartId pid q now).
Proof. unfold CartService.addItem. builds. Qed.

Lemma builds_updateItem cartId itemId q now :
  buildsView (CartService.updateItem cartId itemId q now).
Proof. unfold CartService.updateItem. builds. Qed.

Lemma builds_removeItem cartId itemId now :
  buildsView (CartService.removeItem cartId itemId now).
Proof. unfold CartService.removeItem. builds. Qed.

Lemma client_addItem_inv cid r now w item w' :
  SalesforceCartClient.addItem cid r now w = (Return item, w') ->
  exists itemId, item = itemOfRequest itemId r.
Proof.
  unfold SalesforceCartClient.addItem. glue.
  destruct (negb _); [discriminate|]. intros H.
  apply bind_Return_inv in H as (items & w1 & _ & H).
  apply bind_Return_inv in H as (rnd & w2 & _ & H).
  apply bind_Return_inv in H as (old & w3 & _ & H).
  revert H. unfold writeArray. glue. unfold ret. intros [= <- _].
  eexists. reflexivity.
Qed.

(** The line [addItem] appends is priced by [calculateItemTotal]. *)
Lemma addItem_line cartId pid q now w cart w' :
  CartService.addItem cartId pid q now w = (Return cart, w') ->
  exists product item,
    CartService.products !! pid = Some product /\
    last (items cart) = Some item /\
    productId item = product_id product /\
    unitPrice item = price product /\
    quantity item = q /\
    totalPrice item = toFixed2 (unitPrice item * quantity item)%float.
Proof.
  unfold CartService.addItem.
  destruct (CartService.products !! pid) as [product|]; [|discriminate].
  intros H.
  apply bind_Return_inv in H as (cid & w1 & _ & H).
  apply bind_Return_inv in H as (cur & w2 & _ & H).
  apply bind_Return_inv in H as (current & w3 & _ & H).
  rewrite bind_get in H.
  destruct (negb _); [discriminate|].
  apply bind_Return_inv in H as (newItem & w4 & Hadd & H).
  apply client_addItem_inv in Hadd as (itemId & ->).
  apply bind_Return_inv in H as (s & w5 & _ & H).
  apply bind_Return_inv in H as (old & w6 & Hold & H).
  apply readArray_inv in Hold as [Hold ->].
  unfold writeArray in H. rewrite !bind_modify in H.
  apply ServiceFacts.buildCart_inv in H as (content & Hcontent & -> & _).
  simpl in Hcontent.
  rewrite list_lookup_insert_eq in Hcontent
    by (eapply lookup_lt_Some, Hold).
  injection Hcontent as <-.
  eexists product, _. split; [reflexivity|]. split.
  - unfold cartView, items, push. apply last_snoc.
  - repeat split.
Qed.

(** [nearestCents m e] is [100 * m * 2^e] rounded to the nearest integer,
    a half rounded up. *)
Lemma nearestCents_spec (m : positive) (e : Z) :
  let n := nearestCents m e in
  (0 <= e -> n = 100 * (Z.pos m * 2 ^ e)) /\
  (e < 0 ->
   (2 * n - 1) * 2 ^ (- e) <= 200 * Z.pos m < (2 * n + 1) * 2 ^ (- e)).
Proof.
  unfold nearestCents. split.
  - intros He. destruct (Z.leb_spec 0 e); lia.
  - intros He. destruct (Z.leb_spec 0 e); [lia|].
    assert (0 < 2 ^ (- e)) as Hd by (apply Z.pow_pos_nonneg; lia).
    set (d := 2 ^ (- e)) in *.
    pose proof (Z.div_mod (200 * Z.pos m + d) (2 * d) ltac:(lia)) as Hdm.
    pose proof (Z.mod_pos_bound (200 * Z.pos m + d) (2 * d) ltac:(lia)) as Hr.
    set (n := (200 * Z.pos m + d) / (2 * d)) in *.
    nia.
Qed.

(** What holds of the pricing: every cart view the service returns has
    subtotal = round(sum of the line totals), tax = round(subtotal x tax
    rate) and total = round(subtotal + tax), each rounded on its own to two
    decimals, the default rate being 0.13; the line [addItem] appends has
    total = round(unit price x quantity); round is [Number(x.toFixed(2))],
    which takes the cents nearest to [|x|], a half going up, and restores
    the sign (half away from zero); and a fresh cart with phone_iphone15 and
    addon_insurance, one each, has subtotal 1411.99, tax 183.56 and total
    1595.55. *)
Theorem pricing_of_views :
  (forall w now cartId pid itemId q cart w',
     CartService.initializeCart now w = (Return cart, w') \/
     CartService.getCart cartId now w = (Return cart, w') \/
     CartService.addItem cartId pid q now w = (Return cart, w') \/
     CartService.updateItem cartId itemId q now w = (Return cart, w') \/
     CartService.removeItem cartId itemId now w = (Return cart, w') ->
     priced (config w) cart) /\
  (forall w now cartId pid q cart w',
     CartService.addItem cartId pid q now w = (Return cart, w') ->
     exists product item,
       CartService.products !! pid = Some product /\
       last (items cart) = Some item /\
       productId item = product_id product /\
       unitPrice item = price product /\
       quantity item = q /\
       totalPrice item = toFixed2 (unitPrice item * quantity item)%float) /\
  (forall x s m e,
     Prim2SF x = S754_finite s m e ->
     PrimFloat.leb 1e21 (PrimFloat.abs x) = false ->
     let n := nearestCents m e in
     toFixed2 x = ofCents s n /\
     (0 <= e -> n = 100 * (Z.pos m * 2 ^ e)) /\
     (e < 0 ->
      (2 * n - 1) * 2 ^ (- e) <= 200 * Z.pos m < (2 * n + 1) * 2 ^ (- e))) /\
  taxRate defaultCartConfig = 0.13%float /\
  (exists cart w' phone insurance,
     CartService.addItem Scenario.cart1 "addon_insurance" 1 (instant 3000)
       Scenario.wPhone = (Return cart, w') /\
     items cart = [phone; insurance] /\
     (unitPrice phone, quantity phone, totalPrice phone)
       = (1399.99, 1, 1399.99)%float /\
     (unitPrice insurance, quantity insurance, totalPrice insurance)
       = (12, 1, 12)%float /\
     subtotal cart = 1411.99%float /\
     tax cart = 183.56%float /\
     total cart = 1595.55%float).
Proof.
  split; [|split; [|split; [|split]]].
  - intros w now cartId pid itemId q cart w' [H | [H | [H | [H | H]]]].
    + eapply builds_initializeCart, H.
    + eapply builds_getCart, H.
    + eapply builds_addItem, H.
    + eapply builds_updateItem, H.
    + eapply builds_removeItem, H.
  - intros w now cartId pid q cart w'. apply addItem_line.
  - intros x s m e Hx Hsmall n. split.
    + unfold toFixed2. rewrite Hx, Hsmall. reflexivity.
    + apply nearestCents_spec.
  - reflexivity.
  - eexists _, _, _, _. split; [vm_compute; reflexivity|].
    split; [reflexivity|]. repeat split; vm_compute; reflexivity.
Qed.

(* ===================================================================== *)
(** ** What [initializeCart] sets up *)
(* ===================================================================== *)


(* ===================================================================== *)
(** ** Away from the instant [expiresAt] *)
(* ===================================================================== *)

Lemma reason_not_expired (config : CartConfig) (content : list CartItem)
    (t : ProductType) :
  Error (default "" (reason (canAddItemType config content t)))
  <> Error "SF_CONTEXT_EXPIRED".
Proof.
  unfold canAddItemType.
  repeat match goal with
         | |- context [if ?b then _ else _] => destruct b
         end; discriminate.
Qed.

Module ExpiryFacts.
Import CartService.

Section Live.
Variables (w : World) (cartId : string) (now : Clock)
          (c : ref) (context : SalesforceContext)
          (a : ref) (content : list CartItem)
          (s : ref) (shadow : list CartItem).
Hypothesis Hc : contextCache w !! cartId = Some c.
Hypothesis Ho : contextObjects w !! c = Some context.
Hypothesis Hreg : contexts w !! contextId context = Some c.
Hypothesis Hlt : forall r, before (now r) (expiresAt context).
Hypothesis Hi : cartItems w !! contextId context = Some a.
Hypothesis Ha : arrays w !! a = Some content.
Hypothesis Hs : shadowState w !! cartId = Some s.
Hypothesis Hsh : arrays w !! s = Some shadow.

Lemma getCart_live :
  getCart cartId now w
  = (Return (cartView (config w) cartId content now),
     set_shadowState (<[cartId := a]> (shadowState w)) w).
Proof.
  unfold getCart.
  call (ServiceFacts.ensureValidContext_kept w cartId c context now
          Hc Ho (before_not_after _ _ (Hlt _))).
  call (ClientFacts.getCartItems_live w _ c context (now InGetCartItems)
          Hreg Ho a (Hlt _) Hi).
  glue.
  exact (ServiceFacts.buildCart_Some cartId a content now
           (set_shadowState (<[cartId := a]> (shadowState w)) w) Ha).
Qed.

Lemma live_keeps_SF_CONTEXT_EXPIRED pid itemId q :
  ~ leaksContextExpired (getCart cartId now) w /\
  ~ leaksContextExpired (addItem cartId pid q now) w /\
  ~ leaksContextExpired (updateItem cartId itemId q now) w /\
  ~ leaksContextExpired (removeItem cartId itemId now) w /\
  ~ leaksContextExpired (validateCart cartId now) w.
Proof.
  assert (liveCart w cartId now content) as Hlive.
  { exists c, context, a. repeat split; assumption. }
  unfold leaksContextExpired. repeat split.
  - rewrite getCart_live. discriminate.
  - destruct (products !! pid) as [product|] eqn:Hproduct.
    2:{ unfold addItem. rewrite Hproduct. discriminate. }
    destruct (allowed (canAddItemType (config w) content (type product)))
      eqn:Hallowed.
    + pose proof (MutationFacts.addItem_allowed w cartId now c context a
                    content s shadow Hc Ho Hreg Hlt Hi Ha Hs Hsh pid product q
                    Hproduct Hallowed) as Hrun.
      cbv zeta in Hrun. rewrite Hrun. discriminate.
    + rewrite (LiveFacts.addItem_refused w cartId now content Hlive
                 pid product q Hproduct Hallowed).
      cbn [fst]. intros [= Hreason]. revert Hreason.
      intros Hreason.
      apply (reason_not_expired (config w) content (type product)).
      f_equal. exact Hreason.
  - destruct (list_find (fun x => id x = itemId) content) as [[i item]|]
      eqn:Hfind.
    + pose proof (MutationFacts.updateItem_found w cartId now c context a
                    content s shadow Hc Ho Hreg Hlt Hi Ha Hs Hsh itemId q i
                    item Hfind) as Hrun.
      cbv zeta in Hrun. rewrite Hrun. discriminate.
    + rewrite (MutationFacts.updateItem_missing w cartId now c context a
                 content Hc Ho Hreg Hlt Hi Ha itemId q Hfind).
      discriminate.
  - destruct (list_find (fun x => id x = itemId) content) as [[i item]|]
      eqn:Hfind.
    + pose proof (MutationFacts.removeItem_found w cartId now c context a
                    content s shadow Hc Ho Hreg Hlt Hi Ha Hs Hsh itemId i
                    item Hfind) as Hrun.
      cbv zeta in Hrun. rewrite Hrun. discriminate.
    + rewrite (MutationFacts.removeItem_missing w cartId now c context a
                 content Hc Ho Hreg Hlt Hi Ha itemId Hfind).
      discriminate.
  - rewrite (LiveFacts.validateCart_live w cartId now content Hlive).
    discriminate.
Qed.
End Live.

Section Expired.
Variables (w : World) (cartId : string) (now : Clock)
          (c : ref) (context : SalesforceContext)
          (s : ref) (shadow : list CartItem).
Hypothesis Hc : contextCache w !! cartId = Some c.
Hypothesis Ho : contextObjects w !! c = Some context.
Hypothesis Hexpired : expired now context.
Hypothesis Hfresh : recoverable w cartId now.
Hypothesis Hs : shadowState w !! cartId = Some s.
Hypothesis Hsh : arrays w !! s = Some shadow.

Lemma ensureValidContext_recoverable :
  ensureValidContext cartId now w
  = (Return (contextId (freshContext cartId (now InCreateContext) w)),
     recovered cartId (now InCreateContext) shadow w).
Proof.
  apply (RecoveryFacts.ensureValidContext_recovers w cartId c context now s
           shadow Hc Ho Hexpired Hs Hsh).
  intros j _. apply Hfresh.
Qed.

(** The cart is live in the world the recovery leaves. *)
Lemma recovered_liveCart :
  liveCart (recovered cartId (now InCreateContext) shadow w) cartId now
    (replayed (nanoidSource w) (S (nanoidCalls w)) shadow).
Proof.
  exists (length (contextObjects w)),
    (freshContext cartId (now InCreateContext) w), (length (arrays w)).
  split; [apply lookup_insert_eq|].
  split; [simpl; apply list_lookup_middle; reflexivity|].
  split; [apply lookup_insert_eq|].
  split; [exact Hfresh|].
  split; [apply lookup_insert_eq|].
  simpl. apply list_lookup_middle. reflexivity.
Qed.

(** A call on an expired context is the recovery followed by the same call
    on the recovered world. *)
Lemma recovery_first {A} (rest : string -> M A) :
  bind (ensureValidContext cartId now) rest w
  = bind (ensureValidContext cartId now) rest
      (recovered cartId (now InCreateContext) shadow w).
Proof.
  call ensureValidContext_recoverable.
  assert (ensureValidContext cartId now
            (recovered cartId (now InCreateContext) shadow w)
          = (Return (contextId (freshContext cartId (now InCreateContext) w)),
             recovered cartId (now InCreateContext) shadow w)) as Hkept.
  { apply (ServiceFacts.ensureValidContext_kept _ cartId
             (length (contextObjects w))
             (freshContext cartId (now InCreateContext) w) now).
    - apply lookup_insert_eq.
    - simpl. apply list_lookup_middle. reflexivity.
    - apply before_not_after, Hfresh. }
  call Hkept. reflexivity.
Qed.

Lemma expired_keeps_SF_CONTEXT_EXPIRED pid itemId q :
  ~ leaksContextExpired (getCart cartId now) w /\
  ~ leaksContextExpired (addItem cartId pid q now) w /\
  ~ leaksContextExpired (updateItem cartId itemId q now) w /\
  ~ leaksContextExpired (removeItem cartId itemId now) w /\
  ~ leaksContextExpired (validateCart cartId now) w.
Proof.
  set (w1 := recovered cartId (now InCreateContext) shadow w).
  pose proof (live_keeps_SF_CONTEXT_EXPIRED w1 cartId now
                (length (contextObjects w))
                (freshContext cartId (now InCreateContext) w)
                (length (arrays w))
                (replayed (nanoidSource w) (S (nanoidCalls w)) shadow)
                s shadow) as Hlive.
  destruct (Hlive (lookup_insert_eq _ _ _)
              ltac:(simpl; apply list_lookup_middle; reflexivity)
              (lookup_insert_eq _ _ _)
              Hfresh
              (lookup_insert_eq _ _ _)
              ltac:(simpl; apply list_lookup_middle; reflexivity)
              Hs
              ltac:(simpl; rewrite lookup_app_l;
                    [exact Hsh | eapply lookup_lt_Some, Hsh])
              pid itemId q)
    as (Hget & Hadd & Hupdate & Hremove & Hvalidate).
  unfold leaksContextExpired in *. fold w1 in Hget, Hadd, Hupdate, Hremove,
    Hvalidate.
  assert (forall A (m : M A), fst (m w) = fst (m w1) ->
            fst (m w1) <> Throw (Error "SF_CONTEXT_EXPIRED") ->
            fst (m w) <> Throw (Error "SF_CONTEXT_EXPIRED")) as Hmove.
  { intros A m ->. auto. }
  repeat split.
  - apply Hmove; [|exact Hget]. unfold getCart. rewrite recovery_first.
    reflexivity.
  - apply Hmove; [|exact Hadd]. unfold addItem.
    destruct (products !! pid); [|reflexivity].
    rewrite recovery_first. reflexivity.
  - apply Hmove; [|exact Hupdate]. unfold updateItem.
    rewrite recovery_first. reflexivity.
  - apply Hmove; [|exact Hremove]. unfold removeItem.
    rewrite recovery_first. reflexivity.
  - apply Hmove; [|exact Hvalidate]. unfold validateCart.
    rewrite recovery_first. reflexivity.
Qed.
End Expired.

End ExpiryFacts.

(** X2: a successful [addItem] that recovered leaves the two stores with the
    same lines; the view is the shadow's. *)
Lemma addItem_recovering_lines (w : World) (cartId : string) (now : Clock)
    (c : ref) (context : SalesforceContext) (s : ref)
    (shadow : list CartItem) (pid : string) (q : number) (cart : Cart)
    (w' : World) :
  contextCache w !! cartId = Some c ->
  contextObjects w !! c = Some context ->
  expired now context ->
  recoverable w cartId now ->
  shadowState w !! cartId = Some s ->
  arrays w !! s = Some shadow ->
  CartService.addItem cartId pid q now w = (Return cart, w') ->
  exists live item,
    liveItemsOf w' cartId = Some (push live item) /\
    shadowItemsOf w' cartId = Some (push shadow item) /\
    items cart = push shadow item /\
    live = replayed (nanoidSource w) (S (nanoidCalls w)) shadow /\
    line <$> push live item = line <$> push shadow item.
Proof.
  intros Hc Ho Hexpired Hfresh Hs Hsh Hrun.
  set (w1 := recovered cartId (now InCreateContext) shadow w).
  set (live := replayed (nanoidSource w) (S (nanoidCalls w)) shadow).
  set (c1 := length (contextObjects w)).
  set (a1 := length (arrays w)).
  set (context1 := freshContext cartId (now InCreateContext) w).
  assert (s < length (arrays w))%nat as Hls by (eapply lookup_lt_Some, Hsh).
  assert (contextCache w1 !! cartId = Some c1) as Hc1
    by apply lookup_insert_eq.
  assert (contextObjects w1 !! c1 = Some context1) as Ho1
    by (simpl; apply list_lookup_middle; reflexivity).
  assert (contexts w1 !! contextId context1 = Some c1) as Hreg1
    by apply lookup_insert_eq.
  assert (forall r, before (now r) (expiresAt context1)) as Hlt1
    by exact Hfresh.
  assert (cartItems w1 !! contextId context1 = Some a1) as Hi1
    by apply lookup_insert_eq.
  assert (arrays w1 !! a1 = Some live) as Ha1
    by (simpl; apply list_lookup_middle; reflexivity).
  assert (arrays w1 !! s = Some shadow) as Hsh1
    by (simpl; rewrite lookup_app_l; [exact Hsh | exact Hls]).
  assert (liveCart w1 cartId now live) as Hlive1.
  { exists c1, context1, a1. repeat split; assumption. }
  destruct (CartService.products !! pid) as [product|] eqn:Hproduct.
  2:{ unfold CartService.addItem in Hrun. rewrite Hproduct in Hrun.
      discriminate Hrun. }
  assert (CartService.addItem cartId pid q now w
          = CartService.addItem cartId pid q now w1) as Hfirst.
  { unfold CartService.addItem. rewrite Hproduct.
    apply (ExpiryFacts.recovery_first w cartId now c context s shadow
             Hc Ho Hexpired Hfresh Hs Hsh). }
  rewrite Hfirst in Hrun. clear Hfirst.
  destruct (allowed (canAddItemType (config w1) live (type product)))
    eqn:Hallowed.
  2:{ rewrite (LiveFacts.addItem_refused w1 cartId now live Hlive1
                 pid product q Hproduct Hallowed) in Hrun.
      discriminate Hrun. }
  pose proof (MutationFacts.addItem_allowed w1 cartId now c1 context1 a1 live
                s shadow Hc1 Ho1 Hreg1 Hlt1 Hi1 Ha1 Hs Hsh1 pid product q
                Hproduct Hallowed) as Hok.
  cbv zeta in Hok. rewrite Hok in Hrun. clear Hok.
  assert (s <> a1) as Hne by (unfold a1; lia).
  unfold shadowAfter in Hrun.
  destruct (decide (s = a1)) as [Heq|_]; [contradiction|].
  injection Hrun as <- <-.
  eexists live, _. split; [|split; [|split; [|split]]].
  - erewrite liveItemsOf_eq by eassumption. simpl.
    rewrite list_lookup_insert_ne by exact Hne.
    apply list_lookup_insert_eq. rewrite length_app. simpl. lia.
  - erewrite shadowItemsOf_eq by exact Hs. simpl.
    apply list_lookup_insert_eq. rewrite length_insert, length_app.
    simpl. lia.
  - reflexivity.
  - reflexivity.
  - unfold push. rewrite !fmap_app. f_equal. apply replayed_line.
Qed.

(** X3: on an initialized cart no operation passes the client's
    [SF_CONTEXT_EXPIRED] on when the client accepts the context in use at
    every clock reading of the call: the cached context, or, once the
    service finds it expired, the one the recovery creates. *)
Lemma SF_CONTEXT_EXPIRED_only_when_refused (w : World) (cartId : string)
    (context : SalesforceContext) (now : Clock) (pid itemId : string)
    (q : number) :
  initializedCart w cartId context ->
  (forall r, before (now r) (expiresAt context)) \/
  (expired now context /\ recoverable w cartId now) ->
  ~ leaksContextExpired (CartService.getCart cartId now) w /\
  ~ leaksContextExpired (CartService.addItem cartId pid q now) w /\
  ~ leaksContextExpired (CartService.updateItem cartId itemId q now) w /\
  ~ leaksContextExpired (CartService.removeItem cartId itemId now) w /\
  ~ leaksContextExpired (CartService.validateCart cartId now) w.
Proof.
  intros (c & a & content & s & shadow & Hc & Ho & Hreg & Hi & Ha & Hs & Hsh)
    [Hlt | [Hgt Hfresh]].
  - exact (ExpiryFacts.live_keeps_SF_CONTEXT_EXPIRED w cartId now c context
             a content s shadow Hc Ho Hreg Hlt Hi Ha Hs Hsh pid itemId q).
  - exact (ExpiryFacts.expired_keeps_SF_CONTEXT_EXPIRED w cartId now c context
             s shadow Hc Ho Hgt Hfresh Hs Hsh pid itemId q).
Qed.

(* ===================================================================== *)
(** ** Further facts: lists and maps *)
(* ===================================================================== *)

Lemma foldr_delete_delete {A} (ks : list string) (k : string)
    (m : gmap string A) :
  foldr delete (delete k m) ks = delete k (foldr delete m ks).
Proof.
  induction ks as [|k' ks IH]; simpl; [reflexivity|].
  rewrite IH. apply delete_delete.
Qed.

Lemma lookup_foldr_delete {A} (ks : list string) (m : gmap string A) k :
  foldr delete m ks !! k = if decide (k ∈ ks) then None else m !! k.
Proof.
  induction ks as [|k' ks IH]; simpl.
  - destruct (decide (k ∈ [])) as [H|_]; [|reflexivity].
    apply elem_of_nil in H. contradiction.
  - destruct (decide (k' = k)) as [->|Hne].
    + rewrite lookup_delete_eq.
      destruct (decide (k ∈ k :: ks)) as [_|H]; [reflexivity|].
      exfalso. apply H. left.
    + rewrite lookup_delete_ne by exact Hne. rewrite IH.
      destruct (decide (k ∈ ks)) as [H|H];
        destruct (decide (k ∈ k' :: ks)) as [H'|H']; try reflexivity.
      * exfalso. apply H'. right. exact H.
      * exfalso. apply elem_of_cons in H' as [->|H']; [congruence|auto].
Qed.

Lemma filter_nil_Forall {A} (P : A -> Prop) `{!forall x, Decision (P x)}
    (l : list A) :
  Forall (fun x => ~ P x) l -> base.filter P l = [].
Proof.
  induction 1 as [|x l Hx _ IH]; [reflexivity|].
  rewrite filter_cons_False by exact Hx. exact IH.
Qed.

Lemma list_find_fresh (itemId : string) (content rest : list CartItem)
    (item : CartItem) :
  Forall (fun x => id x <> itemId) content ->
  id item = itemId ->
  list_find (fun x => id x = itemId) (content ++ item :: rest)
  = Some (length content, item).
Proof.
  intros Hfresh Hid. apply list_find_Some. split; [|split].
  - apply list_lookup_middle. reflexivity.
  - exact Hid.
  - intros j y Hj Hlt. rewrite lookup_app_l in Hj by exact Hlt.
    rewrite Forall_forall in Hfresh. apply Hfresh.
    eapply list_elem_of_lookup_2, Hj.
Qed.

Lemma filter_push_length {A} (f : A -> bool) (l : list A) (x : A) :
  length (List.filter f (push l x))
  = (length (List.filter f l) + if f x then 1 else 0)%nat.
Proof.
  unfold push. rewrite List.filter_app, length_app. simpl.
  destruct (f x); reflexivity.
Qed.

Lemma filter_length_Permutation {A} (f : A -> bool) (l l' : list A) :
  l ≡ₚ l' -> length (List.filter f l) = length (List.filter f l').
Proof.
  induction 1 as [|x l l' _ IH|x y l|l l' l'' _ IH1 _ IH2]; simpl.
  - reflexivity.
  - destruct (f x); simpl; rewrite IH; reflexivity.
  - destruct (f x), (f y); reflexivity.
  - congruence.
Qed.

Lemma existsb_Permutation {A} (f : A -> bool) (l l' : list A) :
  l ≡ₚ l' -> existsb f l = existsb f l'.
Proof.
  induction 1 as [|x l l' _ IH|x y l|l l' l'' _ IH1 _ IH2]; simpl.
  - reflexivity.
  - rewrite IH. reflexivity.
  - destruct (f x), (f y); reflexivity.
  - congruence.
Qed.

(* ===================================================================== *)
(** ** Further facts about the client *)
(* ===================================================================== *)

Module ClientFacts2.
Import SalesforceCartClient.

Section Registered.
Variables (w : World) (cid : string) (c : ref)
          (context : SalesforceContext) (now : Z).
Hypothesis Hreg : contexts w !! cid = Some c.
Hypothesis Hobj : contextObjects w !! c = Some context.

Lemma expireContext_eq :
  expireContext cid now w
  = (Return tt,
     set_contextObjects
       (<[c := set_expiresAt (newDate (getTime now - 1000)%float) context]>
          (contextObjects w)) w).
Proof.
  unfold expireContext. glue. rewrite Hreg.
  call (readContext_Some c context w Hobj).
  unfold writeContext. glue. unfold modify. f_equal.
  apply World_eq; try reflexivity. simpl. apply insert_id, Hreg.
Qed.

Lemma clearContext_eq :
  before now (expiresAt context) ->
  clearContext cid now w
  = (Return tt,
     set_cartItems (<[cid := length (arrays w)]> (cartItems w))
       (set_arrays (arrays w ++ [[]]) w)).
Proof.
  intros Hlt. unfold clearContext. glue.
  rewrite (ClientFacts.isContextValid_eq w cid c context now Hreg Hobj).
  rewrite bool_decide_true by exact Hlt. reflexivity.
Qed.
End Registered.

End ClientFacts2.

Module CleanupFacts.
Import SalesforceCartClient.

Lemma cleanup_loop now l : forall w n,
  (forall entry, entry ∈ l -> is_Some (contextObjects w !! snd entry)) ->
  forOfWith l
    (fun count entry =>
       let contextId := fst entry in
       let* context := readContext (snd entry) in
       if bool_decide (after now (expiresAt context)) then
         modify (fun w => set_contexts (delete contextId (contexts w)) w) ;;;
         modify (fun w => set_cartItems (delete contextId (cartItems w)) w) ;;;
         ret (S count)
       else ret count) n w
  = (Return (n + length (expiredKeys now w l))%nat,
     set_cartItems (foldr delete (cartItems w) (expiredKeys now w l))
       (set_contexts (foldr delete (contexts w) (expiredKeys now w l)) w)).
Proof.
  induction l as [|[k c] l IH]; intros w n Hall.
  - simpl. unfold ret. f_equal; [f_equal; lia|].
    apply World_eq; reflexivity.
  - cbn [forOfWith]. cbv zeta in IH |- *. cbn [fst snd].
    destruct (Hall (k, c) ltac:(left)) as [context Hobj]. cbn [snd] in Hobj.
    rewrite bind_assoc.
    call (readContext_Some c context w Hobj).
    assert (expiredAt now w c = bool_decide (after now (expiresAt context)))
      as Hexp.
    { unfold expiredAt. rewrite Hobj. reflexivity. }
    unfold expiredKeys.
    destruct (decide (after now (expiresAt context))) as [Hgt|Hle].
    + rewrite bool_decide_true by exact Hgt.
      rewrite filter_cons_True
        by (cbn [snd]; rewrite Hexp; apply bool_decide_eq_true_2, Hgt).
      glue.
      set (w2 := set_cartItems _ _).
      rewrite (IH w2 (S n)).
      2:{ intros entry Hin. apply Hall. right. exact Hin. }
      change (expiredKeys now w2 l) with (expiredKeys now w l).
      rewrite fmap_cons. fold (expiredKeys now w l).
      cbn [fst length foldr].
      f_equal; [f_equal; lia|].
      apply World_eq; try reflexivity; simpl.
      * apply foldr_delete_delete.
      * apply foldr_delete_delete.
    + rewrite bool_decide_false by exact Hle.
      rewrite filter_cons_False.
      2:{ cbn [snd]. rewrite Hexp, bool_decide_false by exact Hle.
          discriminate. }
      glue.
      apply IH. intros entry Hin. apply Hall. right. exact Hin.
Qed.

Lemma elem_of_expiredKeys now w (m : gmap string ref) k :
  k ∈ expiredKeys now w (map_to_list m)
  <-> exists c, m !! k = Some c /\ expiredAt now w c = true.
Proof.
  unfold expiredKeys. rewrite list_elem_of_fmap. split.
  - intros ([k' c] & -> & Hin). apply list_elem_of_filter in Hin as [Hexp Hin].
    apply elem_of_map_to_list in Hin. exists c. auto.
  - intros (c & Hm & Hexp). exists (k, c). split; [reflexivity|].
    apply list_elem_of_filter. split; [exact Hexp|].
    apply elem_of_map_to_list. exact Hm.
Qed.

Lemma cleanupExpiredContexts_eq now w :
  contextsAllocated w ->
  cleanupExpiredContexts now w
  = (Return (length (expiredKeys now w (map_to_list (contexts w)))),
     set_cartItems
       (foldr delete (cartItems w)
          (expiredKeys now w (map_to_list (contexts w))))
       (set_contexts
          (foldr delete (contexts w)
             (expiredKeys now w (map_to_list (contexts w)))) w)).
Proof.
  intros Hall. unfold cleanupExpiredContexts. rewrite bind_get.
  rewrite cleanup_loop; [reflexivity|].
  intros [k c] Hin. apply elem_of_map_to_list in Hin. eapply Hall, Hin.
Qed.

Lemma lookup_contexts_cleaned now w k :
  foldr delete (contexts w) (expiredKeys now w (map_to_list (contexts w))) !! k
  = c ← contexts w !! k; if expiredAt now w c then None else Some c.
Proof.
  rewrite lookup_foldr_delete.
  destruct (decide (k ∈ expiredKeys now w (map_to_list (contexts w))))
    as [Hin|Hout].
  - apply elem_of_expiredKeys in Hin as (c & -> & Hexp). simpl.
    rewrite Hexp. reflexivity.
  - destruct (contexts w !! k) as [c|] eqn:Hk; [|reflexivity]. simpl.
    destruct (expiredAt now w c) eqn:Hexp; [|reflexivity].
    exfalso. apply Hout, elem_of_expiredKeys. eauto.
Qed.

Lemma lookup_cartItems_cleaned now w k :
  foldr delete (cartItems w) (expiredKeys now w (map_to_list (contexts w))) !! k
  = match contexts w !! k with
    | Some c => if expiredAt now w c then None else cartItems w !! k
    | None => cartItems w !! k
    end.
Proof.
  rewrite lookup_foldr_delete.
  destruct (decide (k ∈ expiredKeys now w (map_to_list (contexts w))))
    as [Hin|Hout].
  - apply elem_of_expiredKeys in Hin as (c & -> & Hexp).
    rewrite Hexp. reflexivity.
  - destruct (contexts w !! k) as [c|] eqn:Hk; [|reflexivity].
    destruct (expiredAt now w c) eqn:Hexp; [|reflexivity].
    exfalso. apply Hout, elem_of_expiredKeys. eauto.
Qed.

Lemma size_contexts_cleaned now w :
  (size (foldr delete (contexts w)
           (expiredKeys now w (map_to_list (contexts w))))
   + length (expiredKeys now w (map_to_list (contexts w))))%nat
  = size (contexts w).
Proof.
  set (P := fun entry : string * ref => expiredAt now w (snd entry) = true).
  assert (foldr delete (contexts w)
            (expiredKeys now w (map_to_list (contexts w)))
          = base.filter (fun entry => ~ P entry) (contexts w)) as ->.
  { apply map_eq. intros k. rewrite lookup_contexts_cleaned.
    destruct (contexts w !! k) as [c|] eqn:Hk; simpl.
    - destruct (expiredAt now w c) eqn:Hexp; symmetry.
      + apply map_lookup_filter_None. right. intros c' Hc' Hnot.
        rewrite Hk in Hc'. injection Hc' as <-. apply Hnot. exact Hexp.
      + apply map_lookup_filter_Some. split; [exact Hk|].
        unfold P. simpl. rewrite Hexp. discriminate.
    - symmetry. apply map_lookup_filter_None. left. exact Hk. }
  assert (length (expiredKeys now w (map_to_list (contexts w)))
          = size (base.filter P (contexts w))) as ->.
  { unfold expiredKeys. rewrite length_fmap.
    rewrite (map_filter_alt P). symmetry. apply map_size_list_to_map.
    eapply sublist_NoDup; [apply (NoDup_fst_map_to_list (contexts w))|].
    apply fmap_sublist, sublist_filter. }
  rewrite Nat.add_comm.
  rewrite <- map_size_disj_union by apply map_disjoint_filter_complement.
  rewrite map_filter_union_complement. reflexivity.
Qed.

End CleanupFacts.

(* ===================================================================== *)
(** ** Calls that recover *)
(* ===================================================================== *)

Module RecoveringFacts.
Import CartService.

Section Expired.
Variables (w : World) (cartId : string) (now : Clock)
          (c : ref) (context : SalesforceContext)
          (s : ref) (shadow : list CartItem).
Hypothesis Hc : contextCache w !! cartId = Some c.
Hypothesis Ho : contextObjects w !! c = Some context.
Hypothesis Hexpired : expired now context.
Hypothesis Hfresh : recoverable w cartId now.
Hypothesis Hs : shadowState w !! cartId = Some s.
Hypothesis Hsh : arrays w !! s = Some shadow.

Lemma getCart_recovering :
  getCart cartId now w
  = (Return (cartView (config w) cartId
               (replayed (nanoidSource w) (S (nanoidCalls w)) shadow) now),
     set_shadowState (<[cartId := length (arrays w)]> (shadowState w))
       (recovered cartId (now InCreateContext) shadow w)).
Proof.
  unfold getCart.
  rewrite (ExpiryFacts.recovery_first w cartId now c context s shadow
             Hc Ho Hexpired Hfresh Hs Hsh).
  pose proof (ExpiryFacts.getCart_live
                (recovered cartId (now InCreateContext) shadow w)
                cartId now (length (contextObjects w))
                (freshContext cartId (now InCreateContext) w)
                (length (arrays w))
                (replayed (nanoidSource w) (S (nanoidCalls w)) shadow)
                (lookup_insert_eq _ _ _)
                ltac:(simpl; apply list_lookup_middle; reflexivity)
                (lookup_insert_eq _ _ _)
                Hfresh
                (lookup_insert_eq _ _ _)
                ltac:(simpl; apply list_lookup_middle; reflexivity)) as Hget.
  unfold getCart in Hget. exact Hget.
Qed.

Lemma validateCart_recovering :
  validateCart cartId now w
  = (Return (validateCartRules (config w)
               (replayed (nanoidSource w) (S (nanoidCalls w)) shadow)),
     recovered cartId (now InCreateContext) shadow w).
Proof.
  unfold validateCart.
  rewrite (ExpiryFacts.recovery_first w cartId now c context s shadow
             Hc Ho Hexpired Hfresh Hs Hsh).
  exact (LiveFacts.validateCart_live _ cartId now _
           (ExpiryFacts.recovered_liveCart w cartId now shadow Hfresh)).
Qed.

(** How [getCart] ends on an expired context does not depend on the maps
    of the client. *)
Lemma getCart_expired_outcome (m1 m2 : gmap string ref) :
  fst (getCart cartId now (set_cartItems m1 (set_contexts m2 w)))
  = fst (getCart cartId now w).
Proof.
  set (u := set_cartItems m1 (set_contexts m2 w)).
  set (fresh := freshContext cartId (now InCreateContext) w).
  set (same := fun v : World =>
    contextCache v = contextCache w /\
    contextObjects v = contextObjects w /\
    shadowState v = shadowState w /\
    arrays v = arrays w /\
    nanoidSource v = nanoidSource w /\
    nanoidCalls v = nanoidCalls w /\
    contextTTL v = contextTTL w /\
    config v = config w).
  assert (exists r, forall v, same v -> fst (getCart cartId now v) = r)
    as [r Hboth].
  { assert (forall v, same v ->
              freshContext cartId (now InCreateContext) v = fresh /\
              contextCache v !! cartId = Some c /\
              contextObjects v !! c = Some context /\
              shadowState v !! cartId = Some s /\
              arrays v !! s = Some shadow) as Hsame.
    { intros v (Hvc & Hvo & Hvs & Hva & Hvn & Hvk & Hvt & _).
      unfold fresh, freshContext. rewrite Hvc, Hvo, Hvs, Hva, Hvn, Hvk, Hvt.
      auto. }
    destruct (first_failure
                (fun j => before (now (InReplay j)) (expiresAt fresh))
                (length shadow)) as [Hall | (k & Hk & Hbelow & Hno)].
    - assert (forall v, same v ->
                ensureValidContext cartId now v
                = (Return (contextId fresh),
                   recovered cartId (now InCreateContext) shadow v) /\
                contexts (recovered cartId (now InCreateContext) shadow v)
                  !! contextId fresh = Some (length (contextObjects v)) /\
                contextObjects (recovered cartId (now InCreateContext) shadow v)
                  !! length (contextObjects v) = Some fresh /\
                cartItems (recovered cartId (now InCreateContext) shadow v)
                  !! contextId fresh = Some (length (arrays v))) as Hrecover.
      { intros v Hv. destruct (Hsame v Hv) as (Hvf & Hc' & Ho' & Hs' & Hsh').
        rewrite <- Hvf in Hall |- *.
        split; [|split; [|split]].
        - exact (RecoveryFacts.ensureValidContext_recovers v cartId c context
                   now s shadow Hc' Ho' Hexpired Hs' Hsh' Hall).
        - apply lookup_insert_eq.
        - simpl. apply list_lookup_middle. reflexivity.
        - apply lookup_insert_eq. }
      destruct (decide (before (now InGetCartItems) (expiresAt fresh)))
        as [Hlt | Hge].
      + exists (Return (cartView (config w) cartId
                          (replayed (nanoidSource w) (S (nanoidCalls w))
                             shadow) now)).
        intros v Hv. destruct (Hrecover v Hv) as (Hensure & Hreg1 & Ho1 & Hi1).
        destruct Hv as (_ & _ & _ & _ & Hvn & Hvk & _ & Hvg).
        unfold getCart. call Hensure.
        call (ClientFacts.getCartItems_live _ _ _ fresh (now InGetCartItems)
                Hreg1 Ho1 (length (arrays v)) Hlt Hi1).
        glue.
        rewrite (ServiceFacts.buildCart_Some cartId (length (arrays v))
                   (replayed (nanoidSource v) (S (nanoidCalls v)) shadow) now).
        * cbn [fst config set_shadowState recovered].
          rewrite Hvg, Hvn, Hvk. reflexivity.
        * cbn [arrays set_shadowState recovered].
          apply list_lookup_middle. reflexivity.
      + exists (Throw SalesforceCartClient.SF_CONTEXT_EXPIRED).
        intros v Hv. destruct (Hrecover v Hv) as (Hensure & Hreg1 & Ho1 & Hi1).
        unfold getCart. call Hensure.
        call (ClientFacts.getCartItems_expired _ _ _ fresh
                (now InGetCartItems) Hreg1 Ho1 Hge).
        reflexivity.
    - exists (Throw SalesforceCartClient.SF_CONTEXT_EXPIRED).
      intros v Hv. destruct (Hsame v Hv) as (Hvf & Hc' & Ho' & Hs' & Hsh').
      rewrite <- Hvf in Hbelow, Hno.
      destruct (RecoveryFacts.ensureValidContext_refused v cartId c context
                  now s shadow Hc' Ho' Hexpired Hs' Hsh' k Hk Hbelow Hno)
        as (v2 & Hensure & _).
      unfold getCart. call Hensure. reflexivity. }
  rewrite (Hboth u), (Hboth w); [reflexivity | |]; repeat split.
Qed.

(** [addItem] up to the decision of [canAddItemType], which is made on the
    replayed items. *)
Lemma addItem_recovering_refused productId product q :
  products !! productId = Some product ->
  let live := replayed (nanoidSource w) (S (nanoidCalls w)) shadow in
  allowed (canAddItemType (config w) live (type product)) = false ->
  addItem cartId productId q now w
  = (Throw (Error (default ""
       (reason (canAddItemType (config w) live (type product))))),
     recovered cartId (now InCreateContext) shadow w).
Proof.
  intros Hproduct live Hno.
  pose proof (LiveFacts.addItem_refused _ cartId now _
                (ExpiryFacts.recovered_liveCart w cartId now shadow Hfresh)
                productId product q Hproduct Hno) as Hrun.
  transitivity (addItem cartId productId q now
                  (recovered cartId (now InCreateContext) shadow w));
    [|exact Hrun].
  unfold addItem. rewrite Hproduct.
  apply (ExpiryFacts.recovery_first w cartId now c context s shadow
           Hc Ho Hexpired Hfresh Hs Hsh).
Qed.
End Expired.

End RecoveringFacts.

Lemma replayed_filter_length (f : CartItem -> bool) source :
  (forall itemId item,
     f (itemOfRequest itemId (CartService.replayRequest item)) = f item) ->
  forall content n,
    length (List.filter f (replayed source n content))
    = length (List.filter f content).
Proof.
  intros Hf. induction content as [|item rest IH]; intros n; simpl;
    [reflexivity|].
  rewrite Hf. destruct (f item); simpl; rewrite IH; reflexivity.
Qed.

Lemma replayed_existsb (f : CartItem -> bool) source :
  (forall itemId item,
     f (itemOfRequest itemId (CartService.replayRequest item)) = f item) ->
  forall content n,
    existsb f (replayed source n content) = existsb f content.
Proof.
  intros Hf. induction content as [|item rest IH]; intros n; simpl;
    [reflexivity|].
  rewrite Hf, IH. reflexivity.
Qed.

Lemma validateCartRules_replayed config source n content :
  validateCartRules config (replayed source n content)
  = validateCartRules config content.
Proof.
  unfold validateCartRules. cbv zeta.
  rewrite replayed_length.
  rewrite (replayed_existsb (isType PHONE)) by reflexivity.
  rewrite (replayed_filter_length (isType PLAN)) by reflexivity.
  rewrite (replayed_filter_length (isType PHONE)) by reflexivity.
  rewrite (replayed_filter_length invalidQuantity) by reflexivity.
  reflexivity.
Qed.

Lemma calculateSubtotal_replayed source n content :
  calculateSubtotal (replayed source n content) = calculateSubtotal content.
Proof.
  unfold calculateSubtotal. f_equal. generalize 0%float. revert n.
  induction content as [|item rest IH]; intros n acc; simpl;
    [reflexivity | apply IH].
Qed.

(* ===================================================================== *)
(** ** Further facts about the rules and the service *)
(* ===================================================================== *)

Lemma valid_validateCartRules (config : CartConfig) (items : list CartItem) :
  valid (validateCartRules config items)
  = negb (gtZ (Z.of_nat (length items)) (maxItemsPerCart config))
    && negb ((0 <? length (List.filter (isType PLAN) items))%nat
               && negb (existsb (isType PHONE) items))
    && negb (1 <? length (List.filter (isType PHONE) items))%nat
    && negb (1 <? length (List.filter (isType PLAN) items))%nat
    && negb (0 <? length (List.filter invalidQuantity items))%nat.
Proof.
  unfold validateCartRules. cbv zeta. cbn [valid].
  destruct (gtZ (Z.of_nat (length items)) (maxItemsPerCart config));
  destruct ((0 <? length (List.filter (isType PLAN) items))%nat
            && negb (existsb (isType PHONE) items));
  destruct (1 <? length (List.filter (isType PHONE) items))%nat;
  destruct (1 <? length (List.filter (isType PLAN) items))%nat;
  destruct (0 <? length (List.filter invalidQuantity items))%nat;
    reflexivity.
Qed.


(** The phone rule reports a cart with two phones or more. *)
Lemma two_phones_reported (config : CartConfig) (items : list CartItem) :
  (1 < length (List.filter (isType PHONE) items))%nat ->
  valid (validateCartRules config items) = false /\
  In "Only one phone is allowed per cart"
     (errors (validateCartRules config items)).
Proof.
  intros Hphones. unfold validateCartRules. cbv zeta.
  apply Nat.ltb_lt in Hphones. rewrite Hphones. cbn [valid errors].
  match goal with
  | |- context [push ?prev "Only one phone is allowed per cart"] =>
      generalize prev
  end.
  intros prev.
  assert (forall (b : bool) (l : list string) (m x : string),
            In x l -> In x (if b then push l m else l)) as Hkeep.
  { intros [] l m x Hx; [apply in_or_app; left|]; exact Hx. }
  assert (In "Only one phone is allowed per cart"
            (push prev "Only one phone is allowed per cart")) as Hin.
  { apply in_or_app. right. left. reflexivity. }
  apply (Hkeep (1 <? length (List.filter (isType PLAN) items))%nat _
           "Only one plan is allowed per cart") in Hin.
  apply (Hkeep (0 <? length (List.filter invalidQuantity items))%nat _
           "Cart contains items with invalid quantities") in Hin.
  split; [|exact Hin].
  apply bool_decide_eq_false_2. intros Hlen.
  destruct (if (0 <? length (List.filter invalidQuantity items))%nat
            then _ else _); [contradiction Hin | discriminate Hlen].
Qed.


(* ===================================================================== *)
(** ** Facts about the routes *)
(* ===================================================================== *)

Lemma tryCatch_Throw {A} (m : M A) (k : A -> M Handled) e w w' :
  m w = (Throw e, w') ->
  tryCatch (bind m k) (fun error => ret (Next error)) w = (Return (Next e), w').
Proof. unfold tryCatch, bind. intros ->. reflexivity. Qed.

Lemma handle_Next env trace handler req now w e w' :
  handler req now w = (Return (Next e), w') ->
  handle env trace handler req now w
  = (Return (ErrorHandler.errorHandler env (errorValue e) (trace e) req
               (now InErrorHandler)),
     w').
Proof. intros H. unfold handle. call H. reflexivity. Qed.

(* ===================================================================== *)
(** ** The cart with one phone *)
(* ===================================================================== *)

Lemma Scenario_wPhone_allocated : contextsAllocated Scenario.wPhone.
Proof.
  intros k c H. apply elem_of_map_to_list in H.
  vm_compute in H. apply list_elem_of_singleton in H. injection H as _ ->.
  vm_compute. eauto.
Qed.

Lemma Scenario_wPhone_live (now : Clock) :
  (forall r, now r < 301000) ->
  liveCart Scenario.wPhone Scenario.cart1 now [Scenario.phoneItem].
Proof.
  intros Hnow. exists 0%nat, Scenario.context1, 0%nat.
  repeat split; try (vm_compute; reflexivity). exact Hnow.
Qed.

(** At time 400000 a recovery of the cart creates a context that expires at
    time 700000. *)
Lemma Scenario_wPhone_recoverable :
  expired (instant 400000) Scenario.context1 /\
  recoverable Scenario.wPhone Scenario.cart1 (instant 400000).
Proof. split; [|intros r]; vm_compute; reflexivity. Qed.

Lemma Scenario_wPhone_shadow :
  shadowOf Scenario.wPhone Scenario.cart1 [Scenario.phoneItem].
Proof. exists 1%nat. split; vm_compute; reflexivity. Qed.

Lemma Scenario_wPhone_initialized :
  initializedCart Scenario.wPhone Scenario.cart1 Scenario.context1.
Proof.
  exists 0%nat, 0%nat, [Scenario.phoneItem], 1%nat, [Scenario.phoneItem].
  repeat split; vm_compute; reflexivity.
Qed.

(* ===================================================================== *)
(** ** C1: reading a cart whose context has expired *)
(* ===================================================================== *)

(** A cart whose context has expired, in a service whose TTL gives the new
    context no valid date: the client never accepts the new context. *)
Lemma C1_counterexample :
  let w := Scenario.wLong in
  initializedCart w Scenario.cart1
    {| contextId := "sf_ctx_test-id-2"; cartId := Scenario.cart1;
       expiresAt := Some 1500; createdAt := 1000 |} /\
  shadowOf w Scenario.cart1 [] /\
  expiresAt (freshContext Scenario.cart1 3000 w) = None /\
  fst (CartService.getCart Scenario.cart1 (instant 3000) w)
  = Throw (Error "SF_CONTEXT_EXPIRED") /\
  ~ C1_as_stated w Scenario.cart1 (instant 3000).
Proof.
  intros w.
  assert (initializedCart w Scenario.cart1
            {| contextId := "sf_ctx_test-id-2"; cartId := Scenario.cart1;
               expiresAt := Some 1500; createdAt := 1000 |}) as Hinit.
  { exists 0%nat, 0%nat, [], 1%nat, []. vm_compute. repeat split. }
  assert (shadowOf w Scenario.cart1 []) as Hshadow.
  { exists 1%nat. vm_compute. repeat split. }
  assert (fst (CartService.getCart Scenario.cart1 (instant 3000) w)
          = Throw (Error "SF_CONTEXT_EXPIRED")) as Hrun.
  { vm_compute. reflexivity. }
  split; [exact Hinit|]. split; [exact Hshadow|].
  split; [vm_compute; reflexivity|]. split; [exact Hrun|].
  intros Hclaim.
  destruct (Hclaim _ _ Hinit Hshadow) as (cart & w' & Hok & _).
  - vm_compute. reflexivity.
  - rewrite Hok in Hrun. discriminate Hrun.
Qed.

(** C1, amended: when the service finds the cached context of an initialized
    cart expired (the clock reading of [ensureValidContext] is after its
    [expiresAt]) and the client accepts the context that the recovery
    creates at every clock reading of the call, [getCart] succeeds and
    returns the lines of the shadow store (product id, quantity, unit price
    and total price, in order); the item ids of the view are the ones
    [nanoid] produced during the replay. *)
Theorem C1_getCart_after_expiry (w : World) (cartId : string) (c : ref)
    (context : SalesforceContext) (s : ref) (shadowItems : list CartItem)
    (now : Clock) :
  contextCache w !! cartId = Some c ->
  contextObjects w !! c = Some context ->
  shadowState w !! cartId = Some s ->
  arrays w !! s = Some shadowItems ->
  expired now context ->
  recoverable w cartId now ->
  exists cart w',
    CartService.getCart cartId now w = (Return cart, w') /\
    line <$> items cart = line <$> shadowItems /\
    (forall i item, items cart !! i = Some item ->
       id item = "item_" +:+ nanoidSource w (S (nanoidCalls w) + i)%nat).
Proof.
  intros Hcache Hobj Hshadow Hcontent Hexpired Hfresh.
  set (new := replayed (nanoidSource w) (S (nanoidCalls w)) shadowItems).
  set (w1 := recovered cartId (now InCreateContext) shadowItems w).
  pose proof (ExpiryFacts.recovered_liveCart w cartId now shadowItems Hfresh)
    as (c1 & context1 & a1 & Hc1 & Ho1 & Hreg1 & Hlt1 & Hi1 & Ha1).
  fold w1 in Hc1, Ho1, Hreg1, Hi1, Ha1. fold new in Ha1.
  assert (shadowState w1 !! cartId = Some s) as Hs1 by exact Hshadow.
  assert (arrays w1 !! s = Some shadowItems) as Hsh1.
  { simpl. rewrite lookup_app_l; [exact Hcontent|].
    eapply lookup_lt_Some, Hcontent. }
  eexists (cartView (config w) cartId new now), _.
  split; [|split].
  - unfold CartService.getCart.
    rewrite (ExpiryFacts.recovery_first w cartId now c context s shadowItems
               Hcache Hobj Hexpired Hfresh Hshadow Hcontent).
    exact (ExpiryFacts.getCart_live w1 cartId now c1 context1 a1 new
             Hc1 Ho1 Hreg1 Hlt1 Hi1 Ha1).
  - apply replayed_line.
  - intros i item Hi. simpl in Hi.
    apply replayed_lookup in Hi as (it & _ & ->). reflexivity.
Qed.

Lemma C1_getCart_after_expiry_witness :
  exists cart w',
    CartService.getCart Scenario.cart1 (instant 400000) Scenario.wPhone
      = (Return cart, w') /\
    line <$> items cart = line <$> [Scenario.phoneItem] /\
    (forall i item, items cart !! i = Some item ->
       id item = "item_" +:+ nanoidSource Scenario.wPhone
                   (S (nanoidCalls Scenario.wPhone) + i)%nat).
Proof.
  apply (C1_getCart_after_expiry Scenario.wPhone Scenario.cart1 0%nat
           Scenario.context1 1%nat [Scenario.phoneItem] (instant 400000));
    vm_compute; reflexivity.
Defined.

(* ===================================================================== *)
(** ** C2: the instant [expiresAt] *)
(* ===================================================================== *)

(** [ensureValidContext] recovers when [now > expiresAt], the client accepts
    a context when [now < expiresAt], each at its own clock reading: when
    the service keeps the context and the client refuses it, the exception
    of the client leaves the service.  That is so when both readings are
    the instant [expiresAt], when the clock reaches [expiresAt] between the
    two readings, and at every time when [expiresAt] is the Invalid Date. *)
Lemma SF_CONTEXT_EXPIRED_at_expiresAt (w : World) (cartId : string) (c : ref)
    (context : SalesforceContext) (productId : string) (product : Product)
    (itemId : string) (q : number) (now : Clock) :
  contextCache w !! cartId = Some c ->
  contextObjects w !! c = Some context ->
  contexts w !! contextId context = Some c ->
  CartService.products !! productId = Some product ->
  ~ expired now context ->
  (~ before (now InGetCartItems) (expiresAt context) ->
   throwsContextExpired (CartService.getCart cartId now) w /\
   throwsContextExpired (CartService.addItem cartId productId q now) w /\
   throwsContextExpired (CartService.validateCart cartId now) w) /\
  (~ before (now InUpdateItem) (expiresAt context) ->
   throwsContextExpired (CartService.updateItem cartId itemId q now) w) /\
  (~ before (now InRemoveItem) (expiresAt context) ->
   throwsContextExpired (CartService.removeItem cartId itemId now) w).
Proof.
  intros Hcache Hobj Hreg Hproduct Hkept. unfold throwsContextExpired.
  pose proof (ServiceFacts.ensureValidContext_kept w cartId c context now
                Hcache Hobj Hkept) as Hkeep.
  split; [|split]; intros Hle.
  - repeat split.
    + unfold CartService.getCart. call Hkeep.
      call (ClientFacts.getCartItems_expired w _ c context _ Hreg Hobj Hle).
      reflexivity.
    + unfold CartService.addItem. rewrite Hproduct. call Hkeep.
      call (ClientFacts.getCartItems_expired w _ c context _ Hreg Hobj Hle).
      reflexivity.
    + unfold CartService.validateCart. call Hkeep.
      call (ClientFacts.getCartItems_expired w _ c context _ Hreg Hobj Hle).
      reflexivity.
  - unfold CartService.updateItem. call Hkeep.
    call (ClientFacts.updateItem_expired w _ c context _ Hreg Hobj itemId q
            Hle).
    reflexivity.
  - unfold CartService.removeItem. call Hkeep.
    call (ClientFacts.removeItem_expired w _ c context _ Hreg Hobj itemId
            Hle).
    reflexivity.
Qed.

(** C2, at the failing input: a cart created at time 1000 with the five
    minute TTL holds a phone; at time 301000, the [expiresAt] of its context,
    every operation of the service throws the client's [SF_CONTEXT_EXPIRED]. *)
Theorem C2_context_expired_reaches_caller :
  let w := Scenario.wPhone in
  let cart := Scenario.cart1 in
  expiresAt Scenario.context1 = Some 301000 /\
  throwsContextExpired (CartService.getCart cart (instant 301000)) w /\
  throwsContextExpired
    (CartService.addItem cart "addon_insurance" 2 (instant 301000)) w /\
  throwsContextExpired
    (CartService.updateItem cart "item_test-id-3" 2 (instant 301000)) w /\
  throwsContextExpired
    (CartService.removeItem cart "item_test-id-3" (instant 301000)) w /\
  throwsContextExpired (CartService.validateCart cart (instant 301000)) w.
Proof.
  intros w cart. split; [reflexivity|].
  destruct (SF_CONTEXT_EXPIRED_at_expiresAt w cart 0%nat
              Scenario.context1 "addon_insurance"
              (CartService.mkProduct "addon_insurance" "Device Insurance"
                 ADDON 12 None) "item_test-id-3" 2 (instant 301000))
    as (Hread & Hupdate & Hremove);
    try (vm_compute; reflexivity); try (vm_compute; discriminate).
  destruct Hread as (Hget & Hadd & Hvalidate); [vm_compute; discriminate|].
  split; [exact Hget|]. split; [exact Hadd|].
  split; [apply Hupdate; vm_compute; discriminate|].
  split; [apply Hremove; vm_compute; discriminate | exact Hvalidate].
Qed.

(* ===================================================================== *)
(** ** C3: the stores after a mutation that recovered *)
(* ===================================================================== *)

(** C3, at the failing input: a cart created at time 1000 holds a phone
    (item [item_test-id-3] in both stores).  At time 400000 its context has
    expired and [addItem] of an add-on succeeds after a recovery: the client
    then holds the phone under the id the replay gave it, the shadow store
    still under the old id, and the view returned is the shadow's. *)
Theorem C3_stores_differ_after_recovery :
  let old := Scenario.phoneItem in
  let new :=
    {| id := "item_test-id-6"; productId := "addon_insurance";
       productName := "Device Insurance"; productType := ADDON;
       quantity := 1; unitPrice := 12; totalPrice := 12 |} in
  let replay :=
    {| id := "item_test-id-5"; productId := "phone_iphone15";
       productName := "iPhone 15 Pro"; productType := PHONE;
       quantity := 1; unitPrice := 1399.99; totalPrice := 1399.99 |} in
  shadowItemsOf Scenario.wPhone Scenario.cart1 = Some [old] /\
  liveItemsOf Scenario.wPhone Scenario.cart1 = Some [old] /\
  exists cart w',
    CartService.addItem Scenario.cart1 "addon_insurance" 1 (instant 400000)
      Scenario.wPhone = (Return cart, w') /\
    items cart = [old; new] /\
    shadowItemsOf w' Scenario.cart1 = Some [old; new] /\
    liveItemsOf w' Scenario.cart1 = Some [replay; new] /\
    shadowItemsOf w' Scenario.cart1 <> liveItemsOf w' Scenario.cart1 /\
    CartService.updateItem Scenario.cart1 (id old) 2 (instant 400001) w'
      = (Throw (Error "ITEM_NOT_FOUND"), w').
Proof.
  intros old new replay.
  split; [vm_compute; reflexivity|]. split; [vm_compute; reflexivity|].
  eexists _, _. split; [vm_compute; reflexivity|].
  split; [reflexivity|]. split; [vm_compute; reflexivity|].
  split; [vm_compute; reflexivity|].
  split; [vm_compute; discriminate|].
  vm_compute. reflexivity.
Qed.

(* ===================================================================== *)
(** ** C4: a second phone *)
(* ===================================================================== *)

(** A cart with the phone and 49 add-ons: the item count is checked first. *)
Lemma C4_counterexample :
  let w := Scenario.addAddons 49 3000 Scenario.wPhone in
  CartService.addItem Scenario.cart1 "phone_samsung_s24" 1 (instant 4000) w
  = (Throw (Error "Cart has reached maximum of 50 items"), w) /\
  ~ C4_as_stated w Scenario.cart1 "phone_samsung_s24" 1 (instant 4000).
Proof.
  intros w.
  assert (CartService.addItem Scenario.cart1 "phone_samsung_s24" 1
            (instant 4000) w
          = (Throw (Error "Cart has reached maximum of 50 items"), w)) as Hrun.
  { vm_compute. reflexivity. }
  split; [exact Hrun|]. intros Hclaim.
  assert (exists content,
            liveCart w Scenario.cart1 (instant 4000) content /\
            existsb (isType PHONE) content = true)
    as (content & Hlive & Hphone).
  { eexists. split.
    - exists 0%nat, Scenario.context1, 0%nat. vm_compute. repeat split.
    - vm_compute. reflexivity. }
  specialize (Hclaim content
    (CartService.mkProduct "phone_samsung_s24" "Samsung Galaxy S24" PHONE
       1199.99 None) Hlive Hphone eq_refl eq_refl).
  rewrite Hrun in Hclaim. discriminate Hclaim.
Qed.

(** C4, amended: [addItem] of a phone on a cart that holds a phone throws a
    business-rule error, "Cart has reached maximum of N items" when the cart
    holds the maximum number of items or more, and "Only one phone is
    allowed per cart" otherwise, before the client's [addItem] is called
    for the new item.  On a live cart the call changes nothing.  On a cart
    whose context the service finds expired, the recovery comes first (the
    client accepting the new context at every clock reading of the call):
    the client gets a new context that holds the replayed shadow items, the
    service caches it, and the check is made on the replayed items; the
    shadow store, the existing arrays and the existing context objects stay
    as they were. *)
Theorem C4_second_phone_refused (w : World) (cartId productId : string)
    (q : number) (now : Clock) (product : Product) :
  CartService.products !! productId = Some product ->
  type product = PHONE ->
  let refusal (items : list CartItem) :=
    Error (if geZ (Z.of_nat (length items)) (maxItemsPerCart (config w))
           then reachedMessage (config w)
           else "Only one phone is allowed per cart") in
  (forall content,
     liveCart w cartId now content ->
     existsb (isType PHONE) content = true ->
     CartService.addItem cartId productId q now w
     = (Throw (refusal content), w)) /\
  (forall c context s shadow,
     contextCache w !! cartId = Some c ->
     contextObjects w !! c = Some context ->
     shadowState w !! cartId = Some s ->
     arrays w !! s = Some shadow ->
     expired now context ->
     recoverable w cartId now ->
     existsb (isType PHONE) shadow = true ->
     let w' := recovered cartId (now InCreateContext) shadow w in
     CartService.addItem cartId productId q now w
     = (Throw (refusal shadow), w') /\
     liveItemsOf w' cartId
     = Some (replayed (nanoidSource w) (S (nanoidCalls w)) shadow) /\
     shadowState w' = shadowState w /\
     shadowItemsOf w' cartId = Some shadow /\
     (forall a items, arrays w !! a = Some items ->
                      arrays w' !! a = Some items) /\
     (forall c0 context0, contextObjects w !! c0 = Some context0 ->
                          contextObjects w' !! c0 = Some context0)).
Proof.
  intros Hproduct Htype refusal.
  assert (forall content,
            existsb (isType PHONE) content = true ->
            canAddItemType (config w) content (type product)
            = {| allowed := false;
                 reason :=
                   Some (if geZ (Z.of_nat (length content))
                              (maxItemsPerCart (config w))
                         then reachedMessage (config w)
                         else "Only one phone is allowed per cart") |})
    as Hcheck.
  { intros content Hphone. unfold canAddItemType, reachedMessage.
    rewrite Htype.
    destruct (geZ (Z.of_nat (length content)) (maxItemsPerCart (config w)));
      [reflexivity|].
    rewrite (existsb_filter_length _ _ Hphone). reflexivity. }
  split.
  - intros content Hlive Hphone.
    rewrite (LiveFacts.addItem_refused w cartId now content Hlive
               productId product q Hproduct);
      rewrite (Hcheck content Hphone); reflexivity.
  - intros c context s shadow Hc Ho Hs Hsh Hexpired Hfresh Hphone w'.
    set (live := replayed (nanoidSource w) (S (nanoidCalls w)) shadow).
    assert (existsb (isType PHONE) live = true) as Hphone'.
    { unfold live. rewrite (replayed_existsb (isType PHONE)) by reflexivity.
      exact Hphone. }
    split; [|split; [|split; [|split; [|split]]]].
    + rewrite (RecoveringFacts.addItem_recovering_refused w cartId now c
                 context s shadow Hc Ho Hexpired Hfresh Hs Hsh productId
                 product q Hproduct);
        fold live; rewrite (Hcheck live Hphone'); [|reflexivity].
      unfold refusal, live. rewrite replayed_length. reflexivity.
    + apply (liveCart_liveItemsOf w' cartId now).
      apply ExpiryFacts.recovered_liveCart, Hfresh.
    + reflexivity.
    + rewrite (shadowItemsOf_eq w' cartId s) by exact Hs.
      simpl. rewrite lookup_app_l; [exact Hsh|].
      eapply lookup_lt_Some, Hsh.
    + intros a items' Ha. simpl. rewrite lookup_app_l; [exact Ha|].
      eapply lookup_lt_Some, Ha.
    + intros c0 context0 Hc0. simpl. rewrite lookup_app_l; [exact Hc0|].
      eapply lookup_lt_Some, Hc0.
Qed.

(** A second phone at time 3000, while the context of the cart is live, and
    at time 400000, after it has expired. *)
Lemma C4_second_phone_refused_witness :
  CartService.addItem Scenario.cart1 "phone_samsung_s24" 1 (instant 3000)
    Scenario.wPhone
  = (Throw (Error "Only one phone is allowed per cart"), Scenario.wPhone) /\
  (let w' :=
     recovered Scenario.cart1 400000 [Scenario.phoneItem] Scenario.wPhone in
   CartService.addItem Scenario.cart1 "phone_samsung_s24" 1 (instant 400000)
     Scenario.wPhone
   = (Throw (Error "Only one phone is allowed per cart"), w') /\
   shadowItemsOf w' Scenario.cart1 = Some [Scenario.phoneItem]).
Proof.
  split.
  - destruct (C4_second_phone_refused Scenario.wPhone Scenario.cart1
                "phone_samsung_s24" 1 (instant 3000)
                (CartService.mkProduct "phone_samsung_s24"
                   "Samsung Galaxy S24" PHONE 1199.99 None)
                eq_refl eq_refl) as [Hlive _].
    apply (Hlive [Scenario.phoneItem]); [|reflexivity].
    apply Scenario_wPhone_live. intros r. reflexivity.
  - destruct (C4_second_phone_refused Scenario.wPhone Scenario.cart1
                "phone_samsung_s24" 1 (instant 400000)
                (CartService.mkProduct "phone_samsung_s24"
                   "Samsung Galaxy S24" PHONE 1199.99 None)
                eq_refl eq_refl) as [_ Hexpired].
    destruct (Hexpired 0%nat Scenario.context1 1%nat [Scenario.phoneItem])
      as (Hrun & _ & _ & Hshadow & _);
      try (vm_compute; reflexivity).
    split; [exact Hrun | exact Hshadow].
Defined.

(* ===================================================================== *)
(** ** C5: the line totals of a view *)
(* ===================================================================== *)

(** C5, at the failing input: the view [updateItem] returns for quantity 3
    on the Samsung phone has subtotal, tax and total rounded, and the line
    total [1199.99 * 3 = 3599.9700000000003], where
    round(unit price x quantity) is [3599.97]. *)
Theorem C5_line_total_after_updateItem :
  exists cart w' item,
    CartService.updateItem Scenario.cart1 "item_test-id-3" 3 (instant 3000)
      Scenario.wSamsung = (Return cart, w') /\
    items cart = [item] /\
    (unitPrice item, quantity item) = (1199.99, 3)%float /\
    totalPrice item = 3599.9700000000003%float /\
    toFixed2 (unitPrice item * quantity item) = 3599.97%float /\
    totalPrice item <> toFixed2 (unitPrice item * quantity item) /\
    priced defaultCartConfig cart /\
    (subtotal cart, tax cart, total cart) = (3599.97, 468, 4067.97)%float.
Proof.
  eexists _, _, _. split; [vm_compute; reflexivity|].
  split; [reflexivity|]. split; [reflexivity|].
  split; [vm_compute; reflexivity|]. split; [vm_compute; reflexivity|].
  split; [apply float_neq; vm_compute; discriminate|].
  split; [|vm_compute; reflexivity].
  destruct pricing_of_views as (Hviews & _).
  eapply (Hviews Scenario.wSamsung (instant 3000) Scenario.cart1 ""
            "item_test-id-3" 3%float).
  right. right. right. left. vm_compute. reflexivity.
Qed.

(* ===================================================================== *)
(** ** C6: the order of the validation messages *)
(* ===================================================================== *)

(** C6: [validateCartRules] reports exactly the violated rules, in the order
    max-item-count, plan-without-phone, multiple-phones, multiple-plans,
    invalid-quantities, and [valid] holds iff nothing is reported;
    [validateCart] returns this for the items of a live cart. *)
Theorem C6_validation_order (cfg : CartConfig) (items : list CartItem) :
  let r := validateCartRules cfg items in
  errors r = violations cfg items /\
  sublist (errors r) (snd <$> rules cfg items) /\
  (valid r = true <-> errors r = []) /\
  (forall w cartId now,
     liveCart w cartId now items ->
     CartService.validateCart cartId now w
     = (Return (validateCartRules (config w) items), w)).
Proof.
  intros r.
  assert (errors r = violations cfg items) as Herr.
  { unfold r, validateCartRules, violations, rules, exceedsMessage.
    cbv zeta. unfold errors at 1.
    rewrite !filter_nonempty, !existsb_isType, existsb_Exists.
    rewrite !filter_isType.
    set (some := fun t => Exists (fun item => productType item = t) items).
    set (count := fun t =>
      length (base.filter (fun item => productType item = t) items)).
    change (Exists (fun item => productType item = PLAN) items)
      with (some PLAN).
    change (Exists (fun item => productType item = PHONE) items)
      with (some PHONE).
    change (length (base.filter (fun item => productType item = PHONE) items))
      with (count PHONE).
    change (length (base.filter (fun item => productType item = PLAN) items))
      with (count PLAN).
    replace (1 <? count PHONE)%nat with (bool_decide (1 < count PHONE)%nat).
    2:{ destruct (Nat.ltb_spec 1 (count PHONE));
        [apply bool_decide_eq_true_2 | apply bool_decide_eq_false_2]; lia. }
    replace (1 <? count PLAN)%nat with (bool_decide (1 < count PLAN)%nat).
    2:{ destruct (Nat.ltb_spec 1 (count PLAN));
        [apply bool_decide_eq_true_2 | apply bool_decide_eq_false_2]; lia. }
    replace (bool_decide (some PLAN) && negb (bool_decide (some PHONE)))
      with (bool_decide (some PLAN /\ ~ some PHONE)).
    2:{ rewrite bool_decide_and, bool_decide_not. reflexivity. }
    destruct (gtZ (Z.of_nat (length items)) (maxItemsPerCart cfg));
    destruct (bool_decide (some PLAN /\ ~ some PHONE));
    destruct (bool_decide (1 < count PHONE)%nat);
    destruct (bool_decide (1 < count PLAN)%nat);
    destruct (bool_decide
                (Exists (fun item => invalidQuantity item = true) items));
      reflexivity. }
  split; [exact Herr|]. split; [|split].
  - rewrite Herr. unfold violations. apply fmap_sublist, filter_sublist.
  - unfold r, validateCartRules. cbv zeta. unfold valid, errors.
    rewrite bool_decide_eq_true. apply length_zero_iff_nil.
  - intros w cartId now Hlive. apply LiveFacts.validateCart_live, Hlive.
Qed.

Lemma C6_validation_order_witness :
  liveCart Scenario.wPlan Scenario.cart1 (instant 3000) [Scenario.planItem] /\
  CartService.validateCart Scenario.cart1 (instant 3000) Scenario.wPlan
  = (Return {| valid := false; errors := [planMessage] |}, Scenario.wPlan).
Proof.
  assert (liveCart Scenario.wPlan Scenario.cart1 (instant 3000)
            [Scenario.planItem]) as Hlive.
  { exists 0%nat, Scenario.context1, 0%nat. vm_compute. repeat split. }
  split; [exact Hlive|].
  destruct (C6_validation_order defaultCartConfig [Scenario.planItem])
    as (_ & _ & _ & Hservice).
  exact (Hservice Scenario.wPlan Scenario.cart1 (instant 3000) Hlive).
Defined.

(* ===================================================================== *)
(** ** C7: a plan without a phone *)
(* ===================================================================== *)

(** A cart without a phone that holds a plan: a second plan is refused. *)
Lemma C7_counterexample :
  let w := Scenario.wPlan in
  CartService.addItem Scenario.cart1 "plan_5gb" 1 (instant 3000) w
  = (Throw (Error "Only one plan is allowed per cart"), w) /\
  ~ C7_as_stated w Scenario.cart1 "plan_5gb" 1 (instant 3000).
Proof.
  intros w.
  assert (CartService.addItem Scenario.cart1 "plan_5gb" 1 (instant 3000) w
          = (Throw (Error "Only one plan is allowed per cart"), w)) as Hrun.
  { vm_compute. reflexivity. }
  split; [exact Hrun|]. intros Hclaim.
  destruct (Hclaim [Scenario.planItem] [Scenario.planItem]
              (CartService.mkProduct "plan_5gb" "5GB Plan" PLAN 55
                 (Some true)))
    as (cart & w' & Hok).
  - exists 0%nat, Scenario.context1, 0%nat. vm_compute. repeat split.
  - exists 1%nat. vm_compute. repeat split.
  - reflexivity.
  - reflexivity.
  - reflexivity.
  - rewrite Hrun in Hok. discriminate Hok.
Qed.

(** C7, amended: on a live cart that holds no phone, no plan and fewer
    items than the maximum, [addItem] of a plan succeeds and the plan is the
    last line of the view; and [validateCart] on a live cart whose only item
    is a plan of quantity 1 returns [valid = false] with the single message
    "Cart contains plans but no phone. Plans require a phone.". *)
Theorem C7_plan_without_phone (w : World) (cartId : string) (now : Clock) :
  (forall content shadow pid product q,
     liveCart w cartId now content ->
     shadowOf w cartId shadow ->
     existsb (isType PHONE) content = false ->
     existsb (isType PLAN) content = false ->
     geZ (Z.of_nat (length content)) (maxItemsPerCart (config w)) = false ->
     CartService.products !! pid = Some product ->
     type product = PLAN ->
     exists cart w' item,
       CartService.addItem cartId pid q now w = (Return cart, w') /\
       last (items cart) = Some item /\
       productId item = product_id product /\
       productType item = PLAN /\
       quantity item = q) /\
  (forall item,
     liveCart w cartId now [item] ->
     productType item = PLAN ->
     quantity item = 1%float ->
     gtZ 1 (maxItemsPerCart (config w)) = false ->
     CartService.validateCart cartId now w
     = (Return {| valid := false; errors := [planMessage] |}, w)).
Proof.
  split.
  - intros content shadow pid product q Hlive (s & Hs & Hsh)
      _ Hplan Hroom Hproduct Htype.
    destruct Hlive as (c & context & a & Hc & Ho & Hreg & Hlt & Hi & Ha).
    assert (allowed (canAddItemType (config w) content (type product)) = true)
      as Hyes.
    { unfold canAddItemType. rewrite Htype.
      rewrite <- filter_nonempty in Hplan. apply Nat.ltb_ge in Hplan.
      rewrite Hroom.
      cbn [bool_decide decide_rel andb].
      destruct (Nat.leb_spec 1 (length (List.filter (isType PLAN) content)));
        [lia | reflexivity]. }
    pose proof (MutationFacts.addItem_allowed w cartId now c context a content
                  s shadow Hc Ho Hreg Hlt Hi Ha Hs Hsh pid product q
                  Hproduct Hyes) as Hadd.
    cbv zeta in Hadd. rewrite Hadd.
    eexists _, _, _. split; [reflexivity|]. split.
    + unfold cartView, items, push. apply last_snoc.
    + simpl. auto.
  - intros item Hlive Htype Hq Hmax.
    rewrite (LiveFacts.validateCart_live w cartId now [item] Hlive).
    f_equal. unfold validateCartRules, invalidQuantity, isType.
    cbn [length List.filter existsb]. rewrite Htype, Hq.
    change (Z.of_nat 1) with 1. rewrite Hmax.
    reflexivity.
Qed.

Lemma C7_plan_without_phone_witness :
  (exists cart w' item,
     CartService.addItem Scenario.cart1 "plan_unlimited" 1 (instant 2000)
       Scenario.w1
     = (Return cart, w') /\
     last (items cart) = Some item /\
     productId item = "plan_unlimited" /\
     productType item = PLAN /\
     quantity item = 1%float) /\
  CartService.validateCart Scenario.cart1 (instant 3000) Scenario.wPlan
  = (Return {| valid := false; errors := [planMessage] |}, Scenario.wPlan).
Proof.
  split.
  - destruct (C7_plan_without_phone Scenario.w1 Scenario.cart1
                (instant 2000)) as [Hadd _].
    apply (Hadd [] [] "plan_unlimited"
             (CartService.mkProduct "plan_unlimited" "Unlimited Plan" PLAN 85
                (Some true)) 1%float).
    + exists 0%nat, Scenario.context1, 0%nat. vm_compute. repeat split.
    + exists 1%nat. vm_compute. repeat split.
    + reflexivity.
    + reflexivity.
    + vm_compute. reflexivity.
    + reflexivity.
    + reflexivity.
  - destruct (C7_plan_without_phone Scenario.wPlan Scenario.cart1
                (instant 3000)) as [_ Hvalidate].
    apply (Hvalidate Scenario.planItem).
    + exists 0%nat, Scenario.context1, 0%nat. vm_compute. repeat split.
    + reflexivity.
    + reflexivity.
    + vm_compute. reflexivity.
Defined.

(* ===================================================================== *)
(** ** C8: the line total after [updateItem] *)
(* ===================================================================== *)

(** C8, at the failing input: a cart with the Samsung phone, well priced.
    [updateItem] with quantity 3 stores the unrounded product
    [1199.99 * 3 = 3599.9700000000003] in both stores, where
    [calculateItemTotal 1199.99 3] is [3599.97] (the binary64 value
    3599.9699999999998). *)
Theorem C8_updateItem_stores_unrounded_total :
  let w := Scenario.wSamsung in
  liveItemsOf w Scenario.cart1 = Some [Scenario.samsungItem] /\
  wellPriced Scenario.samsungItem /\
  exists cart w' item,
    CartService.updateItem Scenario.cart1 "item_test-id-3" 3 (instant 3000) w
      = (Return cart, w') /\
    liveItemsOf w' Scenario.cart1 = Some [item] /\
    shadowItemsOf w' Scenario.cart1 = Some [item] /\
    items cart = [item] /\
    unitPrice item = 1199.99%float /\
    quantity item = 3%float /\
    totalPrice item = 3599.9700000000003%float /\
    calculateItemTotal (unitPrice item) (quantity item) = 3599.97%float /\
    ~ wellPriced item.
Proof.
  intros w. split; [vm_compute; reflexivity|].
  split; [vm_compute; reflexivity|].
  eexists _, _, _. split; [vm_compute; reflexivity|].
  split; [vm_compute; reflexivity|]. split; [vm_compute; reflexivity|].
  split; [reflexivity|]. split; [reflexivity|]. split; [reflexivity|].
  split; [vm_compute; reflexivity|]. split; [vm_compute; reflexivity|].
  unfold wellPriced. apply float_neq. vm_compute. discriminate.
Qed.

(* ===================================================================== *)
(** ** C9: what [validateCart] changes *)
(* ===================================================================== *)

(** The cart of [Scenario.wPhone] at time 400000, after its context has
    expired: [validateCart] caches a new context. *)
Lemma C9_counterexample :
  let w := Scenario.wPhone in
  let w' :=
    snd (CartService.validateCart Scenario.cart1 (instant 400000) w) in
  contextCache w !! Scenario.cart1 = Some 0%nat /\
  contextCache w' !! Scenario.cart1 = Some 1%nat /\
  contexts w !! "sf_ctx_test-id-4" = None /\
  contexts w' !! "sf_ctx_test-id-4" = Some 1%nat /\
  ~ C9_as_stated w Scenario.cart1 (instant 400000).
Proof.
  intros w w'. repeat split; try (vm_compute; reflexivity).
  intros Hclaim.
  destruct (Hclaim _ w' (surjective_pairing _)) as (Hcache & _).
  apply (f_equal (fun m => m !! Scenario.cart1)) in Hcache.
  vm_compute in Hcache. discriminate Hcache.
Qed.

(** C9, amended: while the service does not find the cached context of the
    cart expired (the clock reading of [ensureValidContext] is not after its
    [expiresAt]), [validateCart] changes nothing, whatever it returns or
    throws.  Once the service finds it expired, [validateCart] starts a
    recovery, and however the call ends the shadow store, the existing item
    arrays and the existing context objects stay as they were; when the
    client accepts the new context at every clock reading of the call,
    [validateCart] succeeds, the client has a new context holding the
    replayed shadow items and the service caches it. *)
Theorem C9_validateCart_frame (w : World) (cartId : string) (c : ref)
    (context : SalesforceContext) (now : Clock) :
  contextCache w !! cartId = Some c ->
  contextObjects w !! c = Some context ->
  (~ expired now context ->
   is_Some (cartItems w !! contextId context) ->
   forall r w', CartService.validateCart cartId now w = (r, w') -> w' = w) /\
  (expired now context ->
   forall s content,
     shadowState w !! cartId = Some s ->
     arrays w !! s = Some content ->
     (forall r w',
        CartService.validateCart cartId now w = (r, w') ->
        shadowState w' = shadowState w /\
        (forall a items, arrays w !! a = Some items ->
                         arrays w' !! a = Some items) /\
        (forall c0 context0, contextObjects w !! c0 = Some context0 ->
                             contextObjects w' !! c0 = Some context0)) /\
     (recoverable w cartId now ->
      exists w',
        CartService.validateCart cartId now w
        = (Return (validateCartRules (config w)
                     (replayed (nanoidSource w) (S (nanoidCalls w)) content)),
           w') /\
        w' = recovered cartId (now InCreateContext) content w /\
        contextCache w' !! cartId = Some (length (contextObjects w)) /\
        contextCache w' <> contextCache w)).
Proof.
  intros Hcache Hobj. split.
  - intros Hle [a Ha] r w'. unfold CartService.validateCart.
    call (ServiceFacts.ensureValidContext_kept w cartId c context now
            Hcache Hobj Hle).
    unfold SalesforceCartClient.getCartItems. glue.
    destruct (SalesforceCartClient.isContextValid (contextId context)
                (now InGetCartItems) w);
      cbn [negb].
    + call (getOrEmpty_Some cartItems (contextId context) a w Ha).
      unfold bind, readArray. destruct (arrays w !! a); glue;
        intros [= _ <-]; reflexivity.
    + unfold throw, bind. intros [= _ <-]. reflexivity.
  - intros Hexpired s content Hshadow Hcontent.
    set (fresh := freshContext cartId (now InCreateContext) w).
    set (w1 := recovered cartId (now InCreateContext) content w).
    set (new := replayed (nanoidSource w) (S (nanoidCalls w)) content).
    assert (forall w' l l',
              shadowState w' = shadowState w ->
              contextObjects w' = (contextObjects w ++ l)%list ->
              arrays w' = (arrays w ++ l')%list ->
              shadowState w' = shadowState w /\
              (forall a items, arrays w !! a = Some items ->
                               arrays w' !! a = Some items) /\
              (forall c0 context0, contextObjects w !! c0 = Some context0 ->
                                   contextObjects w' !! c0 = Some context0))
      as Hframe.
    { intros w' l l' Hss Hco Harr. split; [exact Hss|]. split.
      - intros a items' Ha. rewrite Harr, lookup_app_l; [exact Ha|].
        eapply lookup_lt_Some, Ha.
      - intros c0 context0 Hc0. rewrite Hco, lookup_app_l; [exact Hc0|].
        eapply lookup_lt_Some, Hc0. }
    split.
    + intros r w' Hrun.
      destruct (first_failure
                  (fun j => before (now (InReplay j)) (expiresAt fresh))
                  (length content))
        as [Hall | (k & Hk & Hbelow & Hno)].
      * (* the replay is accepted *)
        revert Hrun. unfold CartService.validateCart.
        call (RecoveryFacts.ensureValidContext_recovers w cartId c context
                now s content Hcache Hobj Hexpired Hshadow Hcontent Hall).
        fold w1 fresh.
        assert (contexts w1 !! contextId fresh
                = Some (length (contextObjects w))) as Hreg1
          by apply lookup_insert_eq.
        assert (contextObjects w1 !! length (contextObjects w) = Some fresh)
          as Ho1 by (simpl; apply list_lookup_middle; reflexivity).
        destruct (decide (before (now InGetCartItems) (expiresAt fresh)))
          as [Hlt | Hge].
        -- call (ClientFacts.getCartItems_live w1 _ _ fresh
                   (now InGetCartItems) Hreg1 Ho1 (length (arrays w)) Hlt
                   (lookup_insert_eq _ _ _)).
           assert (arrays w1 !! length (arrays w) = Some new) as Hnew
             by (simpl; apply list_lookup_middle; reflexivity).
           call (readArray_Some _ _ w1 Hnew). glue.
           intros [= _ <-]. eapply Hframe; reflexivity.
        -- call (ClientFacts.getCartItems_expired w1 _ _ fresh
                   (now InGetCartItems) Hreg1 Ho1 Hge).
           intros [= _ <-]. eapply Hframe; reflexivity.
      * (* the replay is refused at item [k] *)
        destruct (RecoveryFacts.ensureValidContext_refused w cartId c context
                    now s content Hcache Hobj Hexpired Hshadow Hcontent k Hk
                    Hbelow Hno)
          as (w2 & Hensure & _ & Hss & Hco & Harr).
        revert Hrun. unfold CartService.validateCart. call Hensure.
        intros [= _ <-]. eapply Hframe; eassumption.
    + intros Hfresh. exists w1. split; [|split; [reflexivity|split]].
      * apply (RecoveringFacts.validateCart_recovering w cartId now c context
                 s content Hcache Hobj Hexpired Hfresh Hshadow Hcontent).
      * simpl. apply lookup_insert_eq.
      * intros Heq. apply (f_equal (fun m => m !! cartId)) in Heq.
        simpl in Heq. rewrite lookup_insert_eq, Hcache in Heq.
        injection Heq as Heq. apply lookup_lt_Some in Hobj. lia.
Qed.

Lemma C9_validateCart_frame_witness :
  (forall r w',
     CartService.validateCart Scenario.cart1 (instant 3000) Scenario.wPhone
     = (r, w') ->
     w' = Scenario.wPhone) /\
  (exists w',
     CartService.validateCart Scenario.cart1 (instant 400000) Scenario.wPhone
     = (Return {| valid := true; errors := [] |}, w') /\
     shadowItemsOf w' Scenario.cart1 = Some [Scenario.phoneItem]).
Proof.
  destruct (C9_validateCart_frame Scenario.wPhone Scenario.cart1 0%nat
              Scenario.context1 (instant 3000)) as [Hkept _];
    [vm_compute; reflexivity | vm_compute; reflexivity |].
  destruct (C9_validateCart_frame Scenario.wPhone Scenario.cart1 0%nat
              Scenario.context1 (instant 400000)) as [_ Hrecovered];
    [vm_compute; reflexivity | vm_compute; reflexivity |].
  split.
  - apply Hkept; [vm_compute; discriminate|].
    exists 0%nat. vm_compute. reflexivity.
  - destruct (Hrecovered (proj1 Scenario_wPhone_recoverable) 1%nat
                [Scenario.phoneItem]) as (_ & Hrun);
      [vm_compute; reflexivity ..|].
    destruct (Hrun (proj2 Scenario_wPhone_recoverable))
      as (w' & Hrun' & -> & _).
    eexists. split; [exact Hrun'|]. vm_compute. reflexivity.
Defined.

(* ===================================================================== *)
(** ** C10: [updateItem] validates nothing *)
(* ===================================================================== *)

(** A quantity above the maximum of the route's schema: at time 3000
    [updateItem] stores 11, and at time 3500 [validateCart], whose quantity
    rule has no upper bound, finds the cart valid. *)
Lemma C10_counterexample :
  let w := Scenario.wPhone in
  let w' :=
    snd (CartService.updateItem Scenario.cart1 "item_test-id-3" 11
           (instant 3000) w) in
  liveItemsOf w' Scenario.cart1
  = Some [withQuantity 11 Scenario.phoneItem] /\
  CartService.validateCart Scenario.cart1 (instant 3500) w'
  = (Return {| valid := true; errors := [] |}, w') /\
  ~ C10_as_stated w Scenario.cart1 "item_test-id-3" 11 (instant 3000)
      (instant 3500).
Proof.
  intros w w'.
  assert (CartService.validateCart Scenario.cart1 (instant 3500) w'
          = (Return {| valid := true; errors := [] |}, w')) as Hvalid.
  { vm_compute. reflexivity. }
  split; [vm_compute; reflexivity|]. split; [exact Hvalid|].
  intros Hclaim.
  destruct (Hclaim [Scenario.phoneItem] [Scenario.phoneItem] 0%nat
              Scenario.phoneItem) as (cart & w2 & Hrun & Hreport).
  - apply Scenario_wPhone_live. intros r. reflexivity.
  - apply Scenario_wPhone_live. intros r. reflexivity.
  - apply Scenario_wPhone_shadow.
  - vm_compute. reflexivity.
  - assert (w2 = w') as -> by (unfold w'; rewrite Hrun; reflexivity).
    destruct Hreport as (r & Hr & Hno); [vm_compute; reflexivity|].
    rewrite Hvalid in Hr. injection Hr as <-. discriminate Hno.
Qed.

(** C10, amended: on a live cart whose item store holds an item with id
    [itemId] (the first such item is [item], at index [i]), [updateItem]
    succeeds for every number [q]; the client then stores, in place of
    [item], the item with quantity [q] and total price [unitPrice * q], and
    when the shadow store agreed with the client's store it holds the same
    and so does the view.  A following [validateCart], in a call during
    which the cart is live too, reports the quantity when it is zero,
    negative or not an integer; no rule of [validateCart] bounds a quantity
    from above: when every quantity of the cart is a positive integer, the
    message of the quantity rule is not among the errors. *)
Theorem C10_updateItem_any_quantity (w : World) (cartId itemId : string)
    (q : number) (now later : Clock) (content shadow : list CartItem)
    (i : nat) (item : CartItem) :
  liveCart w cartId now content ->
  liveCart w cartId later content ->
  shadowOf w cartId shadow ->
  list_find (fun x => id x = itemId) content = Some (i, item) ->
  exists cart w' updated,
    CartService.updateItem cartId itemId q now w = (Return cart, w') /\
    id updated = itemId /\
    quantity updated = q /\
    totalPrice updated = (unitPrice item * q)%float /\
    liveItemsOf w' cartId = Some (<[i := updated]> content) /\
    (shadow = content ->
       shadowItemsOf w' cartId = Some (<[i := updated]> content) /\
       items cart = <[i := updated]> content) /\
    invalidQuantity updated = PrimFloat.leb q 0 || negb (isInteger q) /\
    exists r,
      CartService.validateCart cartId later w' = (Return r, w') /\
      (invalidQuantity updated = true ->
         valid r = false /\
         In "Cart contains items with invalid quantities" (errors r)) /\
      (existsb invalidQuantity (<[i := updated]> content) = false ->
         ~ In "Cart contains items with invalid quantities" (errors r)).
Proof.
  intros Hnow Hlater (s & Hs & Hsh) Hfind.
  destruct (liveCart_twice w cartId now later content content Hnow Hlater)
    as (_ & c & context & a & Hc & Ho & Hreg & Hlt & Hlt' & Hi & Ha).
  pose proof (MutationFacts.updateItem_found w cartId now c context a content
                s shadow Hc Ho Hreg Hlt Hi Ha Hs Hsh itemId q i item Hfind)
    as Hupd.
  cbv zeta in Hupd. rewrite Hupd. clear Hupd.
  set (updated := withQuantity q item).
  set (live' := <[i := updated]> content).
  assert (id item = itemId) as Hid.
  { apply list_find_Some in Hfind as (_ & Hp & _). exact Hp. }
  assert (list_find (fun x => id x = itemId) live' = Some (i, updated))
    as Hfind'.
  { apply list_find_insert_same with (item := item); [exact Hfind|].
    reflexivity. }
  assert (a < length (arrays w))%nat as Hla by (eapply lookup_lt_Some, Ha).
  assert (s < length (arrays w))%nat as Hls by (eapply lookup_lt_Some, Hsh).
  assert (forall h : list (list CartItem),
            h !! a = Some live' ->
            liveItemsOf (set_arrays h w) cartId = Some live' /\
            exists r,
              CartService.validateCart cartId later (set_arrays h w)
              = (Return r, set_arrays h w) /\
              (invalidQuantity updated = true ->
                 valid r = false /\
                 In "Cart contains items with invalid quantities" (errors r))
              /\
              (existsb invalidQuantity live' = false ->
                 ~ In "Cart contains items with invalid quantities"
                      (errors r)))
    as Hafter.
  { intros h Hh. split.
    - rewrite (liveItemsOf_eq (set_arrays h w) cartId c context a Hc Ho Hi).
      exact Hh.
    - eexists. split; [|split].
      + apply (LiveFacts.validateCart_live (set_arrays h w) cartId later
                 live').
        exists c, context, a. repeat split; assumption.
      + intros Hinvalid.
        apply invalid_quantity_reported. apply existsb_exists.
        exists updated. split; [|exact Hinvalid].
        apply list_elem_of_In, list_elem_of_lookup. exists i.
        apply list_find_Some in Hfind' as (Hi' & _). exact Hi'.
      + apply valid_quantities_not_reported. }
  eexists _, _, updated. split; [reflexivity|].
  split; [exact Hid|]. split; [reflexivity|]. split; [reflexivity|].
  unfold shadowAfter. fold live'.
  destruct (decide (s = a)) as [->|Hne].
  - (* one array for both stores *)
    unfold findIndex. rewrite Hfind'. cbn [fmap option_fmap option_map fst].
    replace (<[i := updated]> live') with live'
      by (unfold live'; rewrite list_insert_insert_eq; reflexivity).
    assert (<[a := live']> (<[a := live']> (arrays w)) !! a = Some live')
      as Hread.
    { apply list_lookup_insert_eq. rewrite length_insert. exact Hla. }
    destruct (Hafter _ Hread) as [Hlive' Hreport].
    split; [exact Hlive'|]. split; [|split; [reflexivity | exact Hreport]].
    intros _. split; [|reflexivity].
    erewrite shadowItemsOf_eq by exact Hs. exact Hread.
  - assert (forall l, <[s := l]> (<[a := live']> (arrays w)) !! a = Some live')
      as Hread.
    { intros l. rewrite list_lookup_insert_ne by congruence.
      apply list_lookup_insert_eq. exact Hla. }
    destruct (Hafter _ (Hread
      match findIndex itemId shadow with
      | Some index => <[index := updated]> shadow
      | None => shadow
      end)) as [Hlive' Hreport].
    split; [exact Hlive'|]. split; [|split; [reflexivity | exact Hreport]].
    intros ->. unfold findIndex. rewrite Hfind.
    cbn [fmap option_fmap option_map fst].
    split; [|reflexivity].
    erewrite shadowItemsOf_eq by exact Hs.
    apply list_lookup_insert_eq. rewrite length_insert. exact Hls.
Qed.

(** A negative, fractional quantity on the phone of [Scenario.wPhone] at
    time 3000: [validateCart] reports it at time 3500. *)
Lemma C10_updateItem_any_quantity_witness :
  exists cart w' updated r,
    CartService.updateItem Scenario.cart1 "item_test-id-3" (-2.5)%float
      (instant 3000) Scenario.wPhone = (Return cart, w') /\
    quantity updated = (-2.5)%float /\
    totalPrice updated = (unitPrice Scenario.phoneItem * -2.5)%float /\
    liveItemsOf w' Scenario.cart1 = Some [updated] /\
    shadowItemsOf w' Scenario.cart1 = Some [updated] /\
    items cart = [updated] /\
    CartService.validateCart Scenario.cart1 (instant 3500) w'
    = (Return r, w') /\
    valid r = false /\
    In "Cart contains items with invalid quantities" (errors r).
Proof.
  destruct (C10_updateItem_any_quantity Scenario.wPhone Scenario.cart1
              "item_test-id-3" (-2.5)%float (instant 3000) (instant 3500)
              [Scenario.phoneItem] [Scenario.phoneItem] 0%nat
              Scenario.phoneItem)
    as (cart & w' & updated & Hrun & _ & Hq & Hprice & Hlive & Hshadow
        & Hinvalid & r & Hvalidate & Hreport & _).
  - apply Scenario_wPhone_live. intros r. reflexivity.
  - apply Scenario_wPhone_live. intros r. reflexivity.
  - apply Scenario_wPhone_shadow.
  - vm_compute. reflexivity.
  - destruct (Hshadow eq_refl) as [Hs Hview].
    destruct Hreport as [Hno Hin].
    { rewrite Hinvalid. vm_compute. reflexivity. }
    exists cart, w', updated, r. repeat split; assumption.
Defined.

(* ===================================================================== *)
(** ** The stores of the cart with one phone *)
(* ===================================================================== *)

Lemma stores_agree_without_recovery_witness :
  exists cart w' content',
    CartService.addItem Scenario.cart1 "addon_insurance" 1 (instant 3000)
      Scenario.wPhone
    = (Return cart, w') /\
    liveItemsOf w' Scenario.cart1 = Some content' /\
    shadowItemsOf w' Scenario.cart1 = Some content'.
Proof.
  assert (exists cart,
            CartService.addItem Scenario.cart1 "addon_insurance" 1
              (instant 3000) Scenario.wPhone
            = (Return cart,
               snd (CartService.addItem Scenario.cart1 "addon_insurance" 1
                      (instant 3000) Scenario.wPhone))) as [cart Hrun].
  { eexists. vm_compute. reflexivity. }
  destruct (stores_agree_without_recovery Scenario.wPhone Scenario.cart1
              (instant 3000) [Scenario.phoneItem] "addon_insurance"
              "item_test-id-3" 1 cart _
              (Scenario_wPhone_live (instant 3000) (fun _ => eq_refl))
              Scenario_wPhone_shadow (or_introl Hrun))
    as (content' & Hlive & Hshadow).
  exists cart. eexists. exists content'. split; [exact Hrun|]. auto.
Defined.

Lemma addItem_recovering_lines_witness :
  exists cart w' live item,
    CartService.addItem Scenario.cart1 "addon_insurance" 1 (instant 400000)
      Scenario.wPhone = (Return cart, w') /\
    liveItemsOf w' Scenario.cart1 = Some (push live item) /\
    shadowItemsOf w' Scenario.cart1 = Some [Scenario.phoneItem; item] /\
    line <$> push live item = line <$> [Scenario.phoneItem; item].
Proof.
  assert (exists cart,
            CartService.addItem Scenario.cart1 "addon_insurance" 1
              (instant 400000) Scenario.wPhone
            = (Return cart,
               snd (CartService.addItem Scenario.cart1 "addon_insurance" 1
                      (instant 400000) Scenario.wPhone))) as [cart Hrun].
  { eexists. vm_compute. reflexivity. }
  destruct (addItem_recovering_lines Scenario.wPhone Scenario.cart1
              (instant 400000) 0%nat Scenario.context1 1%nat
              [Scenario.phoneItem] "addon_insurance" 1 cart _
              eq_refl eq_refl (proj1 Scenario_wPhone_recoverable)
              (proj2 Scenario_wPhone_recoverable) eq_refl eq_refl Hrun)
    as (live & item & Hlive & Hshadow & _ & _ & Hlines).
  exists cart. eexists. exists live, item. split; [exact Hrun|]. auto.
Defined.

Lemma SF_CONTEXT_EXPIRED_only_when_refused_witness :
  ~ leaksContextExpired (CartService.getCart Scenario.cart1 (instant 400000))
      Scenario.wPhone /\
  ~ leaksContextExpired
      (CartService.addItem Scenario.cart1 "addon_insurance" 1
         (instant 400000))
      Scenario.wPhone /\
  ~ leaksContextExpired
      (CartService.updateItem Scenario.cart1 "item_test-id-3" 1
         (instant 400000))
      Scenario.wPhone /\
  ~ leaksContextExpired
      (CartService.removeItem Scenario.cart1 "item_test-id-3"
         (instant 400000))
      Scenario.wPhone /\
  ~ leaksContextExpired
      (CartService.validateCart Scenario.cart1 (instant 400000))
      Scenario.wPhone.
Proof.
  apply (SF_CONTEXT_EXPIRED_only_when_refused Scenario.wPhone Scenario.cart1
           Scenario.context1 (instant 400000) "addon_insurance"
           "item_test-id-3" 1 Scenario_wPhone_initialized).
  right. exact Scenario_wPhone_recoverable.
Defined.

(* ===================================================================== *)
(** ** The client: contexts and items *)
(* ===================================================================== *)

(** X4: [createContext] always succeeds; the [expiresAt] of the context it
    registers is [new Date(now.getTime() + contextTTL)], the context is
    accepted at the clock readings before that date and at no other (at
    none when it is the Invalid Date), and while it is accepted it holds no
    item.  With the TTL of five minutes a context created at time 1000
    expires at time 301000; with a TTL of 1.5 ms it expires at time 1001;
    with a TTL of 9e15 ms, or an infinite one, its date is invalid. *)
Theorem createContext_accepted_until_expiresAt (w : World) (cartId : string)
    (now t : Z) :
  let context := freshContext cartId now w in
  exists c w',
    SalesforceCartClient.createContext cartId now w = (Return c, w') /\
    contextObjects w' !! c = Some context /\
    SalesforceCartClient.getContext (contextId context) w' = Some c /\
    expiresAt context = newDate (getTime now + contextTTL w)%float /\
    SalesforceCartClient.isContextValid (contextId context) t w'
    = bool_decide (before t (expiresAt context)) /\
    (before t (expiresAt context) ->
     exists a,
       SalesforceCartClient.getCartItems (contextId context) t w'
       = (Return a, w') /\
       arrays w' !! a = Some []) /\
    (~ before t (expiresAt context) ->
     SalesforceCartClient.getCartItems (contextId context) t w'
     = (Throw SalesforceCartClient.SF_CONTEXT_EXPIRED, w')) /\
    newDate (getTime 1000 + 300000)%float = Some 301000 /\
    newDate (getTime 1000 + 1.5)%float = Some 1001 /\
    newDate (getTime 1000 + 9e15)%float = None /\
    newDate (getTime 1000 + infinity)%float = None.
Proof.
  intros context.
  exists (length (contextObjects w)), (created cartId now w).
  assert (contexts (created cartId now w) !! contextId context
          = Some (length (contextObjects w))) as Hreg
    by apply lookup_insert_eq.
  assert (contextObjects (created cartId now w) !! length (contextObjects w)
          = Some context) as Hobj
    by (simpl; apply list_lookup_middle; reflexivity).
  split; [apply RecoveryFacts.createContext_eq|].
  split; [exact Hobj|]. split; [exact Hreg|]. split; [reflexivity|].
  split; [|split; [|split]].
  - apply (ClientFacts.isContextValid_eq _ _ _ _ t Hreg Hobj).
  - intros Hlt. exists (length (arrays w)). split.
    + apply (ClientFacts.getCartItems_live _ _ _ _ t Hreg Hobj).
      * exact Hlt.
      * apply lookup_insert_eq.
    + simpl. apply list_lookup_middle. reflexivity.
  - intros Hle.
    apply (ClientFacts.getCartItems_expired _ _ _ _ t Hreg Hobj). exact Hle.
  - repeat split; vm_compute; reflexivity.
Qed.

(** X5: on an accepted context, [addItem] appends one item, made of the
    request and of the next [nanoid] result, to the array of that context
    and to no other array, and [getCartItems], while the context is still
    accepted, then returns that array. *)
Theorem client_addItem_appends (w : World) (cid : string) (c : ref)
    (context : SalesforceContext) (now later : Z) (a : ref)
    (content : list CartItem) (r : AddItemRequest) :
  contexts w !! cid = Some c ->
  contextObjects w !! c = Some context ->
  before now (expiresAt context) ->
  before later (expiresAt context) ->
  cartItems w !! cid = Some a ->
  arrays w !! a = Some content ->
  exists item w',
    SalesforceCartClient.addItem cid r now w = (Return item, w') /\
    item = itemOfRequest ("item_" +:+ nanoidSource w (nanoidCalls w)) r /\
    SalesforceCartClient.getCartItems cid later w' = (Return a, w') /\
    arrays w' !! a = Some (content ++ [item])%list /\
    (forall b, b <> a -> arrays w' !! b = arrays w !! b) /\
    nanoidCalls w' = S (nanoidCalls w).
Proof.
  intros Hreg Hobj Hlt Hlt' Hi Ha.
  set (item := itemOfRequest ("item_" +:+ nanoidSource w (nanoidCalls w)) r).
  set (w1 := set_arrays (<[a := push content item]> (arrays w))
               (set_nanoidCalls (S (nanoidCalls w)) w)).
  exists item, w1.
  split.
  { exact (ClientFacts.addItem_live w cid c context now Hreg Hobj a content
             Hlt Hi Ha r). }
  split; [reflexivity|]. split; [|split; [|split]].
  - apply (ClientFacts.getCartItems_live w1 cid c context later Hreg Hobj a
             Hlt' Hi).
  - simpl. apply list_lookup_insert_eq. eapply lookup_lt_Some, Ha.
  - intros b Hb. simpl. apply list_lookup_insert_ne. congruence.
  - reflexivity.
Qed.

Lemma client_addItem_appends_witness :
  exists item w',
    SalesforceCartClient.addItem "sf_ctx_test-id-2" Scenario.insuranceRequest
      3000 Scenario.wPhone = (Return item, w') /\
    id item = "item_test-id-4" /\
    arrays w' !! 0%nat = Some [Scenario.phoneItem; item].
Proof.
  destruct (client_addItem_appends Scenario.wPhone "sf_ctx_test-id-2" 0%nat
              Scenario.context1 3000 3500 0%nat [Scenario.phoneItem]
              Scenario.insuranceRequest eq_refl eq_refl eq_refl eq_refl
              eq_refl eq_refl)
    as (item & w' & Hrun & -> & _ & Harr & _).
  eexists _, w'. split; [exact Hrun|]. split; [reflexivity | exact Harr].
Defined.

(** X6: when no item of the context carries the id that [addItem] is about
    to give out, [removeItem] with the id of the new item, while the context
    is still accepted, undoes the [addItem]: every array is as before. *)
Theorem client_addItem_then_removeItem (w : World) (cid : string) (c : ref)
    (context : SalesforceContext) (now later : Z) (a : ref)
    (content : list CartItem) (r : AddItemRequest) :
  contexts w !! cid = Some c ->
  contextObjects w !! c = Some context ->
  before now (expiresAt context) ->
  before later (expiresAt context) ->
  cartItems w !! cid = Some a ->
  arrays w !! a = Some content ->
  Forall (fun item =>
            id item <> "item_" +:+ nanoidSource w (nanoidCalls w)) content ->
  exists item w1 w2,
    SalesforceCartClient.addItem cid r now w = (Return item, w1) /\
    SalesforceCartClient.removeItem cid (id item) later w1 = (Return tt, w2) /\
    arrays w2 = arrays w /\
    contexts w2 = contexts w /\
    cartItems w2 = cartItems w.
Proof.
  intros Hreg Hobj Hlt Hlt' Hi Ha Hfresh.
  set (item := itemOfRequest ("item_" +:+ nanoidSource w (nanoidCalls w)) r).
  set (w1 := set_arrays (<[a := push content item]> (arrays w))
               (set_nanoidCalls (S (nanoidCalls w)) w)).
  assert (arrays w1 !! a = Some (push content item)) as Ha1.
  { simpl. apply list_lookup_insert_eq. eapply lookup_lt_Some, Ha. }
  exists item, w1, (set_arrays (<[a := delete (length content)
                                      (push content item)]> (arrays w1)) w1).
  split; [|split; [|split; [|split]]].
  - exact (ClientFacts.addItem_live w cid c context now Hreg Hobj a content
             Hlt Hi Ha r).
  - apply (ClientFacts.removeItem_live w1 cid c context later Hreg Hobj a
             (push content item) Hlt' Hi Ha1 (id item) (length content) item).
    apply list_find_fresh; [exact Hfresh | reflexivity].
  - simpl. rewrite list_insert_insert_eq. unfold push.
    rewrite (delete_middle content [] item), app_nil_r.
    apply list_insert_id, Ha.
  - reflexivity.
  - reflexivity.
Qed.

Lemma client_addItem_then_removeItem_witness :
  exists item w1 w2,
    SalesforceCartClient.addItem "sf_ctx_test-id-2" Scenario.insuranceRequest
      3000 Scenario.wPhone = (Return item, w1) /\
    SalesforceCartClient.removeItem "sf_ctx_test-id-2" (id item) 3500 w1
    = (Return tt, w2) /\
    arrays w2 = arrays Scenario.wPhone.
Proof.
  destruct (client_addItem_then_removeItem Scenario.wPhone "sf_ctx_test-id-2"
              0%nat Scenario.context1 3000 3500 0%nat [Scenario.phoneItem]
              Scenario.insuranceRequest eq_refl eq_refl eq_refl eq_refl
              eq_refl eq_refl)
    as (item & w1 & w2 & Hadd & Hremove & Harr & _).
  { constructor; [vm_compute; discriminate | constructor]. }
  exists item, w1, w2. auto.
Defined.

(** X7: on an accepted context, [updateItem] replaces the first item that
    carries the id, keeps the place and the id of every item, and a second
    [updateItem] of the same item, while the context is still accepted,
    overwrites the first: the outcome is the one of the second call
    alone. *)
Theorem client_updateItem_last_wins (w : World) (cid : string) (c : ref)
    (context : SalesforceContext) (now later : Z) (a : ref)
    (content : list CartItem) (itemId : string) (q1 q2 : number)
    (updated : CartItem) (w1 : World) :
  contexts w !! cid = Some c ->
  contextObjects w !! c = Some context ->
  before now (expiresAt context) ->
  before later (expiresAt context) ->
  cartItems w !! cid = Some a ->
  arrays w !! a = Some content ->
  SalesforceCartClient.updateItem cid itemId q1 now w = (Return updated, w1) ->
  exists i item,
    content !! i = Some item /\
    id item = itemId /\
    (forall j other, content !! j = Some other -> (j < i)%nat ->
       id other <> itemId) /\
    updated = withQuantity q1 item /\
    arrays w1 !! a = Some (<[i := updated]> content) /\
    SalesforceCartClient.updateItem cid itemId q2 later w1
    = SalesforceCartClient.updateItem cid itemId q2 later w.
Proof.
  intros Hreg Hobj Hlt Hlt' Hi Ha Hrun.
  destruct (list_find (fun x => id x = itemId) content) as [[i item]|]
    eqn:Hfind.
  2:{ rewrite (ClientFacts.updateItem_unknown w cid c context now Hreg Hobj
                 a content Hlt Hi Ha itemId q1 Hfind) in Hrun.
      discriminate Hrun. }
  rewrite (ClientFacts.updateItem_live w cid c context now Hreg Hobj
             a content Hlt Hi Ha itemId q1 i item Hfind) in Hrun.
  injection Hrun as <- <-.
  pose proof Hfind as Hfound.
  apply list_find_Some in Hfound as (Hitem & Hid & Hfirst).
  assert (i < length content)%nat as Hlen by (eapply lookup_lt_Some, Hitem).
  exists i, item.
  split; [exact Hitem|]. split; [exact Hid|]. split; [exact Hfirst|].
  split; [reflexivity|]. split.
  - simpl. apply list_lookup_insert_eq. eapply lookup_lt_Some, Ha.
  - set (w1 := set_arrays _ w).
    assert (arrays w1 !! a = Some (<[i := withQuantity q1 item]> content))
      as Ha1.
    { simpl. apply list_lookup_insert_eq. eapply lookup_lt_Some, Ha. }
    rewrite (ClientFacts.updateItem_live w1 cid c context later Hreg Hobj
               a _ Hlt' Hi Ha1 itemId q2 i (withQuantity q1 item)
               (list_find_insert_same itemId content i item
                  (withQuantity q1 item) Hfind eq_refl)).
    rewrite (ClientFacts.updateItem_live w cid c context later Hreg Hobj
               a content Hlt' Hi Ha itemId q2 i item Hfind).
    f_equal. apply World_eq; try reflexivity. simpl.
    rewrite list_insert_insert_eq, list_insert_insert_eq. reflexivity.
Qed.

Lemma client_updateItem_last_wins_witness :
  let w1 :=
    snd (SalesforceCartClient.updateItem "sf_ctx_test-id-2" "item_test-id-3" 2
           3000 Scenario.wPhone) in
  SalesforceCartClient.updateItem "sf_ctx_test-id-2" "item_test-id-3" 3 3500 w1
  = SalesforceCartClient.updateItem "sf_ctx_test-id-2" "item_test-id-3" 3 3500
      Scenario.wPhone.
Proof.
  destruct (client_updateItem_last_wins Scenario.wPhone "sf_ctx_test-id-2"
              0%nat Scenario.context1 3000 3500 0%nat [Scenario.phoneItem]
              "item_test-id-3" 2 3 (withQuantity 2 Scenario.phoneItem)
              (snd (SalesforceCartClient.updateItem "sf_ctx_test-id-2"
                      "item_test-id-3" 2 3000 Scenario.wPhone))
              eq_refl eq_refl eq_refl eq_refl eq_refl eq_refl)
    as (i & item & _ & _ & _ & _ & _ & Hlast).
  { vm_compute. reflexivity. }
  exact Hlast.
Defined.

(** X8: a call of the client that throws has changed nothing.  It throws
    [SF_CONTEXT_EXPIRED] when [isContextValid] refuses the context, and
    otherwise only [ITEM_NOT_FOUND], from [updateItem] and [removeItem]. *)
Theorem client_throw_changes_nothing (w : World) (cid : string) (now : Z)
    (r : AddItemRequest) (itemId : string) (q : number) (e : Exn)
    (w' : World) :
  is_Some (cartItems w !! cid) ->
  SalesforceCartClient.getCartItems cid now w = (Throw e, w') \/
  SalesforceCartClient.addItem cid r now w = (Throw e, w') \/
  SalesforceCartClient.updateItem cid itemId q now w = (Throw e, w') \/
  SalesforceCartClient.removeItem cid itemId now w = (Throw e, w') \/
  SalesforceCartClient.clearContext cid now w = (Throw e, w') ->
  w' = w /\
  (e = SalesforceCartClient.SF_CONTEXT_EXPIRED /\
   SalesforceCartClient.isContextValid cid now w = false \/
   e = SalesforceCartClient.ITEM_NOT_FOUND /\
   SalesforceCartClient.isContextValid cid now w = true /\
   (SalesforceCartClient.updateItem cid itemId q now w = (Throw e, w') \/
    SalesforceCartClient.removeItem cid itemId now w = (Throw e, w'))).
Proof.
  intros [a Hi] Hrun.
  destruct (SalesforceCartClient.isContextValid cid now w) eqn:Hvalid.
  2:{ assert ((Throw SalesforceCartClient.SF_CONTEXT_EXPIRED, w)
              = (@Throw unit e, w')) as Heq.
      { unfold SalesforceCartClient.getCartItems, SalesforceCartClient.addItem,
          SalesforceCartClient.updateItem, SalesforceCartClient.removeItem,
          SalesforceCartClient.clearContext in Hrun.
        rewrite !bind_get, Hvalid in Hrun. cbn [negb] in Hrun.
        unfold throw in Hrun.
        destruct Hrun as [H | [H | [H | [H | H]]]];
          injection H as <- <-; reflexivity. }
      injection Heq as <- <-. auto. }
  pose proof (getOrEmpty_Some cartItems cid a w Hi) as Hget.
  destruct Hrun as [H | [H | [H | [H | H]]]]; pose proof H as Hrun.
  - unfold SalesforceCartClient.getCartItems in H.
    rewrite bind_get, Hvalid in H. cbn [negb] in H. rewrite Hget in H.
    discriminate H.
  - unfold SalesforceCartClient.addItem in H.
    rewrite bind_get, Hvalid in H. cbn [negb] in H.
    rewrite (bind_Return _ _ _ _ _ Hget) in H.
    unfold nanoid in H. unfold bind at 1 in H. cbv beta iota in H.
    unfold readArray, bind at 1 in H. cbn [arrays set_nanoidCalls] in H.
    destruct (arrays w !! a); discriminate H.
  - unfold SalesforceCartClient.updateItem in H.
    rewrite bind_get, Hvalid in H. cbn [negb] in H.
    rewrite (bind_Return _ _ _ _ _ Hget) in H.
    unfold readArray, bind at 1 in H.
    destruct (arrays w !! a) as [content|]; [|discriminate H].
    destruct (findIndex itemId content) as [i|].
    + destruct (content !! i); discriminate H.
    + unfold throw in H. injection H as <- <-. split; [reflexivity|]. right.
      split; [reflexivity|]. split; [reflexivity|]. left. exact Hrun.
  - unfold SalesforceCartClient.removeItem in H.
    rewrite bind_get, Hvalid in H. cbn [negb] in H.
    rewrite (bind_Return _ _ _ _ _ Hget) in H.
    unfold readArray, bind at 1 in H.
    destruct (arrays w !! a) as [content|]; [|discriminate H].
    destruct (findIndex itemId content) as [i|].
    + discriminate H.
    + unfold throw in H. injection H as <- <-. split; [reflexivity|]. right.
      split; [reflexivity|]. split; [reflexivity|]. right. exact Hrun.
  - unfold SalesforceCartClient.clearContext in H.
    rewrite bind_get, Hvalid in H. discriminate H.
Qed.

Lemma client_throw_changes_nothing_witness :
  Scenario.wPhone = Scenario.wPhone /\
  (SalesforceCartClient.SF_CONTEXT_EXPIRED
   = SalesforceCartClient.SF_CONTEXT_EXPIRED /\
   SalesforceCartClient.isContextValid "sf_ctx_test-id-2" 400000
     Scenario.wPhone = false \/
   SalesforceCartClient.SF_CONTEXT_EXPIRED
   = SalesforceCartClient.ITEM_NOT_FOUND /\
   SalesforceCartClient.isContextValid "sf_ctx_test-id-2" 400000
     Scenario.wPhone = true /\
   (SalesforceCartClient.updateItem "sf_ctx_test-id-2" "item_test-id-3" 2
      400000 Scenario.wPhone
    = (Throw SalesforceCartClient.SF_CONTEXT_EXPIRED, Scenario.wPhone) \/
    SalesforceCartClient.removeItem "sf_ctx_test-id-2" "item_test-id-3"
      400000 Scenario.wPhone
    = (Throw SalesforceCartClient.SF_CONTEXT_EXPIRED, Scenario.wPhone))).
Proof.
  apply (client_throw_changes_nothing Scenario.wPhone "sf_ctx_test-id-2"
           400000 Scenario.insuranceRequest "item_test-id-3" 2).
  - vm_compute. eauto.
  - left. vm_compute. reflexivity.
Defined.

(** X9: [expireContext] writes the date [new Date(Date.now() - 1000)] into
    the registered context object and nothing else: from then on the client
    accepts the context exactly at the times before that date, the items of
    the context stay where they are, and whoever holds the object sees the
    new date.  At the reading 2500 the date is 1500. *)
Theorem expireContext_backdates (w : World) (cid : string) (c : ref)
    (context : SalesforceContext) (now : Z) :
  contexts w !! cid = Some c ->
  contextObjects w !! c = Some context ->
  exists w',
    SalesforceCartClient.expireContext cid now w = (Return tt, w') /\
    let date := newDate (getTime now - 1000)%float in
    contextObjects w'
    = <[c := set_expiresAt date context]> (contextObjects w) /\
    (forall t,
       SalesforceCartClient.isContextValid cid t w'
       = bool_decide (before t date)) /\
    contexts w' = contexts w /\
    cartItems w' = cartItems w /\
    arrays w' = arrays w /\
    contextCache w' = contextCache w /\
    shadowState w' = shadowState w /\
    newDate (getTime 2500 - 1000)%float = Some 1500.
Proof.
  intros Hreg Hobj.
  set (date := newDate (getTime now - 1000)%float).
  exists (set_contextObjects
            (<[c := set_expiresAt date context]> (contextObjects w)) w).
  split; [|split; [reflexivity|split; [|repeat split]]].
  - exact (ClientFacts2.expireContext_eq w cid c context now Hreg Hobj).
  - intros t.
    apply (ClientFacts.isContextValid_eq
             (set_contextObjects
                (<[c := set_expiresAt date context]> (contextObjects w)) w)
             cid c (set_expiresAt date context) t Hreg).
    simpl. apply list_lookup_insert_eq. eapply lookup_lt_Some, Hobj.
Qed.

Lemma expireContext_backdates_witness :
  exists w',
    SalesforceCartClient.expireContext "sf_ctx_test-id-2" 2500 Scenario.wPhone
    = (Return tt, w') /\
    SalesforceCartClient.isContextValid "sf_ctx_test-id-2" 1400 w' = true /\
    SalesforceCartClient.isContextValid "sf_ctx_test-id-2" 1500 w' = false.
Proof.
  destruct (expireContext_backdates Scenario.wPhone "sf_ctx_test-id-2" 0%nat
              Scenario.context1 2500 eq_refl eq_refl)
    as (w' & Hrun & _ & Hvalid & _).
  exists w'. split; [exact Hrun|]. rewrite !Hvalid.
  split; vm_compute; reflexivity.
Defined.

(* ===================================================================== *)
(** ** The client: garbage collection *)
(* ===================================================================== *)

(** X10: [cleanupExpiredContexts] removes from both maps of the client
    exactly the contexts whose [expiresAt] lies before [now] (one that
    expires at [now] stays), returns how many it removed, and touches no
    object and nothing of the service. *)
Theorem cleanupExpiredContexts_removes_expired (w : World) (now : Z) :
  contextsAllocated w ->
  exists n w',
    SalesforceCartClient.cleanupExpiredContexts now w = (Return n, w') /\
    (forall contextId,
       SalesforceCartClient.getContext contextId w'
       = c ← SalesforceCartClient.getContext contextId w;
         if expiredAt now w c then None else Some c) /\
    (forall contextId,
       cartItems w' !! contextId
       = match SalesforceCartClient.getContext contextId w with
         | Some c => if expiredAt now w c then None
                     else cartItems w !! contextId
         | None => cartItems w !! contextId
         end) /\
    (SalesforceCartClient.getActiveContextCount w' + n
     = SalesforceCartClient.getActiveContextCount w)%nat /\
    contextObjects w' = contextObjects w /\
    arrays w' = arrays w /\
    contextCache w' = contextCache w /\
    shadowState w' = shadowState w /\
    nanoidCalls w' = nanoidCalls w.
Proof.
  intros Hall. eexists _, _.
  split; [apply CleanupFacts.cleanupExpiredContexts_eq, Hall|].
  split; [|split; [|split]].
  - intros k. apply CleanupFacts.lookup_contexts_cleaned.
  - intros k. apply CleanupFacts.lookup_cartItems_cleaned.
  - apply CleanupFacts.size_contexts_cleaned.
  - repeat split.
Qed.

Lemma cleanupExpiredContexts_removes_expired_witness :
  exists n w',
    SalesforceCartClient.cleanupExpiredContexts 400000 Scenario.wPhone
    = (Return n, w') /\
    (SalesforceCartClient.getActiveContextCount w' + n
     = SalesforceCartClient.getActiveContextCount Scenario.wPhone)%nat.
Proof.
  destruct (cleanupExpiredContexts_removes_expired Scenario.wPhone 400000
              Scenario_wPhone_allocated)
    as (n & w' & Hrun & _ & _ & Hcount & _).
  exists n, w'. split; assumption.
Defined.

(** X11: a context that is accepted at [t], a time not before the cleanup,
    is still registered with its items after the cleanup, and one that is
    refused stays refused: the cleanup changes no answer of
    [isContextValid] from [now] on. *)
Theorem cleanupExpiredContexts_keeps_answers (w : World) (now : Z) (n : nat)
    (w' : World) (contextId : string) (t : Z) :
  contextsAllocated w ->
  SalesforceCartClient.cleanupExpiredContexts now w = (Return n, w') ->
  now <= t ->
  SalesforceCartClient.isContextValid contextId t w'
  = SalesforceCartClient.isContextValid contextId t w /\
  (SalesforceCartClient.isContextValid contextId t w = true ->
   SalesforceCartClient.getContext contextId w'
   = SalesforceCartClient.getContext contextId w /\
   cartItems w' !! contextId = cartItems w !! contextId).
Proof.
  intros Hall Hrun Hle.
  rewrite (CleanupFacts.cleanupExpiredContexts_eq now w Hall) in Hrun.
  injection Hrun as _ <-.
  unfold SalesforceCartClient.isContextValid,
    SalesforceCartClient.getContext.
  cbn [contexts cartItems contextObjects set_cartItems set_contexts].
  rewrite CleanupFacts.lookup_contexts_cleaned,
    CleanupFacts.lookup_cartItems_cleaned.
  destruct (contexts w !! contextId) as [c|]; cbn [mbind option_bind];
    [|split; [reflexivity | discriminate]].
  unfold expiredAt.
  destruct (contextObjects w !! c) as [context|] eqn:Hobj;
    [|rewrite Hobj; split; [reflexivity | discriminate]].
  destruct (decide (after now (expiresAt context))) as [Hgt|Hngt].
  - rewrite (bool_decide_true (after now (expiresAt context))) by exact Hgt.
    rewrite (bool_decide_false (before t (expiresAt context)))
      by (destruct (expiresAt context); simpl in *; lia).
    split; [reflexivity | discriminate].
  - rewrite (bool_decide_false (after now (expiresAt context))) by exact Hngt.
    rewrite Hobj. split; [reflexivity | auto].
Qed.

Lemma cleanupExpiredContexts_keeps_answers_witness :
  let w' :=
    snd (SalesforceCartClient.cleanupExpiredContexts 2000 Scenario.wPhone) in
  SalesforceCartClient.isContextValid "sf_ctx_test-id-2" 3000 w'
  = SalesforceCartClient.isContextValid "sf_ctx_test-id-2" 3000 Scenario.wPhone
  /\
  (SalesforceCartClient.isContextValid "sf_ctx_test-id-2" 3000 Scenario.wPhone
   = true ->
   SalesforceCartClient.getContext "sf_ctx_test-id-2" w'
   = SalesforceCartClient.getContext "sf_ctx_test-id-2" Scenario.wPhone /\
   cartItems w' !! "sf_ctx_test-id-2"
   = cartItems Scenario.wPhone !! "sf_ctx_test-id-2").
Proof.
  apply (cleanupExpiredContexts_keeps_answers Scenario.wPhone 2000 0%nat _
           "sf_ctx_test-id-2" 3000 Scenario_wPhone_allocated).
  - vm_compute. reflexivity.
  - vm_compute. discriminate.
Defined.

(** X12: after a cleanup, a second one at the same or an earlier time finds
    nothing to remove: it returns 0 and changes nothing. *)
Theorem cleanupExpiredContexts_again (w : World) (now : Z) (n : nat)
    (w' : World) (earlier : Z) :
  contextsAllocated w ->
  SalesforceCartClient.cleanupExpiredContexts now w = (Return n, w') ->
  earlier <= now ->
  SalesforceCartClient.cleanupExpiredContexts earlier w' = (Return 0%nat, w').
Proof.
  intros Hall Hrun Hle.
  rewrite (CleanupFacts.cleanupExpiredContexts_eq now w Hall) in Hrun.
  injection Hrun as _ <-.
  set (w' := set_cartItems _ _).
  assert (forall k c, contexts w' !! k = Some c ->
            contexts w !! k = Some c /\ expiredAt now w c = false) as Hkept.
  { intros k c. unfold w'. cbn [contexts set_cartItems set_contexts].
    rewrite CleanupFacts.lookup_contexts_cleaned.
    destruct (contexts w !! k) as [c'|]; cbn [mbind option_bind];
      [|discriminate].
    destruct (expiredAt now w c') eqn:Hexp; [discriminate|].
    intros [= <-]. auto. }
  assert (contextsAllocated w') as Hall'.
  { intros k c Hk. apply Hkept in Hk as [Hk _]. exact (Hall k c Hk). }
  rewrite (CleanupFacts.cleanupExpiredContexts_eq earlier w' Hall').
  assert (expiredKeys earlier w' (map_to_list (contexts w')) = [])
    as ->.
  { unfold expiredKeys. rewrite filter_nil_Forall; [reflexivity|].
    apply Forall_forall. intros [k c] Hin.
    apply elem_of_map_to_list, Hkept in Hin as [_ Hexp]. cbn [snd].
    revert Hexp. unfold expiredAt.
    change (contextObjects w') with (contextObjects w).
    destruct (contextObjects w !! c) as [context|]; [|discriminate].
    intros Hexp. apply bool_decide_eq_false_1 in Hexp.
    rewrite bool_decide_false
      by (destruct (expiresAt context); simpl in *; lia).
    try discriminate. }
  reflexivity.
Qed.

Lemma cleanupExpiredContexts_again_witness :
  let w' :=
    snd (SalesforceCartClient.cleanupExpiredContexts 400000 Scenario.wPhone) in
  SalesforceCartClient.cleanupExpiredContexts 400000 w' = (Return 0%nat, w').
Proof.
  apply (cleanupExpiredContexts_again Scenario.wPhone 400000 1%nat _ 400000
           Scenario_wPhone_allocated).
  - vm_compute. reflexivity.
  - vm_compute. discriminate.
Defined.

(* ===================================================================== *)
(** ** The rules as functions of the items *)
(* ===================================================================== *)

(** X13: what [canAddItemType] guards.  With a configured maximum that is
    an integer, a valid cart that receives an item of a type that
    [canAddItemType] allows stays valid, provided the quantity of the item
    is a positive integer and, for a plan, the cart holds a phone: these
    two are not checked by [canAddItemType].  (With the maximum 2.5 a valid
    cart of two items may receive a third and is then invalid.) *)
Theorem allowed_item_keeps_cart_valid (config : CartConfig)
    (items : list CartItem) (item : CartItem) :
  isInteger (maxItemsPerCart config) = true ->
  valid (validateCartRules config items) = true ->
  allowed (canAddItemType config items (productType item)) = true ->
  invalidQuantity item = false ->
  (productType item = PLAN -> existsb (isType PHONE) items = true) ->
  valid (validateCartRules config (push items item)) = true.
Proof.
  rewrite !valid_validateCartRules. intros Hint Hvalid Hallowed Hq Hplan.
  apply andb_prop in Hvalid as [Hvalid Hinvalid].
  apply andb_prop in Hvalid as [Hvalid Hplans].
  apply andb_prop in Hvalid as [Hvalid Hphones].
  apply andb_prop in Hvalid as [Hmax Hneeds].
  apply negb_true_iff in Hmax, Hneeds, Hphones, Hplans, Hinvalid.
  apply Nat.ltb_ge in Hphones, Hplans, Hinvalid.
  unfold canAddItemType in Hallowed.
  destruct (geZ (Z.of_nat (length items)) (maxItemsPerCart config)) eqn:Hfull;
    [discriminate Hallowed|].
  destruct (bool_decide (productType item = PHONE)
            && (1 <=? length (List.filter (isType PHONE) items))%nat)
    eqn:Hphone; [discriminate Hallowed|].
  destruct (bool_decide (productType item = PLAN)
            && (1 <=? length (List.filter (isType PLAN) items))%nat)
    eqn:Hplan2; [discriminate Hallowed|].
  clear Hallowed.
  rewrite !filter_push_length. unfold push at 1 2.
  rewrite length_app, existsb_app. cbn [length existsb]. rewrite Hq.
  rewrite Nat.add_0_r, orb_false_r.
  assert (gtZ (Z.of_nat (length items + 1)) (maxItemsPerCart config) = false)
    as ->.
  { rewrite Nat2Z.inj_add. apply geZ_gtZ_succ; assumption. }
  assert ((0 <? length (List.filter invalidQuantity items))%nat = false)
    as -> by (apply Nat.ltb_ge; exact Hinvalid).
  change (isType PHONE item) with (bool_decide (productType item = PHONE)).
  change (isType PLAN item) with (bool_decide (productType item = PLAN)).
  revert Hphone Hplan2 Hplan.
  destruct (productType item); intros Hphone Hplan2 Hplan;
    rewrite ?(bool_decide_true (PHONE = PHONE)),
      ?(bool_decide_true (PLAN = PLAN)),
      ?(bool_decide_false (PHONE = PLAN)),
      ?(bool_decide_false (PLAN = PHONE)),
      ?(bool_decide_false (ADDON = PHONE)),
      ?(bool_decide_false (ADDON = PLAN)) in * by congruence;
    cbn [andb] in Hphone, Hplan2;
    rewrite ?Nat.add_0_r, ?orb_true_r, ?orb_false_r, ?andb_false_r.
  - (* a phone *)
    apply Nat.leb_gt in Hphone.
    replace (1 <? length (List.filter (isType PHONE) items) + 1)%nat
      with false by (symmetry; apply Nat.ltb_ge; lia).
    replace (1 <? length (List.filter (isType PLAN) items))%nat
      with false by (symmetry; apply Nat.ltb_ge; lia).
    reflexivity.
  - (* a plan *)
    apply Nat.leb_gt in Hplan2.
    rewrite (Hplan eq_refl). cbn [negb]. rewrite andb_false_r.
    replace (1 <? length (List.filter (isType PHONE) items))%nat
      with false by (symmetry; apply Nat.ltb_ge; lia).
    replace (1 <? length (List.filter (isType PLAN) items) + 1)%nat
      with false by (symmetry; apply Nat.ltb_ge; lia).
    reflexivity.
  - (* an add-on *)
    rewrite Hneeds.
    replace (1 <? length (List.filter (isType PHONE) items))%nat
      with false by (symmetry; apply Nat.ltb_ge; lia).
    replace (1 <? length (List.filter (isType PLAN) items))%nat
      with false by (symmetry; apply Nat.ltb_ge; lia).
    reflexivity.
Qed.

Lemma allowed_item_keeps_cart_valid_witness :
  valid (validateCartRules defaultCartConfig
           (push [Scenario.phoneItem] Scenario.planItem)) = true.
Proof.
  apply (allowed_item_keeps_cart_valid defaultCartConfig [Scenario.phoneItem]
           Scenario.planItem).
  - vm_compute. reflexivity.
  - vm_compute. reflexivity.
  - vm_compute. reflexivity.
  - vm_compute. reflexivity.
  - intros _. vm_compute. reflexivity.
Defined.

(** X14: the rules do not read the order of the items: [validateCartRules]
    and [canAddItemType] give the same answer for a cart and for any
    rearrangement of it. *)
Theorem rules_ignore_the_order_of_items (config : CartConfig)
    (items items' : list CartItem) (t : ProductType) :
  items ≡ₚ items' ->
  validateCartRules config items = validateCartRules config items' /\
  canAddItemType config items t = canAddItemType config items' t.
Proof.
  intros Hperm. unfold validateCartRules, canAddItemType. cbv zeta.
  rewrite (Permutation_length Hperm).
  rewrite (existsb_Permutation (isType PHONE) _ _ Hperm).
  rewrite (filter_length_Permutation (isType PLAN) _ _ Hperm).
  rewrite (filter_length_Permutation (isType PHONE) _ _ Hperm).
  rewrite (filter_length_Permutation invalidQuantity _ _ Hperm).
  split; reflexivity.
Qed.

Lemma rules_ignore_the_order_of_items_witness :
  validateCartRules defaultCartConfig [Scenario.phoneItem; Scenario.planItem]
  = validateCartRules defaultCartConfig [Scenario.planItem; Scenario.phoneItem]
  /\
  canAddItemType defaultCartConfig [Scenario.phoneItem; Scenario.planItem]
    ADDON
  = canAddItemType defaultCartConfig [Scenario.planItem; Scenario.phoneItem]
      ADDON.
Proof.
  apply (rules_ignore_the_order_of_items defaultCartConfig
           [Scenario.phoneItem; Scenario.planItem]
           [Scenario.planItem; Scenario.phoneItem] ADDON).
  apply perm_swap.
Defined.

(* ===================================================================== *)
(** ** The service: new, unknown and live carts *)
(* ===================================================================== *)



(** X16: [addItem] looks the product up first: with an unknown product id it
    throws [NotFoundError('Product', id)] whatever the cart is (unknown,
    expired, full) and changes nothing; every operation on a cart id that
    [initializeCart] never returned throws [NotFoundError('Cart', id)] and
    changes nothing. *)
Theorem unknown_ids_are_not_found (w : World) (cartId pid itemId : string)
    (q : number) (now : Clock) :
  (CartService.getProduct pid = None ->
   CartService.addItem cartId pid q now w
   = (Throw (NotFoundError "Product" pid), w)) /\
  (contextCache w !! cartId = None ->
   CartService.getCart cartId now w
   = (Throw (NotFoundError "Cart" cartId), w) /\
   (is_Some (CartService.getProduct pid) ->
    CartService.addItem cartId pid q now w
    = (Throw (NotFoundError "Cart" cartId), w)) /\
   CartService.updateItem cartId itemId q now w
   = (Throw (NotFoundError "Cart" cartId), w) /\
   CartService.removeItem cartId itemId now w
   = (Throw (NotFoundError "Cart" cartId), w) /\
   CartService.validateCart cartId now w
   = (Throw (NotFoundError "Cart" cartId), w)).
Proof.
  split.
  - unfold CartService.getProduct, CartService.addItem. intros ->.
    reflexivity.
  - intros Hnone.
    pose proof (ServiceFacts.ensureValidContext_unknown cartId now w Hnone)
      as Hthrow.
    split; [|split; [|split; [|split]]].
    + unfold CartService.getCart. call Hthrow. reflexivity.
    + unfold CartService.getProduct, CartService.addItem.
      intros [product ->]. call Hthrow. reflexivity.
    + unfold CartService.updateItem. call Hthrow. reflexivity.
    + unfold CartService.removeItem. call Hthrow. reflexivity.
    + unfold CartService.validateCart. call Hthrow. reflexivity.
Qed.

(** X17: [getCart] on a live cart returns the client's items and makes the
    client's array the shadow array of the cart, whatever the shadow store
    held: afterwards the two stores are one array, and a second [getCart],
    in a call during which the cart is live too, returns the same items and
    totals and changes nothing. *)
Theorem getCart_makes_shadow_the_client_array (w : World) (cartId : string)
    (now later : Clock) (content : list CartItem) :
  liveCart w cartId now content ->
  liveCart w cartId later content ->
  exists w1 a,
    CartService.getCart cartId now w
    = (Return (cartView (config w) cartId content now), w1) /\
    shadowState w1 !! cartId = Some a /\
    (exists c context,
       contextCache w1 !! cartId = Some c /\
       contextObjects w1 !! c = Some context /\
       cartItems w1 !! contextId context = Some a) /\
    arrays w1 = arrays w /\
    arrays w1 !! a = Some content /\
    CartService.getCart cartId later w1
    = (Return (cartView (config w) cartId content later), w1).
Proof.
  intros Hnow Hlater.
  destruct (liveCart_twice w cartId now later content content Hnow Hlater)
    as (_ & c & context & a & Hc & Ho & Hreg & Hlt & Hlt' & Hi & Ha).
  set (w1 := set_shadowState (<[cartId := a]> (shadowState w)) w).
  exists w1, a.
  split; [exact (ExpiryFacts.getCart_live w cartId now c context a content
                   Hc Ho Hreg Hlt Hi Ha)|].
  split; [apply lookup_insert_eq|].
  split; [exists c, context; auto|].
  split; [reflexivity|]. split; [exact Ha|].
  rewrite (ExpiryFacts.getCart_live w1 cartId later c context a content
             Hc Ho Hreg Hlt' Hi Ha).
  f_equal. apply World_eq; try reflexivity. simpl.
  apply insert_insert_eq.
Qed.

Lemma getCart_makes_shadow_the_client_array_witness :
  exists w1 a,
    CartService.getCart Scenario.cart1 (instant 3000) Scenario.wPhone
    = (Return (cartView (config Scenario.wPhone) Scenario.cart1
                 [Scenario.phoneItem] (instant 3000)), w1) /\
    shadowState w1 !! Scenario.cart1 = Some a /\
    (exists c context,
       contextCache w1 !! Scenario.cart1 = Some c /\
       contextObjects w1 !! c = Some context /\
       cartItems w1 !! contextId context = Some a) /\
    arrays w1 = arrays Scenario.wPhone /\
    arrays w1 !! a = Some [Scenario.phoneItem] /\
    CartService.getCart Scenario.cart1 (instant 3500) w1
    = (Return (cartView (config Scenario.wPhone) Scenario.cart1
                 [Scenario.phoneItem] (instant 3500)), w1).
Proof.
  apply (getCart_makes_shadow_the_client_array Scenario.wPhone Scenario.cart1
           (instant 3000) (instant 3500) [Scenario.phoneItem]).
  - exact (Scenario_wPhone_live (instant 3000) (fun _ => eq_refl)).
  - exact (Scenario_wPhone_live (instant 3500) (fun _ => eq_refl)).
Defined.

(** X18: on a cart that is live during three calls, [getCart] and then an
    [addItem] that the rules allow: the one array that is now both stores
    receives the new item twice.  The view, the client and the shadow store
    hold the former items and two copies of the new item, under one id;
    when it is a phone, [validateCart] then reports the cart. *)
Theorem addItem_after_getCart_appends_twice (w : World) (cartId : string)
    (now second third : Clock) (content : list CartItem) (pid : string)
    (product : Product) (q : number) :
  liveCart w cartId now content ->
  liveCart w cartId second content ->
  liveCart w cartId third content ->
  CartService.products !! pid = Some product ->
  allowed (canAddItemType (config w) content (type product)) = true ->
  exists view w1 cart w2 item,
    CartService.getCart cartId now w = (Return view, w1) /\
    CartService.addItem cartId pid q second w1 = (Return cart, w2) /\
    items cart = (content ++ [item; item])%list /\
    productId item = product_id product /\
    quantity item = q /\
    liveItemsOf w2 cartId = Some (items cart) /\
    shadowItemsOf w2 cartId = Some (items cart) /\
    (type product = PHONE ->
     exists result,
       CartService.validateCart cartId third w2 = (Return result, w2) /\
       valid result = false /\
       In "Only one phone is allowed per cart" (errors result)).
Proof.
  intros Hnow Hsecond Hthird Hproduct Hallowed.
  destruct (liveCart_twice w cartId now second content content Hnow Hsecond)
    as (_ & c & context & a & Hc & Ho & Hreg & Hlt & Hlt2 & Hi & Ha).
  assert (forall r, before (third r) (expiresAt context)) as Hlt3.
  { destruct Hthird as (c' & context' & a' & Hc' & Ho' & _ & Hlt3 & _).
    rewrite Hc in Hc'. injection Hc' as <-.
    rewrite Ho in Ho'. injection Ho' as <-. exact Hlt3. }
  set (w1 := set_shadowState (<[cartId := a]> (shadowState w)) w).
  assert (shadowState w1 !! cartId = Some a) as Hs1 by apply lookup_insert_eq.
  pose proof (MutationFacts.addItem_allowed w1 cartId second c context a
                content a content Hc Ho Hreg Hlt2 Hi Ha Hs1 Ha pid product q
                Hproduct Hallowed) as Hadd.
  cbv zeta in Hadd. unfold shadowAfter in Hadd.
  rewrite decide_True in Hadd by reflexivity.
  rewrite list_insert_insert_eq in Hadd.
  set (item := itemOfRequest _ _) in Hadd.
  set (w2 := set_arrays _ _) in Hadd.
  assert (push (push content item) item = (content ++ [item; item])%list)
    as Htwice.
  { unfold push. rewrite <- app_assoc. reflexivity. }
  assert (arrays w2 !! a = Some (content ++ [item; item])%list) as Ha2.
  { simpl. rewrite <- Htwice. apply list_lookup_insert_eq.
    eapply lookup_lt_Some, Ha. }
  exists (cartView (config w) cartId content now), w1,
    (cartView (config w) cartId (content ++ [item; item])%list second), w2,
    item.
  split; [exact (ExpiryFacts.getCart_live w cartId now c context a content
                   Hc Ho Hreg Hlt Hi Ha)|].
  split; [rewrite Hadd, Htwice; reflexivity|].
  split; [reflexivity|]. split; [reflexivity|]. split; [reflexivity|].
  split; [|split].
  - rewrite (liveItemsOf_eq w2 cartId c context a Hc Ho Hi). exact Ha2.
  - rewrite (shadowItemsOf_eq w2 cartId a Hs1). exact Ha2.
  - intros Hphone.
    assert (liveCart w2 cartId third (content ++ [item; item])%list)
      as Hlive2.
    { exists c, context, a. repeat split; assumption. }
    eexists. split;
      [exact (LiveFacts.validateCart_live w2 cartId third _ Hlive2)|].
    apply two_phones_reported.
    rewrite List.filter_app, length_app. simpl.
    unfold isType at 2 3. cbn [productType item itemOfRequest req_productType].
    rewrite Hphone. simpl. lia.
Qed.

Lemma addItem_after_getCart_appends_twice_witness :
  exists view w1 cart w2 item,
    CartService.getCart Scenario.cart1 (instant 2000) Scenario.w1
    = (Return view, w1) /\
    CartService.addItem Scenario.cart1 "phone_iphone15" 1 (instant 2500) w1
    = (Return cart, w2) /\
    items cart = [item; item] /\
    productId item = "phone_iphone15" /\
    exists result,
      CartService.validateCart Scenario.cart1 (instant 3000) w2
      = (Return result, w2) /\
      valid result = false /\
      In "Only one phone is allowed per cart" (errors result).
Proof.
  assert (forall t, t < 301000 ->
            liveCart Scenario.w1 Scenario.cart1 (instant t) []) as Hlive.
  { intros t Ht. exists 0%nat, Scenario.context1, 0%nat.
    repeat split; try (vm_compute; reflexivity). intros r. exact Ht. }
  destruct (addItem_after_getCart_appends_twice Scenario.w1 Scenario.cart1
              (instant 2000) (instant 2500) (instant 3000) []
              "phone_iphone15"
              (CartService.mkProduct "phone_iphone15" "iPhone 15 Pro" PHONE
                 1399.99 None) 1)
    as (view & w1 & cart & w2 & item & Hget & Hadd & Hitems & Hpid & _ & _ & _
        & Hvalidate).
  - apply Hlive. reflexivity.
  - apply Hlive. reflexivity.
  - apply Hlive. reflexivity.
  - vm_compute. reflexivity.
  - vm_compute. reflexivity.
  - exists view, w1, cart, w2, item.
    split; [exact Hget|]. split; [exact Hadd|]. split; [exact Hitems|].
    split; [exact Hpid|]. apply Hvalidate. reflexivity.
Defined.

(** X19: on a cart that is live during two calls and whose two stores hold
    the same items, none of them under the id that [addItem] is about to
    give out, [removeItem] with the id of the new item undoes a successful
    [addItem]: both stores hold the former items again.  This is so too
    when the two stores are one array, which then held the new item
    twice. *)
Theorem addItem_then_removeItem (w : World) (cartId : string)
    (now later : Clock) (content : list CartItem) (pid : string) (q : number)
    (cart : Cart) (w1 : World) :
  liveCart w cartId now content ->
  liveCart w cartId later content ->
  shadowOf w cartId content ->
  Forall (fun item =>
            id item <> "item_" +:+ nanoidSource w (nanoidCalls w)) content ->
  CartService.addItem cartId pid q now w = (Return cart, w1) ->
  exists item w2,
    last (items cart) = Some item /\
    CartService.removeItem cartId (id item) later w1
    = (Return (cartView (config w) cartId content later), w2) /\
    liveItemsOf w2 cartId = Some content /\
    shadowItemsOf w2 cartId = Some content.
Proof.
  intros Hlive Hlater (s & Hs & Hsh) Hfresh Hrun.
  destruct (liveCart_twice w cartId now later content content Hlive Hlater)
    as (_ & c & context & a & Hc & Ho & Hreg & Hlt & Hlt' & Hi & Ha).
  assert (a < length (arrays w))%nat as Hla by (eapply lookup_lt_Some, Ha).
  assert (s < length (arrays w))%nat as Hls by (eapply lookup_lt_Some, Hsh).
  destruct (CartService.products !! pid) as [product|] eqn:Hproduct.
  2:{ unfold CartService.addItem in Hrun. rewrite Hproduct in Hrun.
      discriminate Hrun. }
  destruct (allowed (canAddItemType (config w) content (type product)))
    eqn:Hallowed.
  2:{ rewrite (LiveFacts.addItem_refused w cartId now content Hlive
                 pid product q Hproduct Hallowed) in Hrun.
      discriminate Hrun. }
  pose proof (MutationFacts.addItem_allowed w cartId now c context a content
                s content Hc Ho Hreg Hlt Hi Ha Hs Hsh pid product q
                Hproduct Hallowed) as Hadd.
  cbv zeta in Hadd. rewrite Hadd in Hrun. clear Hadd.
  set (item := itemOfRequest _ _) in Hrun.
  assert (id item = "item_" +:+ nanoidSource w (nanoidCalls w)) as Hid
    by reflexivity.
  injection Hrun as <- <-.
  set (w1 := set_arrays _ _).
  exists item.
  assert (forall l, last (push l item) = Some item) as Hlast
    by (intros l; apply last_snoc).
  (* what the two references hold after [addItem] *)
  assert (exists rest,
            arrays w1 !! a = Some (content ++ item :: rest)%list /\
            arrays w1 !! s = Some (content ++ item :: rest)%list /\
            (s = a -> rest = [item]) /\ (s <> a -> rest = []))
    as (rest & Ha1 & Hs1 & Hsame & Hother).
  { unfold w1, shadowAfter. cbn [arrays set_arrays set_nanoidCalls].
    destruct (decide (s = a)) as [->|Hne].
    - exists [item]. rewrite list_insert_insert_eq.
      rewrite list_lookup_insert_eq by exact Hla.
      unfold push. rewrite <- app_assoc.
      split; [reflexivity|]. split; [reflexivity|].
      split; [reflexivity | contradiction].
    - exists []. rewrite list_lookup_insert_ne by exact Hne.
      rewrite list_lookup_insert_eq by exact Hla.
      rewrite list_lookup_insert_eq by (rewrite length_insert; exact Hls).
      unfold push. split; [reflexivity|]. split; [reflexivity|].
      split; [contradiction | reflexivity]. }
  pose proof (MutationFacts.removeItem_found w1 cartId later c context a
                (content ++ item :: rest)%list s (content ++ item :: rest)%list
                Hc Ho Hreg Hlt' Hi Ha1 Hs Hs1 (id item) (length content) item
                (list_find_fresh (id item) content rest item Hfresh eq_refl))
    as Hremove.
  cbv zeta in Hremove. rewrite delete_middle in Hremove.
  assert (match findIndex (id item)
                  (shadowAfter s a (content ++ item :: rest)
                     (content ++ rest))%list with
          | Some index =>
              delete index
                (shadowAfter s a (content ++ item :: rest)
                   (content ++ rest))%list
          | None =>
              shadowAfter s a (content ++ item :: rest)%list
                (content ++ rest)%list
          end = content) as Hshadow.
  { unfold shadowAfter, findIndex. destruct (decide (s = a)) as [Heq|Hne].
    - rewrite (Hsame Heq).
      rewrite (list_find_fresh (id item) content [] item Hfresh eq_refl).
      cbn [fmap option_fmap option_map fst].
      rewrite delete_middle. apply app_nil_r.
    - rewrite (list_find_fresh (id item) content rest item Hfresh eq_refl).
      cbn [fmap option_fmap option_map fst].
      rewrite delete_middle, (Hother Hne). apply app_nil_r. }
  rewrite Hshadow in Hremove. clear Hshadow.
  eexists. split; [apply Hlast|]. split; [exact Hremove|].
  assert (length (arrays w1) = length (arrays w)) as Hlen.
  { unfold w1. cbn [arrays set_arrays set_nanoidCalls].
    rewrite !length_insert. reflexivity. }
  split.
  - erewrite liveItemsOf_eq by eassumption.
    cbn [arrays set_arrays].
    destruct (decide (s = a)) as [->|Hne].
    + apply list_lookup_insert_eq. rewrite length_insert, Hlen. exact Hla.
    + rewrite list_lookup_insert_ne by exact Hne.
      rewrite list_lookup_insert_eq by (rewrite Hlen; exact Hla).
      rewrite (Hother Hne). f_equal. apply app_nil_r.
  - erewrite shadowItemsOf_eq by exact Hs.
    cbn [arrays set_arrays].
    apply list_lookup_insert_eq. rewrite length_insert, Hlen. exact Hls.
Qed.

Lemma addItem_then_removeItem_witness :
  exists cart w1 item w2,
    CartService.addItem Scenario.cart1 "addon_insurance" 1 (instant 3000)
      Scenario.wPhone
    = (Return cart, w1) /\
    last (items cart) = Some item /\
    CartService.removeItem Scenario.cart1 (id item) (instant 3500) w1
    = (Return (cartView (config Scenario.wPhone) Scenario.cart1
                 [Scenario.phoneItem] (instant 3500)), w2) /\
    liveItemsOf w2 Scenario.cart1 = Some [Scenario.phoneItem] /\
    shadowItemsOf w2 Scenario.cart1 = Some [Scenario.phoneItem].
Proof.
  assert (exists cart,
            CartService.addItem Scenario.cart1 "addon_insurance" 1
              (instant 3000) Scenario.wPhone
            = (Return cart,
               snd (CartService.addItem Scenario.cart1 "addon_insurance" 1
                      (instant 3000) Scenario.wPhone))) as [cart Hrun].
  { eexists. vm_compute. reflexivity. }
  assert (Forall (fun item =>
                    id item <> "item_" +:+ nanoidSource Scenario.wPhone
                                             (nanoidCalls Scenario.wPhone))
            [Scenario.phoneItem]) as Hfresh.
  { constructor; [vm_compute; discriminate | constructor]. }
  destruct (addItem_then_removeItem Scenario.wPhone Scenario.cart1
              (instant 3000) (instant 3500) [Scenario.phoneItem]
              "addon_insurance" 1 cart _
              (Scenario_wPhone_live (instant 3000) (fun _ => eq_refl))
              (Scenario_wPhone_live (instant 3500) (fun _ => eq_refl))
              Scenario_wPhone_shadow Hfresh Hrun)
    as (item & w2 & Hlast & Hremove & Hlive & Hshadow).
  exists cart. eexists. exists item, w2.
  split; [exact Hrun|]. auto.
Defined.

(** X20: on a live cart [getCart] and [validateCart] do not throw, and a
    call of the service that throws has changed nothing; what it throws is
    the unknown product, the refusal of [canAddItemType] or the client's
    [ITEM_NOT_FOUND]. *)
Theorem live_cart_throw_changes_nothing (w : World) (cartId : string)
    (now : Clock) (content shadow : list CartItem) (pid itemId : string)
    (q : number) (e : Exn) (w' : World) :
  liveCart w cartId now content ->
  shadowOf w cartId shadow ->
  (exists w1,
     CartService.getCart cartId now w
     = (Return (cartView (config w) cartId content now), w1)) /\
  CartService.validateCart cartId now w
  = (Return (validateCartRules (config w) content), w) /\
  (CartService.getCart cartId now w = (Throw e, w') \/
   CartService.addItem cartId pid q now w = (Throw e, w') \/
   CartService.updateItem cartId itemId q now w = (Throw e, w') \/
   CartService.removeItem cartId itemId now w = (Throw e, w') \/
   CartService.validateCart cartId now w = (Throw e, w') ->
   w' = w /\
   (e = NotFoundError "Product" pid \/
    (exists product,
       CartService.products !! pid = Some product /\
       e = Error (default ""
             (reason (canAddItemType (config w) content (type product))))) \/
    e = SalesforceCartClient.ITEM_NOT_FOUND)).
Proof.
  intros Hlive (s & Hs & Hsh).
  pose proof Hlive as (c & context & a & Hc & Ho & Hreg & Hlt & Hi & Ha).
  pose proof (ExpiryFacts.getCart_live w cartId now c context a content
                Hc Ho Hreg Hlt Hi Ha) as Hget.
  pose proof (LiveFacts.validateCart_live w cartId now content Hlive)
    as Hvalidate.
  split; [eexists; exact Hget|]. split; [exact Hvalidate|].
  intros [H | [H | [H | [H | H]]]].
  - rewrite Hget in H. discriminate H.
  - destruct (CartService.products !! pid) as [product|] eqn:Hproduct.
    2:{ unfold CartService.addItem in H. rewrite Hproduct in H.
        injection H as <- <-. auto. }
    destruct (allowed (canAddItemType (config w) content (type product)))
      eqn:Hallowed.
    + pose proof (MutationFacts.addItem_allowed w cartId now c context a
                    content s shadow Hc Ho Hreg Hlt Hi Ha Hs Hsh pid product q
                    Hproduct Hallowed) as Hadd.
      cbv zeta in Hadd. rewrite Hadd in H. discriminate H.
    + rewrite (LiveFacts.addItem_refused w cartId now content Hlive
                 pid product q Hproduct Hallowed) in H.
      injection H as <- <-. split; [reflexivity|]. right. left. eauto.
  - destruct (list_find (fun x => id x = itemId) content) as [[i item]|]
      eqn:Hfind.
    + pose proof (MutationFacts.updateItem_found w cartId now c context a
                    content s shadow Hc Ho Hreg Hlt Hi Ha Hs Hsh itemId q i
                    item Hfind) as Hok.
      cbv zeta in Hok. rewrite Hok in H. discriminate H.
    + rewrite (MutationFacts.updateItem_missing w cartId now c context a
                 content Hc Ho Hreg Hlt Hi Ha itemId q Hfind) in H.
      injection H as <- <-. auto.
  - destruct (list_find (fun x => id x = itemId) content) as [[i item]|]
      eqn:Hfind.
    + pose proof (MutationFacts.removeItem_found w cartId now c context a
                    content s shadow Hc Ho Hreg Hlt Hi Ha Hs Hsh itemId i
                    item Hfind) as Hok.
      cbv zeta in Hok. rewrite Hok in H. discriminate H.
    + rewrite (MutationFacts.removeItem_missing w cartId now c context a
                 content Hc Ho Hreg Hlt Hi Ha itemId Hfind) in H.
      injection H as <- <-. auto.
  - rewrite Hvalidate in H. discriminate H.
Qed.

Lemma live_cart_throw_changes_nothing_witness :
  (exists w1,
     CartService.getCart Scenario.cart1 (instant 3000) Scenario.wPhone
     = (Return (cartView (config Scenario.wPhone) Scenario.cart1
                  [Scenario.phoneItem] (instant 3000)), w1)) /\
  CartService.validateCart Scenario.cart1 (instant 3000) Scenario.wPhone
  = (Return (validateCartRules (config Scenario.wPhone)
               [Scenario.phoneItem]), Scenario.wPhone) /\
  Scenario.wPhone = Scenario.wPhone /\
  (Error "Only one phone is allowed per cart"
   = NotFoundError "Product" "phone_samsung_s24" \/
   (exists product,
      CartService.products !! "phone_samsung_s24" = Some product /\
      Error "Only one phone is allowed per cart"
      = Error (default ""
          (reason (canAddItemType (config Scenario.wPhone)
                     [Scenario.phoneItem] (type product))))) \/
   Error "Only one phone is allowed per cart"
   = SalesforceCartClient.ITEM_NOT_FOUND).
Proof.
  destruct (live_cart_throw_changes_nothing Scenario.wPhone Scenario.cart1
              (instant 3000) [Scenario.phoneItem] [Scenario.phoneItem]
              "phone_samsung_s24" "item_test-id-3" 1
              (Error "Only one phone is allowed per cart") Scenario.wPhone
              (Scenario_wPhone_live (instant 3000) (fun _ => eq_refl))
              Scenario_wPhone_shadow)
    as (Hget & Hvalidate & Hthrow).
  split; [exact Hget|]. split; [exact Hvalidate|].
  apply Hthrow. right. left. vm_compute. reflexivity.
Defined.

(* ===================================================================== *)
(** ** The service: after an expiry *)
(* ===================================================================== *)

(** X21: on a cart whose context the service finds expired, the client
    accepting the new context at every clock reading of the call,
    [validateCart] judges the items of the shadow store: the replay changes
    the ids only, which no rule reads. *)
Theorem validateCart_after_expiry (w : World) (cartId : string) (c : ref)
    (context : SalesforceContext) (s : ref) (shadow : list CartItem)
    (now : Clock) :
  contextCache w !! cartId = Some c ->
  contextObjects w !! c = Some context ->
  shadowState w !! cartId = Some s ->
  arrays w !! s = Some shadow ->
  expired now context ->
  recoverable w cartId now ->
  exists w',
    CartService.validateCart cartId now w
    = (Return (validateCartRules (config w) shadow), w') /\
    shadowItemsOf w' cartId = Some shadow.
Proof.
  intros Hc Ho Hs Hsh Hexpired Hfresh.
  exists (recovered cartId (now InCreateContext) shadow w). split.
  - rewrite (RecoveringFacts.validateCart_recovering w cartId now c context s
               shadow Hc Ho Hexpired Hfresh Hs Hsh).
    rewrite validateCartRules_replayed. reflexivity.
  - erewrite shadowItemsOf_eq by exact Hs. simpl.
    rewrite lookup_app_l; [exact Hsh | eapply lookup_lt_Some, Hsh].
Qed.

Lemma validateCart_after_expiry_witness :
  exists w',
    CartService.validateCart Scenario.cart1 (instant 400000) Scenario.wPhone
    = (Return (validateCartRules (config Scenario.wPhone)
                 [Scenario.phoneItem]), w') /\
    shadowItemsOf w' Scenario.cart1 = Some [Scenario.phoneItem].
Proof.
  apply (validateCart_after_expiry Scenario.wPhone Scenario.cart1 0%nat
           Scenario.context1 1%nat [Scenario.phoneItem] (instant 400000));
    vm_compute; reflexivity.
Defined.

(** X22: on a cart whose context the service finds expired, the client
    accepting the new context at every clock reading of the call, [getCart]
    returns the subtotal, the tax and the total of the items of the shadow
    store, and as many items. *)
Theorem getCart_after_expiry_totals (w : World) (cartId : string) (c : ref)
    (context : SalesforceContext) (s : ref) (shadow : list CartItem)
    (now : Clock) :
  contextCache w !! cartId = Some c ->
  contextObjects w !! c = Some context ->
  shadowState w !! cartId = Some s ->
  arrays w !! s = Some shadow ->
  expired now context ->
  recoverable w cartId now ->
  exists cart w',
    CartService.getCart cartId now w = (Return cart, w') /\
    length (items cart) = length shadow /\
    subtotal cart = calculateSubtotal shadow /\
    tax cart = calculateTax (config w) (calculateSubtotal shadow) /\
    total cart
    = calculateTotal (calculateSubtotal shadow)
        (calculateTax (config w) (calculateSubtotal shadow)).
Proof.
  intros Hc Ho Hs Hsh Hexpired Hfresh. eexists _, _. split.
  - exact (RecoveringFacts.getCart_recovering w cartId now c context s shadow
             Hc Ho Hexpired Hfresh Hs Hsh).
  - unfold cartView. cbn [items subtotal tax total].
    rewrite calculateSubtotal_replayed, replayed_length. repeat split.
Qed.

Lemma getCart_after_expiry_totals_witness :
  exists cart w',
    CartService.getCart Scenario.cart1 (instant 400000) Scenario.wPhone
    = (Return cart, w') /\
    length (items cart) = 1%nat /\
    subtotal cart = 1399.99%float /\
    tax cart = 182%float /\
    total cart = 1581.99%float.
Proof.
  destruct (getCart_after_expiry_totals Scenario.wPhone Scenario.cart1 0%nat
              Scenario.context1 1%nat [Scenario.phoneItem] (instant 400000))
    as (cart & w' & Hrun & Hlen & Hsub & Htax & Htotal);
    try (vm_compute; reflexivity).
  exists cart, w'. split; [exact Hrun|]. split; [exact Hlen|].
  rewrite Hsub, Htax, Htotal. repeat split; vm_compute; reflexivity.
Defined.

(** X23: [expireContext] on the context of a cart at the reading [now], then
    [getCart] in a call that reads the clock after the date that
    [expireContext] wrote, [new Date(now - 1000)]: the service sees the new
    date in the object it caches and recovers; when the client accepts the
    new context at every clock reading of the call, [getCart] returns the
    lines of the shadow store. *)
Theorem getCart_after_expireContext (w : World) (cartId : string)
    (context : SalesforceContext) (shadow : list CartItem) (now : Z)
    (t : Clock) :
  initializedCart w cartId context ->
  shadowOf w cartId shadow ->
  after (t InEnsureValidContext) (newDate (getTime now - 1000)%float) ->
  recoverable w cartId t ->
  exists w1 cart w2,
    SalesforceCartClient.expireContext (contextId context) now w
    = (Return tt, w1) /\
    CartService.getCart cartId t w1 = (Return cart, w2) /\
    line <$> items cart = line <$> shadow /\
    liveItemsOf w2 cartId = Some (items cart) /\
    shadowItemsOf w2 cartId = Some (items cart).
Proof.
  intros (c & a & content & s' & shadow' & Hc & Ho & Hreg & Hi & Ha & _ & _)
    (s & Hs & Hsh) Ht Hfresh.
  set (date := newDate (getTime now - 1000)%float) in *.
  set (w1 := set_contextObjects
               (<[c := set_expiresAt date context]> (contextObjects w)) w).
  assert (contextObjects w1 !! c = Some (set_expiresAt date context)) as Ho1.
  { simpl. apply list_lookup_insert_eq. eapply lookup_lt_Some, Ho. }
  assert (expired t (set_expiresAt date context)) as Hexpired by exact Ht.
  exists w1. eexists _, _.
  split; [exact (ClientFacts2.expireContext_eq w _ c context now Hreg Ho)|].
  split.
  { exact (RecoveringFacts.getCart_recovering w1 cartId t c _ s shadow
             Hc Ho1 Hexpired Hfresh Hs Hsh). }
  split; [apply replayed_line|].
  cbn [items cartView]. split.
  - rewrite (liveItemsOf_eq _ cartId (length (contextObjects w1))
               (freshContext cartId (t InCreateContext) w1)
               (length (arrays w1))).
    + simpl. apply list_lookup_middle. reflexivity.
    + apply lookup_insert_eq.
    + simpl. apply list_lookup_middle. reflexivity.
    + apply lookup_insert_eq.
  - erewrite shadowItemsOf_eq by apply lookup_insert_eq.
    simpl. apply list_lookup_middle. reflexivity.
Qed.

Lemma getCart_after_expireContext_witness :
  exists w1 cart w2,
    SalesforceCartClient.expireContext "sf_ctx_test-id-2" 2500 Scenario.wPhone
    = (Return tt, w1) /\
    CartService.getCart Scenario.cart1 (instant 3000) w1 = (Return cart, w2) /\
    line <$> items cart = line <$> [Scenario.phoneItem] /\
    liveItemsOf w2 Scenario.cart1 = Some (items cart) /\
    shadowItemsOf w2 Scenario.cart1 = Some (items cart).
Proof.
  apply (getCart_after_expireContext Scenario.wPhone Scenario.cart1
           Scenario.context1 [Scenario.phoneItem] 2500 (instant 3000)).
  - exact Scenario_wPhone_initialized.
  - exact Scenario_wPhone_shadow.
  - vm_compute. reflexivity.
  - intros r. vm_compute. reflexivity.
Defined.

(** X24: [clearContext] on the context of a cart gives the context a new,
    empty array and leaves the shadow store alone; the next [getCart], in a
    call that reads the clock no earlier and during which the cart is live,
    returns an empty cart and replaces the shadow store by the empty array:
    while its context lives, the client decides what the cart holds. *)
Theorem getCart_after_clearContext (w : World) (cartId : string)
    (now : Clock) (content shadow : list CartItem) (t : Z) :
  liveCart w cartId now content ->
  shadowOf w cartId shadow ->
  t <= now InEnsureValidContext ->
  exists c context w1 w2,
    contextCache w !! cartId = Some c /\
    contextObjects w !! c = Some context /\
    SalesforceCartClient.clearContext (contextId context) t w
    = (Return tt, w1) /\
    liveItemsOf w1 cartId = Some [] /\
    shadowItemsOf w1 cartId = Some shadow /\
    CartService.getCart cartId now w1
    = (Return (cartView (config w) cartId [] now), w2) /\
    shadowItemsOf w2 cartId = Some [].
Proof.
  intros (c & context & a & Hc & Ho & Hreg & Hlt & Hi & Ha) (s & Hs & Hsh) Ht.
  assert (before t (expiresAt context)) as Hclear.
  { specialize (Hlt InEnsureValidContext).
    destruct (expiresAt context); simpl in *; lia. }
  set (w1 := set_cartItems
               (<[contextId context := length (arrays w)]> (cartItems w))
               (set_arrays (arrays w ++ [[]]) w)).
  assert (cartItems w1 !! contextId context = Some (length (arrays w))) as Hi1
    by apply lookup_insert_eq.
  assert (arrays w1 !! length (arrays w) = Some []) as Ha1
    by (simpl; apply list_lookup_middle; reflexivity).
  exists c, context, w1. eexists.
  split; [exact Hc|]. split; [exact Ho|].
  split; [exact (ClientFacts2.clearContext_eq w _ c context t Hreg Ho
                   Hclear)|].
  split; [rewrite (liveItemsOf_eq w1 cartId c context _ Hc Ho Hi1); exact Ha1|].
  split.
  { rewrite (shadowItemsOf_eq w1 cartId s Hs). simpl.
    rewrite lookup_app_l; [exact Hsh | eapply lookup_lt_Some, Hsh]. }
  split.
  { exact (ExpiryFacts.getCart_live w1 cartId now c context _ []
             Hc Ho Hreg Hlt Hi1 Ha1). }
  erewrite shadowItemsOf_eq by apply lookup_insert_eq. exact Ha1.
Qed.

Lemma getCart_after_clearContext_witness :
  exists c context w1 w2,
    contextCache Scenario.wPhone !! Scenario.cart1 = Some c /\
    contextObjects Scenario.wPhone !! c = Some context /\
    SalesforceCartClient.clearContext (contextId context) 3000 Scenario.wPhone
    = (Return tt, w1) /\
    liveItemsOf w1 Scenario.cart1 = Some [] /\
    shadowItemsOf w1 Scenario.cart1 = Some [Scenario.phoneItem] /\
    CartService.getCart Scenario.cart1 (instant 3000) w1
    = (Return (cartView (config Scenario.wPhone) Scenario.cart1 []
                 (instant 3000)), w2)
    /\
    shadowItemsOf w2 Scenario.cart1 = Some [].
Proof.
  apply (getCart_after_clearContext Scenario.wPhone Scenario.cart1
           (instant 3000) [Scenario.phoneItem] [Scenario.phoneItem] 3000).
  - exact (Scenario_wPhone_live (instant 3000) (fun _ => eq_refl)).
  - exact Scenario_wPhone_shadow.
  - vm_compute. discriminate.
Defined.

(** X25: the cleanup does not show in [getCart]: for an initialized cart,
    [getCart] in a call that reads the clock not before the cleanup ends as
    it would have ended without the cleanup, with the same view or the same
    exception. *)
Theorem cleanupExpiredContexts_transparent_to_getCart (w : World)
    (cartId : string) (context : SalesforceContext) (now : Z) (n : nat)
    (w' : World) (t : Clock) :
  contextsAllocated w ->
  initializedCart w cartId context ->
  SalesforceCartClient.cleanupExpiredContexts now w = (Return n, w') ->
  (forall r, now <= t r) ->
  fst (CartService.getCart cartId t w') = fst (CartService.getCart cartId t w).
Proof.
  intros Hall (c & a & content & s & shadow & Hc & Ho & Hreg & Hi & Ha & Hs
               & Hsh) Hrun Hle.
  rewrite (CleanupFacts.cleanupExpiredContexts_eq now w Hall) in Hrun.
  injection Hrun as _ <-.
  set (w' := set_cartItems _ _).
  destruct (decide (expired t context)) as [Hexpired | Hkeep].
  { exact (RecoveringFacts.getCart_expired_outcome w cartId t c context s
             shadow Hc Ho Hexpired Hs Hsh _ _). }
  unfold CartService.getCart.
  call (ServiceFacts.ensureValidContext_kept w' cartId c context t
          Hc Ho Hkeep).
  call (ServiceFacts.ensureValidContext_kept w cartId c context t
          Hc Ho Hkeep).
  destruct (decide (before (t InGetCartItems) (expiresAt context)))
    as [Hlt | Hge].
  - assert (~ after now (expiresAt context)) as Hnot.
    { specialize (Hle InGetCartItems).
      destruct (expiresAt context); simpl in *; lia. }
    assert (contexts w' !! contextId context = Some c /\
            cartItems w' !! contextId context = Some a) as [Hreg' Hi'].
    { unfold w'. cbn [contexts cartItems set_cartItems set_contexts].
      rewrite CleanupFacts.lookup_contexts_cleaned,
        CleanupFacts.lookup_cartItems_cleaned, Hreg.
      cbn [mbind option_bind]. unfold expiredAt. rewrite Ho.
      rewrite bool_decide_false by exact Hnot. auto. }
    call (ClientFacts.getCartItems_live w' _ c context (t InGetCartItems)
            Hreg' Ho a Hlt Hi').
    call (ClientFacts.getCartItems_live w _ c context (t InGetCartItems)
            Hreg Ho a Hlt Hi).
    glue.
    rewrite (ServiceFacts.buildCart_Some cartId a content t
               (set_shadowState (<[cartId := a]> (shadowState w')) w') Ha).
    rewrite (ServiceFacts.buildCart_Some cartId a content t
               (set_shadowState (<[cartId := a]> (shadowState w)) w) Ha).
    reflexivity.
  - call (ClientFacts.getCartItems_expired w _ c context (t InGetCartItems)
            Hreg Ho Hge).
    assert (SalesforceCartClient.isContextValid (contextId context)
              (t InGetCartItems) w' = false) as Hrefused.
    { unfold SalesforceCartClient.isContextValid, w'.
      cbn [contexts contextObjects set_cartItems set_contexts].
      rewrite CleanupFacts.lookup_contexts_cleaned, Hreg.
      cbn [mbind option_bind]. unfold expiredAt. rewrite Ho.
      destruct (bool_decide (after now (expiresAt context)));
        [reflexivity|].
      rewrite Ho. apply bool_decide_eq_false_2, Hge. }
    unfold SalesforceCartClient.getCartItems. glue.
    rewrite Hrefused. reflexivity.
Qed.

Lemma cleanupExpiredContexts_transparent_to_getCart_witness :
  let w' :=
    snd (SalesforceCartClient.cleanupExpiredContexts 400000 Scenario.wPhone) in
  fst (CartService.getCart Scenario.cart1 (instant 500000) w')
  = fst (CartService.getCart Scenario.cart1 (instant 500000) Scenario.wPhone).
Proof.
  apply (cleanupExpiredContexts_transparent_to_getCart Scenario.wPhone
           Scenario.cart1 Scenario.context1 400000 1%nat _ (instant 500000)
           Scenario_wPhone_allocated Scenario_wPhone_initialized).
  - vm_compute. reflexivity.
  - intros r. vm_compute. discriminate.
Defined.

(* ===================================================================== *)
(** ** The routes *)
(* ===================================================================== *)

(** X26: an item that [canAddItemType] refuses is answered with status 500,
    "Internal Server Error", and the cart is as it was; the reason (one
    phone, one plan, the maximum) is the [detail] of the body only when
    [config.server.env] is "development", and otherwise the body does not
    carry it. *)
Theorem refused_item_is_answered_500 (env : string) (trace : Exn -> string)
    (req : Request) (now : Clock) (w : World) (content : list CartItem)
    (product : Product) :
  liveCart w (params_cartId req) now content ->
  CartService.products !! body_productId req = Some product ->
  allowed (canAddItemType (config w) content (type product)) = false ->
  exists message,
    reason (canAddItemType (config w) content (type product)) = Some message /\
    handle env trace CartController.addItemToCart req now w
    = (Return
         {| res_status := 500;
            res_body :=
              Problem (internalServerError env message
                         (trace (Error message)) req
                         (now InErrorHandler)) |},
       w) /\
    (env = "development" ->
     detail (internalServerError env message (trace (Error message)) req
               (now InErrorHandler))
     = message) /\
    (env <> "development" ->
     detail (internalServerError env message (trace (Error message)) req
               (now InErrorHandler))
     = "An unexpected error occurred while processing your request").
Proof.
  intros Hlive Hproduct Hrefused.
  destruct (reason (canAddItemType (config w) content (type product)))
    as [message|] eqn:Hreason.
  2:{ revert Hrefused Hreason. unfold canAddItemType.
      repeat match goal with
             | |- context [if ?b then _ else _] => destruct b
             end; discriminate. }
  exists message. split; [reflexivity|]. split.
  - rewrite (handle_Next env trace _ req now w (Error message) w);
      [reflexivity|].
    unfold CartController.addItemToCart. cbv zeta.
    apply tryCatch_Throw.
    rewrite (LiveFacts.addItem_refused w _ now content Hlive _ product _
               Hproduct Hrefused).
    rewrite Hreason. reflexivity.
  - split; intros Henv; unfold internalServerError; cbn [detail].
    + rewrite bool_decide_true by exact Henv. reflexivity.
    + rewrite bool_decide_false by exact Henv. reflexivity.
Qed.

Lemma refused_item_is_answered_500_witness :
  let req :=
    Scenario.request Scenario.cart1 "" "phone_samsung_s24" 1 in
  handle "production" Scenario.noTrace CartController.addItemToCart req
    (instant 3000) Scenario.wPhone
  = (Return
       {| res_status := 500;
          res_body := Problem
            {| problem_type := None;
               title := "Internal Server Error";
               status := 500;
               detail :=
                 "An unexpected error occurred while processing your request";
               instance := path req;
               requestId := None;
               timestamp := 3000;
               problem_errors := None;
               stack := None |} |},
     Scenario.wPhone).
Proof.
  destruct (refused_item_is_answered_500 "production" Scenario.noTrace
              (Scenario.request Scenario.cart1 "" "phone_samsung_s24" 1)
              (instant 3000) Scenario.wPhone [Scenario.phoneItem]
              (CartService.mkProduct "phone_samsung_s24" "Samsung Galaxy S24"
                 PHONE 1199.99 None))
    as (message & _ & Hrun & _).
  - exact (Scenario_wPhone_live (instant 3000) (fun _ => eq_refl)).
  - vm_compute. reflexivity.
  - vm_compute. reflexivity.
  - intros req. exact Hrun.
Defined.

(** X27: a cart id that [initializeCart] never returned is answered with
    status 404 on the five routes of a cart, with "Cart with ID '...' does
    not exist" as title and detail, and nothing changes.  (On the route
    that adds an item the product id is looked up first.) *)
Theorem unknown_cart_is_answered_404 (env : string) (trace : Exn -> string)
    (req : Request) (now : Clock) (w : World)
    (handler : Request -> Clock -> M Handled) :
  contextCache w !! params_cartId req = None ->
  is_Some (CartService.getProduct (body_productId req)) ->
  In handler [CartController.getCart; CartController.addItemToCart;
              CartController.updateCartItem; CartController.removeCartItem;
              CartController.validateCart] ->
  handle env trace handler req now w
  = (Return {| res_status := 404;
               res_body := Problem (notFound "Cart" (params_cartId req)
                                      req (now InErrorHandler)) |},
     w).
Proof.
  intros Hnone [product Hproduct] Hin.
  pose proof (ServiceFacts.ensureValidContext_unknown (params_cartId req) now
                w Hnone) as Hthrow.
  assert (handler req now w
          = (Return (Next (NotFoundError "Cart" (params_cartId req))), w))
    as Hnext.
  { cbn [In] in Hin.
    destruct Hin as [<- | [<- | [<- | [<- | [<- | []]]]]].
    - unfold CartController.getCart. cbv zeta. apply tryCatch_Throw.
      unfold CartService.getCart. call Hthrow. reflexivity.
    - unfold CartController.addItemToCart. cbv zeta. apply tryCatch_Throw.
      unfold CartService.addItem, CartService.getProduct in *.
      rewrite Hproduct. call Hthrow. reflexivity.
    - unfold CartController.updateCartItem. cbv zeta. apply tryCatch_Throw.
      unfold CartService.updateItem. call Hthrow. reflexivity.
    - unfold CartController.removeCartItem. cbv zeta. apply tryCatch_Throw.
      unfold CartService.removeItem. call Hthrow. reflexivity.
    - unfold CartController.validateCart. cbv zeta. apply tryCatch_Throw.
      unfold CartService.validateCart. call Hthrow. reflexivity. }
  rewrite (handle_Next env trace handler req now w _ w Hnext). reflexivity.
Qed.

Lemma unknown_cart_is_answered_404_witness :
  let req := Scenario.request "cart_unknown" "" "phone_iphone15" 1 in
  handle "production" Scenario.noTrace CartController.getCart req
    (instant 3000) Scenario.wPhone
  = (Return {| res_status := 404;
               res_body := Problem (notFound "Cart" "cart_unknown" req 3000)
            |},
     Scenario.wPhone).
Proof.
  apply (unknown_cart_is_answered_404 "production" Scenario.noTrace
           (Scenario.request "cart_unknown" "" "phone_iphone15" 1)
           (instant 3000) Scenario.wPhone CartController.getCart).
  - vm_compute. reflexivity.
  - vm_compute. eauto.
  - left. reflexivity.
Defined.

(** X28: a product id that is not in the catalog is answered with status 404
    and the same detail on both routes that take one, in two ways: the
    route of the product answers by itself, with the title "Not Found", a
    [type] and a request id that is "unknown" when the header is missing;
    the route that adds an item answers through [errorHandler], with the
    detail as title, no [type], and no request id when the header is
    missing. *)
Theorem unknown_product_is_answered_404 (env : string)
    (trace : Exn -> string) (req : Request) (now : Clock) (w : World)
    (pid : string) :
  CartService.getProduct pid = None ->
  params_productId req = pid ->
  body_productId req = pid ->
  handle env trace CartController.getProduct req now w
  = (Return
       {| res_status := 404;
          res_body := Problem
            {| problem_type := Some "https://api.example.com/errors/not-found";
               title := "Not Found";
               status := 404;
               detail := "Product with ID '" +:+ pid +:+ "' does not exist";
               instance := path req;
               requestId := Some (CartController.requestIdOrUnknown req);
               timestamp := now InController;
               problem_errors := None;
               stack := None |} |},
     w) /\
  handle env trace CartController.addItemToCart req now w
  = (Return {| res_status := 404;
               res_body := Problem (notFound "Product" pid req
                                      (now InErrorHandler)) |},
     w).
Proof.
  intros Hnone Hparam Hbody. split.
  - unfold handle, CartController.getProduct, tryCatch. cbv zeta.
    rewrite Hparam, Hnone. reflexivity.
  - rewrite (handle_Next env trace _ req now w (NotFoundError "Product" pid) w);
      [reflexivity|].
    unfold CartController.addItemToCart. cbv zeta. apply tryCatch_Throw.
    unfold CartService.addItem, CartService.getProduct in *.
    rewrite Hbody, Hnone. reflexivity.
Qed.

Lemma unknown_product_is_answered_404_witness :
  let req := Scenario.request Scenario.cart1 "" "phone_unknown" 1 in
  handle "production" Scenario.noTrace CartController.getProduct req
    (instant 3000) Scenario.wPhone
  = (Return
       {| res_status := 404;
          res_body := Problem
            {| problem_type := Some "https://api.example.com/errors/not-found";
               title := "Not Found";
               status := 404;
               detail := "Product with ID 'phone_unknown' does not exist";
               instance := path req;
               requestId := Some "unknown";
               timestamp := 3000;
               problem_errors := None;
               stack := None |} |},
     Scenario.wPhone) /\
  handle "production" Scenario.noTrace CartController.addItemToCart req
    (instant 3000) Scenario.wPhone
  = (Return {| res_status := 404;
               res_body := Problem (notFound "Product" "phone_unknown" req
                                      3000) |},
     Scenario.wPhone).
Proof.
  exact (unknown_product_is_answered_404 "production" Scenario.noTrace
           (Scenario.request Scenario.cart1 "" "phone_unknown" 1)
           (instant 3000) Scenario.wPhone "phone_unknown" eq_refl eq_refl
           eq_refl).
Defined.

(** X29: when the service keeps the context of a cart and the client
    refuses it, as at the instant [expiresAt] of the context, the routes of
    the cart answer with status 500, "Internal Server Error": the client's
    [SF_CONTEXT_EXPIRED] reaches [errorHandler] as an unexpected error. *)
Theorem expiresAt_instant_is_answered_500 (env : string)
    (trace : Exn -> string) (req : Request) (w : World) (c : ref)
    (context : SalesforceContext) (handler : Request -> Clock -> M Handled)
    (now : Clock) :
  contextCache w !! params_cartId req = Some c ->
  contextObjects w !! c = Some context ->
  contexts w !! contextId context = Some c ->
  is_Some (CartService.getProduct (body_productId req)) ->
  In handler [CartController.getCart; CartController.addItemToCart;
              CartController.updateCartItem; CartController.removeCartItem;
              CartController.validateCart] ->
  ~ expired now context ->
  (forall r, ~ before (now r) (expiresAt context)) ->
  handle env trace handler req now w
  = (Return
       {| res_status := 500;
          res_body :=
            Problem (internalServerError env "SF_CONTEXT_EXPIRED"
                       (trace SalesforceCartClient.SF_CONTEXT_EXPIRED) req
                       (now InErrorHandler)) |},
     w).
Proof.
  intros Hc Ho Hreg [product Hproduct] Hin Hkept Hrefused.
  destruct (SF_CONTEXT_EXPIRED_at_expiresAt w (params_cartId req) c context
              (body_productId req) product (params_itemId req)
              (body_quantity req) now Hc Ho Hreg Hproduct Hkept)
    as (Hread & Hupdate & Hremove).
  destruct (Hread (Hrefused _)) as (Hget & Hadd & Hvalidate).
  specialize (Hupdate (Hrefused _)). specialize (Hremove (Hrefused _)).
  unfold throwsContextExpired in *.
  assert (handler req now w
          = (Return (Next SalesforceCartClient.SF_CONTEXT_EXPIRED), w))
    as Hnext.
  { cbn [In] in Hin.
    destruct Hin as [<- | [<- | [<- | [<- | [<- | []]]]]].
    - apply tryCatch_Throw, Hget.
    - apply tryCatch_Throw, Hadd.
    - apply tryCatch_Throw, Hupdate.
    - apply tryCatch_Throw, Hremove.
    - apply tryCatch_Throw, Hvalidate. }
  rewrite (handle_Next env trace handler req _ w _ w Hnext). reflexivity.
Qed.

Lemma expiresAt_instant_is_answered_500_witness :
  let req := Scenario.request Scenario.cart1 "" "phone_iphone15" 1 in
  handle "production" Scenario.noTrace CartController.getCart req
    (instant 301000) Scenario.wPhone
  = (Return
       {| res_status := 500;
          res_body :=
            Problem (internalServerError "production" "SF_CONTEXT_EXPIRED" ""
                       req 301000) |},
     Scenario.wPhone).
Proof.
  apply (expiresAt_instant_is_answered_500 "production" Scenario.noTrace
           (Scenario.request Scenario.cart1 "" "phone_iphone15" 1)
           Scenario.wPhone 0%nat Scenario.context1 CartController.getCart
           (instant 301000)).
  - vm_compute. reflexivity.
  - vm_compute. reflexivity.
  - vm_compute. reflexivity.
  - vm_compute. eauto.
  - left. reflexivity.
  - vm_compute. discriminate.
  - intros r. vm_compute. discriminate.
Defined.

(** X30: what [errorHandler] never does.  The status of the response is the
    [status] of its body, and the [instance] is the path of the request;
    when [config.server.env] is not "development", the body carries no
    stack, no issue of a [ZodError], and of an error that is no [APIError]
    not the message either. *)
Theorem errorHandler_keeps_internals (env : string)
    (error : Errors.ErrorValue) (stack0 : string) (req : Request) (now : Z) :
  let res := ErrorHandler.errorHandler env error stack0 req now in
  exists problem,
    res_body res = Problem problem /\
    res_status res = status problem /\
    instance problem = path req /\
    (env <> "development" ->
     stack problem = None /\
     match error with
     | Errors.ZodError _ =>
         problem_errors problem = None /\
         detail problem = "One or more fields failed validation"
     | Errors.APIError message statusCode _ _ errors =>
         problem_errors problem = errors /\ detail problem = message /\
         res_status res = statusCode
     | Errors.OtherError _ =>
         res_status res = 500 /\
         detail problem
         = "An unexpected error occurred while processing your request"
     end).
Proof.
  intros res. unfold res, ErrorHandler.errorHandler.
  destruct error as [issues | message statusCode type0 operational errs
                     | message];
    eexists; (split; [reflexivity|]); cbn;
    (split; [reflexivity|]); (split; [reflexivity|]);
    intros Henv; rewrite ?bool_decide_false by exact Henv; repeat split.
Qed.
